(** * Bot-Tele: conversation memory, AI proxy, media relay and feature toggles

    A shallow embedding of the stateful core of [bot.js] together with the
    properties its specification states about it.

    Conventions of the embedding.
    - JavaScript values that the code tests for truthiness are kept as
      [JsValue]; only primitive values are modelled (a property holding an
      object or an array is outside the model).
    - A JavaScript string is a [string]; one character stands for one code
      unit, so [String.length] is the [.length] of the source. The fixed
      texts of the bot are copied as they are written in the source file.
    - Numbers that the code handles are integers ([Z]).
    - A file written with [JSON.stringify] is held as the document that
      [JSON.parse] gives back for it: a property whose value is [undefined]
      is left out by the one and read as [undefined] after the other.
    - [Date.now()] and the outcome of every network or file-system call are
      inputs of the function that performs the call.
    - A handler runs to completion: no other handler is interleaved at its
      [await] points. *)

From Stdlib Require Import ZArith String Ascii List Bool Lia.
From stdpp Require Import base option list gmap fin_maps strings pretty.

Local Open Scope Z_scope.

(** ** JavaScript values *)

Inductive JsValue : Type :=
| JUndefined
| JNull
| JBool (b : bool)
| JNumber (n : Z)
| JString (s : string).

(** [ToBoolean]: what [!v], [v && w], [v || w] and [v ? a : b] test. *)
Definition truthy (v : JsValue) : bool :=
  match v with
  | JUndefined | JNull => false
  | JBool b => b
  | JNumber n => negb (Z.eqb n 0)
  | JString s => negb (String.eqb s EmptyString)
  end.

(** [v || w] *)
Definition js_or (v w : JsValue) : JsValue := if truthy v then v else w.

(** [ToString]: what a template literal prints. *)
Definition to_string (v : JsValue) : string :=
  match v with
  | JUndefined => "undefined"
  | JNull => "null"
  | JBool true => "true"
  | JBool false => "false"
  | JNumber n => pretty n
  | JString s => s
  end.

(** [String.prototype.trim]: the white space and line terminators among the
    code units below 256. *)
Definition is_white_space (a : ascii) : bool :=
  let n := nat_of_ascii a in
  ((9 <=? n)%nat && (n <=? 13)%nat) || (n =? 32)%nat || (n =? 160)%nat.

Fixpoint trimStart (s : string) : string :=
  match s with
  | EmptyString => EmptyString
  | String a rest => if is_white_space a then trimStart rest else s
  end.

Definition trimEnd (s : string) : string :=
  String.rev (trimStart (String.rev s)).

Definition trim (s : string) : string := trimEnd (trimStart s).

(** A call either returns or throws an exception carrying a message. *)
Inductive Completion (A : Type) : Type :=
| Returned (a : A)
| Thrown (error : string).
Arguments Returned {A} a.
Arguments Thrown {A} error.

(** ** Messages and the conversation store *)

Record Message : Type := mkMessage {
  role : JsValue;
  content : JsValue;
  timestamp : JsValue
}.

(** The object held by [conversationHistory]: keyed by chat identifier, its
    values are arrays of messages, oldest first. *)
Abbreviation History := (gmap Z (list Message)).

(** ** Files *)

(** What a [try { readFileSync; JSON.parse; ... }] finds in a file that
    exists: reading or parsing throws with a message, or parsing gives a
    document. *)
Inductive FileData (A : Type) : Type :=
| Broken (error : string)
| Parsed (doc : A).
Arguments Broken {A} error.
Arguments Parsed {A} doc.

(** A parsed status file, seen through the one property the loader reads
    ([uploadEnabled] in upload_status.json, [aiEnabled] in ai_status.json):
    the JSON text [null], on which the property read throws, or a value
    whose property is [flag] ([JUndefined] when the property is absent). *)
Inductive StatusDoc : Type :=
| NullDoc
| FlagDoc (flag : JsValue).

(** The three stores. A parsed otak.json is an object from chat identifiers
    to arrays of message objects, whose properties hold any value. A file
    that parses to another shape (a chat whose value is [null], an array
    that holds [null]), of which the loader keeps the chats it has gone
    through before it throws, is not among these values.
    [write_failure] is the error that [writeFileSync] and [renameSync]
    throw, if they do. *)
Record Disk : Type := mkDisk {
  memory_file : option (FileData History);
  upload_status_file : option (FileData StatusDoc);
  ai_status_file : option (FileData StatusDoc);
  corrupted_files : list (Z * FileData History);
  write_failure : option string
}.

Definition empty_disk : Disk :=
  {| memory_file := None; upload_status_file := None; ai_status_file := None;
     corrupted_files := []; write_failure := None |}.

(** ** The state of the process *)

Record State : Type := mkState {
  conversationHistory : History;
  uploadEnabled : JsValue;
  aiEnabled : JsValue;
  disk : Disk
}.

(** The module-level initialisers: [const conversationHistory = {}],
    [let uploadEnabled = true], [let aiEnabled = true]. *)
Definition fresh_process (d : Disk) : State :=
  {| conversationHistory := ∅; uploadEnabled := JBool true;
     aiEnabled := JBool true; disk := d |}.

Definition set_conversationHistory (s : State) (h : History) : State :=
  {| conversationHistory := h; uploadEnabled := uploadEnabled s;
     aiEnabled := aiEnabled s; disk := disk s |}.

Definition set_uploadEnabled (s : State) (v : JsValue) : State :=
  {| conversationHistory := conversationHistory s; uploadEnabled := v;
     aiEnabled := aiEnabled s; disk := disk s |}.

Definition set_aiEnabled (s : State) (v : JsValue) : State :=
  {| conversationHistory := conversationHistory s;
     uploadEnabled := uploadEnabled s; aiEnabled := v; disk := disk s |}.

Definition set_disk (s : State) (d : Disk) : State :=
  {| conversationHistory := conversationHistory s;
     uploadEnabled := uploadEnabled s; aiEnabled := aiEnabled s; disk := d |}.

(** ** getRelevantConversationContext (bot.js 192-212) *)

(** [msg.content.length + 10]. Reading [.length] of [undefined] or [null]
    throws; a boolean or a number has no [length], and [undefined + 10] is
    [NaN]. *)
Inductive Estimate : Type :=
| TypeError
| NaN
| Tokens (n : Z).

Definition messageTokens (msg : Message) : Estimate :=
  match content msg with
  | JString s => Tokens (Z.of_nat (String.length s) + 10)
  | JUndefined | JNull => TypeError
  | JBool _ | JNumber _ => NaN
  end.

Definition cannot_read_length : string :=
  "Cannot read properties of undefined (reading 'length')".

(** The [for] loop, with [n = i + 1]: the body runs for [i = n - 1] and the
    loop ends when [n = 0]. [relevantMessages.unshift(msg)] is [msg :: _]. *)
Fixpoint context_loop (history : list Message) (maxTokens : Z) (n : nat)
    (currentTokens : Z) (relevantMessages : list Message)
    : Completion (list Message) :=
  match n with
  | O => Returned relevantMessages
  | S i =>
      match history !! i with
      | None => Thrown cannot_read_length
      | Some msg =>
          match messageTokens msg with
          | TypeError => Thrown cannot_read_length
          | NaN => Returned relevantMessages
          | Tokens t =>
              if currentTokens + t <=? maxTokens
              then context_loop history maxTokens i (currentTokens + t)
                     (msg :: relevantMessages)
              else Returned relevantMessages
          end
      end
  end.

Definition getRelevantConversationContext (s : State)
    (chatId : Z) (maxTokens : Z) : Completion (list Message) :=
  match conversationHistory s !! chatId with
  | None => Returned []
  | Some history =>
      if Nat.eqb (length history) 0 then Returned []
      else context_loop history maxTokens (length history) 0 []
  end.

(** The default of the second parameter. *)
Definition default_maxTokens : Z := 900.

(** Cost of a message as the specification counts it. *)
Definition cost (msg : Message) : Z :=
  match messageTokens msg with
  | Tokens t => t
  | _ => 0
  end.

Definition total_cost (msgs : list Message) : Z :=
  foldr (fun msg acc => cost msg + acc) 0 msgs.

Definition has_text (msg : Message) : Prop :=
  exists s, content msg = JString s.

(** What the specification asks of the window [selected] chosen from a
    non-empty [history] under the budget [B]: a suffix of the history,
    within the budget, that the next-older message would overflow. *)
Definition is_suffix_of (history selected : list Message) (older : list Message) : Prop :=
  history = older ++ selected.

Definition next_older_overflows (older selected : list Message) (B : Z) : Prop :=
  forall m, last older = Some m -> total_cost selected + cost m > B.

Definition budgeted_window (history : list Message) (B : Z)
    (selected : list Message) : Prop :=
  exists older,
    is_suffix_of history selected older /\
    total_cost selected <= B /\
    next_older_overflows older selected B.

(** The same with the bound on the cost asked only of a budget that is not
    negative. *)
Definition greedy_window (history : list Message) (B : Z)
    (selected : list Message) : Prop :=
  exists older,
    is_suffix_of history selected older /\
    (0 <= B -> total_cost selected <= B) /\
    (B < 0 -> selected = []) /\
    next_older_overflows older selected B.

(** The newest message of the history is part of the window. *)
Definition keeps_newest (history selected : list Message) : Prop :=
  exists newest, last history = Some newest /\ last selected = Some newest.

Definition text_message (r : string) (c : string) (t : Z) : Message :=
  {| role := JString r; content := JString c; timestamp := JNumber t |}.

(** A content of [n] code units. *)
Fixpoint filler (n : nat) : string :=
  match n with
  | O => EmptyString
  | S n' => String "x"%char (filler n')
  end.

(** A running process that holds the given histories. *)
Definition process_with (h : History) : State :=
  set_conversationHistory (fresh_process empty_disk) h.

(** ** What a function does to the outside world *)

(** A file name given to the upload: a fixed name, or [`prefix${Date.now()}ext`]. *)
Inductive FileName : Type :=
| GivenName (name : string)
| StampedName (prefix : string) (now : Z) (ext : string).

(** A text sent to a chat: a plain string, or the report of an uploaded
    video (whose size is printed with [toFixed(2)]). *)
Inductive Reply : Type :=
| Plain (text : string)
| VideoUploaded (url : string) (file_size : option Z) (duration : JsValue).

Inductive Task : Type :=
| SaveConversationHistory.

(** [HandleError message command] is the call
    [await handleError(error, { ..., command })] of a catch block, with
    [message] the message of the error. It stands for all that
    [handleError] (bot.js 416-471) then does: a line in the error log, a
    report sent to the operator and, in most cases, a text sent to the
    chat. These are not listed in the trace of the handler that makes the
    call. *)
Inductive Effect : Type :=
| LogInfo (text : string)
| LogError (text : string)
| AxiosGetAI (query : string) (username : Z)
| AxiosPostCatbox (fileName : FileName) (userhash : option string)
| BotGetFile (fileId : string)
| BotSendChatAction (chatId : Z) (action : string)
| BotSendMessage (chatId : Z) (reply : Reply)
| SetImmediate (task : Task)
| HandleError (message : string) (command : string).

(** Calls that leave the process for the network; [handleError] sends at
    least its report to the operator. *)
Definition is_network_call (e : Effect) : bool :=
  match e with
  | AxiosGetAI _ _ | AxiosPostCatbox _ _ | BotGetFile _
  | BotSendChatAction _ _ | BotSendMessage _ _ | HandleError _ _ => true
  | LogInfo _ | LogError _ | SetImmediate _ => false
  end.

(** The run ends in a catch block that calls [handleError]. *)
Definition calls_handleError (e : Effect) : bool :=
  match e with
  | HandleError _ _ => true
  | _ => false
  end.

(** Attempts to download a file from the chat platform. *)
Definition is_download (e : Effect) : bool :=
  match e with
  | BotGetFile _ => true
  | _ => false
  end.

(** [cond ? 'Aktif' : 'Nonaktif'] *)
Definition aktif (v : JsValue) : string :=
  if truthy v then "Aktif" else "Nonaktif".

Definition cannot_read_property (prop : string) : string :=
  "Cannot read properties of null (reading '" +:+ prop +:+ "')".

(** ** Feature toggles (bot.js 48-71 and 1837-1863) *)

Definition loadUploadStatus (s : State) : State * list Effect :=
  match upload_status_file (disk s) with
  | None => (s, [])
  | Some (Broken error) =>
      (s, [LogError ("Error memuat status upload: " +:+ error)])
  | Some (Parsed NullDoc) =>
      (s, [LogError ("Error memuat status upload: "
                     +:+ cannot_read_property "uploadEnabled")])
  | Some (Parsed (FlagDoc flag)) =>
      (set_uploadEnabled s flag,
       [LogInfo ("Status Upload berhasil dimuat: " +:+ aktif flag)])
  end.

Definition saveUploadStatus (s : State) : State * list Effect :=
  match write_failure (disk s) with
  | None =>
      let d := disk s in
      (set_disk s
         {| memory_file := memory_file d;
            upload_status_file := Some (Parsed (FlagDoc (uploadEnabled s)));
            ai_status_file := ai_status_file d;
            corrupted_files := corrupted_files d;
            write_failure := write_failure d |},
       [LogInfo ("Status Upload berhasil disimpan: "
                 +:+ aktif (uploadEnabled s))])
  | Some error =>
      (s, [LogError ("Error menyimpan status upload: " +:+ error)])
  end.

Definition loadAIStatus (s : State) : State * list Effect :=
  match ai_status_file (disk s) with
  | None => (s, [])
  | Some (Broken error) =>
      (s, [LogError ("Error memuat status AI: " +:+ error)])
  | Some (Parsed NullDoc) =>
      (s, [LogError ("Error memuat status AI: "
                     +:+ cannot_read_property "aiEnabled")])
  | Some (Parsed (FlagDoc flag)) =>
      (set_aiEnabled s flag,
       [LogInfo ("Status AI berhasil dimuat: " +:+ aktif flag)])
  end.

Definition saveAIStatus (s : State) : State * list Effect :=
  match write_failure (disk s) with
  | None =>
      let d := disk s in
      (set_disk s
         {| memory_file := memory_file d;
            upload_status_file := upload_status_file d;
            ai_status_file := Some (Parsed (FlagDoc (aiEnabled s)));
            corrupted_files := corrupted_files d;
            write_failure := write_failure d |},
       [LogInfo ("Status AI berhasil disimpan: " +:+ aktif (aiEnabled s))])
  | Some error =>
      (s, [LogError ("Error menyimpan status AI: " +:+ error)])
  end.

(** The state change of the [toggle_ai] and [toggle_upload] branches of the
    callback handler (bot.js 1524-1526, 1557-1559): negate, then save. The
    answers sent to the chat afterwards are not part of this model. *)
Definition toggle_ai (s : State) : State * list Effect :=
  saveAIStatus (set_aiEnabled s (JBool (negb (truthy (aiEnabled s))))).

Definition toggle_upload (s : State) : State * list Effect :=
  saveUploadStatus
    (set_uploadEnabled s (JBool (negb (truthy (uploadEnabled s))))).

(** ** Conversation memory (bot.js 134-170) *)

(** [msg => msg.role && msg.content] *)
Definition valid_message (msg : Message) : bool :=
  truthy (role msg) && truthy (content msg).

(** [{ ...msg, timestamp: msg.timestamp || Date.now() }] *)
Definition backfill (now : Z) (msg : Message) : Message :=
  {| role := role msg; content := content msg;
     timestamp := js_or (timestamp msg) (JNumber now) |}.

(** The clock readings of one run of the loader: [backfill_time chatId i]
    is what [Date.now()] gives when entry [i] of the filtered array of
    [chatId] is mapped, [quarantine_time] what it gives when the file is
    renamed. *)
Record LoadClock : Type := mkLoadClock {
  backfill_time : Z -> nat -> Z;
  quarantine_time : Z
}.

(** [parsedData[chatId].filter(...).map(...)] *)
Definition load_chat (clock : LoadClock) (chatId : Z) (msgs : list Message)
    : list Message :=
  imap (fun i msg => backfill (backfill_time clock chatId i) msg)
       (filter (fun msg => valid_message msg = true) msgs).

(** The [for ... in] loop: every chat of the file replaces the entry of
    the same key in memory, other entries of the memory stay. *)
Definition load_chats (clock : LoadClock) (parsedData memory : History)
    : History :=
  map_imap (fun chatId msgs => Some (load_chat clock chatId msgs)) parsedData
  ∪ memory.

Definition loadConversationHistory (clock : LoadClock) (s : State)
    : Completion (State * list Effect) :=
  match memory_file (disk s) with
  | None => Returned (s, [])
  | Some (Parsed parsedData) =>
      Returned
        (set_conversationHistory s
           (load_chats clock parsedData (conversationHistory s)),
         [LogInfo "Memori percakapan berhasil dimuat"])
  | Some (Broken error) =>
      match write_failure (disk s) with
      | Some rename_error => Thrown rename_error
      | None =>
          let d := disk s in
          Returned
            (set_disk s
               {| memory_file := None;
                  upload_status_file := upload_status_file d;
                  ai_status_file := ai_status_file d;
                  corrupted_files :=
                    (quarantine_time clock, Broken error)
                    :: corrupted_files d;
                  write_failure := write_failure d |},
             [LogError ("Error memuat memori: " +:+ error)])
      end
  end.

Definition saveConversationHistory (s : State) : State * list Effect :=
  let validData : History :=
    (fun msgs => filter (fun msg => valid_message msg = true) msgs)
      <$> conversationHistory s in
  match write_failure (disk s) with
  | None =>
      let d := disk s in
      (set_disk s
         {| memory_file := Some (Parsed validData);
            upload_status_file := upload_status_file d;
            ai_status_file := ai_status_file d;
            corrupted_files := corrupted_files d;
            write_failure := write_failure d |},
       [])
  | Some error => (s, [LogError ("Error menyimpan memori: " +:+ error)])
  end.

(** ** The AI proxy (bot.js 214-268) *)

(** The part of [config.js] that the proxy reads. [defaultPersonality] is
    [None] when the configuration does not set it. [personalities] holds
    the properties that the object [BOT_CONFIG.personalities] has of its
    own; the object being a plain one, a read of it by name also finds the
    names of [Object.prototype] (see [chosen_systemMessage]). *)
Record Personality : Type := mkPersonality {
  systemMessage : JsValue
}.

Record BotConfig : Type := mkBotConfig {
  defaultPersonality : option string;
  personalities : gmap string Personality;
  aiDisabled : JsValue;
  apiFailure : JsValue
}.

(** What [await axios.get(...)] followed by [response.data.result] gives:
    the request is rejected ([detail] is the text that
    [error.response?.data || error.message] prints), the body is [null]
    or [undefined] so that reading [result] throws, or the body has the
    property [result] ([JUndefined] when absent). *)
Inductive AiOutcome : Type :=
| AiRejected (detail : string)
| AiNoBody
| AiBody (result : JsValue).

(** The three readings of [Date.now()] in [getAIResponse]. *)
Record TurnClock : Type := mkTurnClock {
  system_time : Z;
  user_time : Z;
  assistant_time : Z
}.

(** The names that a plain object inherits from [Object.prototype]. Read
    on the object of the personalities, each gives a truthy value (a
    function, and the prototype itself for [__proto__]) that has no
    property [systemMessage]. *)
Definition object_prototype_properties : list string :=
  ["constructor"; "__defineGetter__"; "__defineSetter__"; "hasOwnProperty";
   "__lookupGetter__"; "__lookupSetter__"; "isPrototypeOf";
   "propertyIsEnumerable"; "toString"; "valueOf"; "__proto__";
   "toLocaleString"].

Definition is_inherited_property (key : string) : bool :=
  existsb (String.eqb key) object_prototype_properties.

(** [BOT_CONFIG.personalities[personalityKey]] and, when that value is
    truthy, its [systemMessage]: that of the personality when the key is
    one of the configuration, [undefined] when the key is found on the
    prototype only, and nothing ([None]) when the lookup gives
    [undefined]. *)
Definition chosen_systemMessage (cfg : BotConfig) (personalityKey : string)
    : option JsValue :=
  match personalities cfg !! personalityKey with
  | Some personality => Some (systemMessage personality)
  | None =>
      if is_inherited_property personalityKey then Some JUndefined else None
  end.

(** The array stored under a new chat: empty, or holding the system message
    of the default personality. *)
Definition initial_history (cfg : BotConfig) (clock : TurnClock)
    : list Message :=
  match defaultPersonality cfg with
  | None => []
  | Some key =>
      if String.eqb key EmptyString then []
      else
        match chosen_systemMessage cfg key with
        | None => []
        | Some message =>
            [ {| role := JString "system";
                 content := message;
                 timestamp := JNumber (system_time clock) |} ]
        end
  end.

(** [array.push(x)] and [array.pop()] *)
Definition push (msgs : list Message) (msg : Message) : list Message :=
  msgs ++ [msg].

Definition pop (msgs : list Message) : list Message := removelast msgs.

(** The array that a turn works on, after [if (!conversationHistory[chatId])
    { ... }]: the one stored for the chat, or the one created for a chat
    without an entry. *)
Definition initialised (cfg : BotConfig) (clock : TurnClock) (s : State)
    (chatId : Z) : list Message :=
  match conversationHistory s !! chatId with
  | Some msgs => msgs
  | None => initial_history cfg clock
  end.

Definition getAIResponse (cfg : BotConfig) (clock : TurnClock)
    (outcome : AiOutcome) (s : State) (chatId : Z) (message : string)
    : JsValue * State * list Effect :=
  if negb (truthy (aiEnabled s)) then (aiDisabled cfg, s, [])
  else
    let asked :=
      push (initialised cfg clock s chatId)
        {| role := JString "user"; content := JString message;
           timestamp := JNumber (user_time clock) |} in
    let failed (detail : string) :=
      (apiFailure cfg,
       set_conversationHistory s (<[chatId := pop asked]> (conversationHistory s)),
       [AxiosGetAI message chatId; LogError ("Error AI: " +:+ detail)]) in
    match outcome with
    | AiBody aiResponse =>
        (aiResponse,
         set_conversationHistory s
           (<[chatId :=
                push asked
                  {| role := JString "assistant"; content := aiResponse;
                     timestamp := JNumber (assistant_time clock) |}]>
              (conversationHistory s)),
         [AxiosGetAI message chatId; SetImmediate SaveConversationHistory])
    | AiNoBody => failed (cannot_read_property "result")
    | AiRejected detail => failed detail
    end.

(** [getAIResponse] above is a turn that no other handler interleaves with.
    In the source the function is suspended at [await axios.get(...)]
    between the push of the user message and the push of the answer (or the
    [pop()] of the catch block), and other handlers run on the same
    [conversationHistory] in the meantime. The two definitions below are the
    parts of the function before and after the [await]. *)

(** Up to the [await] (bot.js 220-245), AI being enabled: the entry is
    created when the chat has none, the user message is pushed and the
    request is sent. *)
Definition getAIResponse_before_await (cfg : BotConfig) (clock : TurnClock)
    (s : State) (chatId : Z) (message : string) : State * list Effect :=
  (set_conversationHistory s
     (<[chatId :=
          push (initialised cfg clock s chatId)
            {| role := JString "user"; content := JString message;
               timestamp := JNumber (user_time clock) |}]>
        (conversationHistory s)),
   [AxiosGetAI message chatId]).

Definition cannot_read_property_of_undefined (prop : string) : string :=
  "Cannot read properties of undefined (reading '" +:+ prop +:+ "')".

(** From the [await] on (bot.js 247-267), on the state [s] that the
    request finds when it ends. [conversationHistory[chatId]] is read
    again: the answer is pushed on the array stored then, and the catch
    block pops whatever is last in it. Were the entry gone, the push would
    throw into the catch block, whose [pop()] throws out of the
    function. *)
Definition getAIResponse_after_await (cfg : BotConfig) (clock : TurnClock)
    (outcome : AiOutcome) (s : State) (chatId : Z)
    : Completion JsValue * State * list Effect :=
  let caught (detail : string) :=
    match conversationHistory s !! chatId with
    | Some msgs =>
        (Returned (apiFailure cfg),
         set_conversationHistory s
           (<[chatId := pop msgs]> (conversationHistory s)),
         [LogError ("Error AI: " +:+ detail)])
    | None =>
        (Thrown (cannot_read_property_of_undefined "pop"), s,
         [LogError ("Error AI: " +:+ detail)])
    end in
  match outcome with
  | AiBody aiResponse =>
      match conversationHistory s !! chatId with
      | Some msgs =>
          (Returned aiResponse,
           set_conversationHistory s
             (<[chatId :=
                  push msgs
                    {| role := JString "assistant"; content := aiResponse;
                       timestamp := JNumber (assistant_time clock) |}]>
                (conversationHistory s)),
           [SetImmediate SaveConversationHistory])
      | None => caught (cannot_read_property_of_undefined "push")
      end
  | AiNoBody => caught (cannot_read_property "result")
  | AiRejected detail => caught detail
  end.

(** The whole call, with what the other handlers do to the state while
    the request is in flight given as [meanwhile]. *)
Definition getAIResponse_in_flight (cfg : BotConfig) (clock : TurnClock)
    (outcome : AiOutcome) (meanwhile : State -> State) (s : State)
    (chatId : Z) (message : string)
    : Completion JsValue * State * list Effect :=
  if negb (truthy (aiEnabled s)) then (Returned (aiDisabled cfg), s, [])
  else
    let asked := getAIResponse_before_await cfg clock s chatId message in
    let answered :=
      getAIResponse_after_await cfg clock outcome (meanwhile asked.1) chatId in
    (answered.1.1, answered.1.2, asked.2 ++ answered.2).

(** No other handler has changed the history of the chat between the
    push of the user message and the end of the request. *)
Definition chat_untouched_in_flight (cfg : BotConfig) (clock : TurnClock)
    (meanwhile : State -> State) (s : State) (chatId : Z) (message : string)
    : Prop :=
  let asked := (getAIResponse_before_await cfg clock s chatId message).1 in
  conversationHistory (meanwhile asked) !! chatId
  = conversationHistory asked !! chatId.

(** [/clear] (bot.js 873-883) and the [reset_conversation] branch of the
    callback handler (bot.js 1445-1449): the history of the chat becomes the
    empty array, the store is saved, a confirmation is sent; [sent] is the
    outcome of the awaited [bot.sendMessage]. *)
Definition clear (sent : Completion unit) (s : State) (chatId : Z)
    : State * list Effect :=
  let '(s', saved) :=
    saveConversationHistory
      (set_conversationHistory s (<[chatId := []]> (conversationHistory s))) in
  (s',
   saved
   ++ [BotSendMessage chatId (Plain "🧹 Memori percakapan berhasil dihapus!")]
   ++ match sent with
      | Returned _ => [LogInfo ("[" +:+ pretty chatId +:+ "] hapus memori")]
      | Thrown error => [HandleError error "clear"]
      end).

Definition reset_conversation (sent : Completion unit) (s : State)
    (chatId : Z) : State * list Effect :=
  let '(s', saved) :=
    saveConversationHistory
      (set_conversationHistory s (<[chatId := []]> (conversationHistory s))) in
  (s',
   saved
   ++ [BotSendMessage chatId (Plain "🧹 Memori percakapan direset!")]
   ++ match sent with
      | Returned _ => []
      | Thrown error => [HandleError error "callback_query"]
      end).

(** ** The media relay (bot.js 73-132 and 539-590) *)

Inductive UploadResult : Type :=
| UploadOk (url : string)
| UploadFailed (error : JsValue).

(** What [await axios.post(...)] gives: a rejection with its message, or a
    response. [response.data] is what axios makes of the body: a body that
    is the JSON text of an object or of an array is handed over parsed
    ([CatboxResponseObject]; such a value is truthy and has no
    [startsWith]), the JSON text of a string, a number, a boolean or [null]
    as that value, and any other body as the string received
    ([CatboxResponse data]). *)
Inductive CatboxOutcome : Type :=
| CatboxRejected (message : string)
| CatboxResponse (data : JsValue)
| CatboxResponseObject.

Definition catbox_link_prefix : string := "https://files.catbox.moe/".

Definition startsWith_is_not_a_function : string :=
  "response.data.startsWith is not a function".

Definition uploadToCatbox (outcome : CatboxOutcome) (fileName : FileName)
    (userhash : option string) : UploadResult * list Effect :=
  let failed (message : string) :=
    (UploadFailed (JString message),
     [AxiosPostCatbox fileName userhash;
      LogError ("Catbox upload error: " +:+ message)]) in
  match outcome with
  | CatboxRejected message => failed message
  | CatboxResponse data =>
      if truthy data then
        match data with
        | JString body =>
            if String.prefix catbox_link_prefix body
            then (UploadOk (trim body), [AxiosPostCatbox fileName userhash])
            else (UploadFailed (js_or data (JString "Upload gagal")),
                  [AxiosPostCatbox fileName userhash])
        | _ => failed startsWith_is_not_a_function
        end
      else (UploadFailed (js_or data (JString "Upload gagal")),
            [AxiosPostCatbox fileName userhash])
  | CatboxResponseObject => failed startsWith_is_not_a_function
  end.

(** What [bot.getFile] and the download that follows give: a failure with
    its message, or the bytes with the base name of the path. *)
Inductive TelegramFile : Type :=
| FileUnavailable (message : string)
| FileFetched (buffer : string) (baseName : string).

Inductive DownloadResult : Type :=
| DownloadOk (buffer : string) (fileName : string)
| DownloadFailed (error : string).

Definition downloadFileFromTelegram (outcome : TelegramFile)
    (fileId : string) : DownloadResult * list Effect :=
  match outcome with
  | FileFetched buffer baseName =>
      (DownloadOk buffer baseName, [BotGetFile fileId])
  | FileUnavailable message =>
      (DownloadFailed message,
       [BotGetFile fileId; LogError ("Download file error: " +:+ message)])
  end.

(** A message with a video attachment. [file_size] is optional on the
    platform. *)
Record VideoMessage : Type := mkVideoMessage {
  chat_id : Z;
  from_id : Z;
  from_first_name : JsValue;
  file_id : string;
  file_size : option Z;
  duration : JsValue
}.

(** What the outside world answers during one run of the handler. *)
Record VideoWorld : Type := mkVideoWorld {
  typing : Completion unit;
  telegram_file : TelegramFile;
  catbox : CatboxOutcome;
  delivery : Completion unit;
  upload_time : Z
}.

Definition max_video_size : Z := 200 * 1024 * 1024.

(** [video.file_size > 200 * 1024 * 1024]; an absent size compares false. *)
Definition too_large (size : option Z) : bool :=
  match size with
  | Some n => max_video_size <? n
  | None => false
  end.

Definition video_too_large_text : string :=
  "❌ Ukuran video terlalu besar! Maksimal 200MB.".

(** The [try] block of the handler: what it does, and how it ends. A
    [return bot.sendMessage(...)] is not awaited inside the block. *)
Definition video_try (w : VideoWorld) (msg : VideoMessage)
    (userName : JsValue) : list Effect * Completion unit :=
  let chatId := chat_id msg in
  match typing w with
  | Thrown error => ([BotSendChatAction chatId "typing"], Thrown error)
  | Returned _ =>
      if too_large (file_size msg) then
        ([BotSendChatAction chatId "typing";
          BotSendMessage chatId (Plain video_too_large_text)],
         Returned tt)
      else
        let '(downloadResult, downloading) :=
          downloadFileFromTelegram (telegram_file w) (file_id msg) in
        match downloadResult with
        | DownloadFailed error =>
            ([BotSendChatAction chatId "typing"] ++ downloading
             ++ [BotSendMessage chatId
                   (Plain ("❌ Gagal mengunduh video: " +:+ error))],
             Returned tt)
        | DownloadOk buffer _ =>
            let '(uploadResult, uploading) :=
              uploadToCatbox (catbox w)
                (StampedName "video_" (upload_time w) ".mp4") None in
            match uploadResult with
            | UploadOk url =>
                let sending :=
                  [BotSendChatAction chatId "typing"] ++ downloading
                  ++ uploading
                  ++ [BotSendMessage chatId
                        (VideoUploaded url (file_size msg) (duration msg))] in
                match delivery w with
                | Returned _ =>
                    (sending
                     ++ [LogInfo ("[" +:+ to_string userName +:+ " ("
                                  +:+ pretty (from_id msg)
                                  +:+ ")] upload video ke Catbox: " +:+ url)],
                     Returned tt)
                | Thrown error => (sending, Thrown error)
                end
            | UploadFailed error =>
                ([BotSendChatAction chatId "typing"] ++ downloading
                 ++ uploading
                 ++ [BotSendMessage chatId
                       (Plain ("❌ Gagal mengupload video: "
                               +:+ to_string error))],
                 delivery w)
            end
        end
  end.

(** [bot.on('video', ...)] *)
Definition on_video (w : VideoWorld) (s : State) (msg : VideoMessage)
    : State * list Effect :=
  let userName := js_or (from_first_name msg) (JString "Pengguna") in
  if negb (truthy (uploadEnabled s)) then
    (s, [LogInfo ("[" +:+ to_string userName +:+ " ("
                  +:+ pretty (from_id msg)
                  +:+ ")] mengirim video, tapi upload dinonaktifkan")])
  else
    let '(done, ending) := video_try w msg userName in
    match ending with
    | Returned _ => (s, done)
    | Thrown error => (s, done ++ [HandleError error "video_upload"])
    end.

(** ** Statements of the specification *)

(** The number of messages held for a chat; a chat without an entry holds
    none. *)
Definition history_length (s : State) (chatId : Z) : nat :=
  length (default [] (conversationHistory s !! chatId)).

(** A property is missing when it is absent or [null]. *)
Definition is_missing (v : JsValue) : bool :=
  match v with
  | JUndefined | JNull => true
  | _ => false
  end.

(** The completion call succeeds, as the specification counts it, when the
    request is answered by a body that carries a result; a network error,
    a response that is rejected and a malformed body are failures. *)
Definition call_succeeds (outcome : AiOutcome) : bool :=
  match outcome with
  | AiBody result => negb (is_missing result)
  | AiRejected _ | AiNoBody => false
  end.

(** The failures that reach the catch block of [getAIResponse]: the
    request is rejected, or the body is [null] or [undefined] so that
    reading [result] throws. A body that is an object without [result]
    does not throw. *)
Definition call_throws (outcome : AiOutcome) : bool :=
  match outcome with
  | AiRejected _ | AiNoBody => true
  | AiBody _ => false
  end.

(** Rollback as the specification states it, on lengths. *)
Definition turn_lengths (before after : State) (chatId : Z)
    (outcome : AiOutcome) : Prop :=
  if call_succeeds outcome
  then history_length after chatId = (history_length before chatId + 2)%nat
  else history_length after chatId = history_length before chatId.

Definition user_message (message : string) (clock : TurnClock) : Message :=
  {| role := JString "user"; content := JString message;
     timestamp := JNumber (user_time clock) |}.

Definition assistant_message (aiResponse : JsValue) (clock : TurnClock)
    : Message :=
  {| role := JString "assistant"; content := aiResponse;
     timestamp := JNumber (assistant_time clock) |}.

(** A flag holds a boolean. *)
Definition is_boolean (v : JsValue) : bool :=
  match v with
  | JBool _ => true
  | _ => false
  end.

(** A status file is a well-formed record when it parses and its property
    is a boolean. *)
Definition well_formed_record (file : FileData StatusDoc) : bool :=
  match file with
  | Parsed (FlagDoc flag) => is_boolean flag
  | _ => false
  end.

Definition logs_error (effects : list Effect) : bool :=
  existsb (fun e => match e with LogError _ => true | _ => false end) effects.

(** Loading as the specification states it: without a record, and with a
    record that is not well formed, the default [true] is kept, the latter
    with an error in the log. *)
Definition keeps_default_unless_well_formed
    (file : option (FileData StatusDoc)) (flag : JsValue)
    (effects : list Effect) : Prop :=
  match file with
  | None => flag = JBool true
  | Some record =>
      if well_formed_record record then is_boolean flag = true
      else flag = JBool true /\ logs_error effects = true
  end.

(** A configuration with one personality, which is the default one. *)
Definition sample_config : BotConfig :=
  {| defaultPersonality := Some "ramah";
     personalities :=
       {[ "ramah" := {| systemMessage := JString "Kamu asisten ramah." |} ]};
     aiDisabled := JString "AI sedang dinonaktifkan.";
     apiFailure := JString "Gagal menghubungi AI." |}.

Definition sample_clock : TurnClock :=
  {| system_time := 1000; user_time := 1001; assistant_time := 1002 |}.

(** The body is a link on the host's domain. *)
Definition is_catbox_link (body : string) : bool :=
  String.prefix catbox_link_prefix body.

(** The success criterion of the relay as the specification states it: a
    success exactly for a link, and otherwise a failure whose error is the
    body as received. *)
Definition relay_criterion (body : string) (result : UploadResult) : Prop :=
  ((exists url, result = UploadOk url) <-> is_catbox_link body = true) /\
  (is_catbox_link body = false -> result = UploadFailed (JString body)).



Definition double_quote : string := String (ascii_of_nat 34) EmptyString.

(** An error body that is not JSON text, so that [response.data] is the
    string received. *)
Definition error_text : string := "File size exceeds the limit.".

Definition sample_video (size : Z) : VideoMessage :=
  {| chat_id := 7; from_id := 42; from_first_name := JString "Budi";
     file_id := "BAACAgUAAx"; file_size := Some size;
     duration := JNumber 12 |}.

Definition sample_world : VideoWorld :=
  {| typing := Returned tt;
     telegram_file := FileFetched "bytes" "file_3.mp4";
     catbox := CatboxResponse (JString "https://files.catbox.moe/ab12cd.mp4");
     delivery := Returned tt;
     upload_time := 1700000000000 |}.

Definition has_role_and_content (msg : Message) : bool :=
  negb (is_missing (role msg)) && negb (is_missing (content msg)).

(** The state of a fresh process that loads what [s] has saved. *)
Definition save_then_load (clock : LoadClock) (s : State)
    : Completion (State * list Effect) :=
  loadConversationHistory clock
    (fresh_process (disk (saveConversationHistory s).1)).

(** The round trip as the specification states it: the entries that have a
    role and a content come back in order with the same role and content,
    every entry that comes back has a timestamp, and a timestamp that was
    present is the same. *)
Definition round_trip_of_present (stored loaded : list Message) : Prop :=
  Forall2
    (fun m m' =>
       role m' = role m /\ content m' = content m /\
       is_missing (timestamp m') = false /\
       (is_missing (timestamp m) = false -> timestamp m' = timestamp m))
    (filter (fun m => has_role_and_content m = true) stored)
    loaded.

(** The round trip on truthy values: the entries whose role and content are
    both truthy come back, and a truthy timestamp is the same. *)
Definition round_trip_of_truthy (stored loaded : list Message) : Prop :=
  Forall2
    (fun m m' =>
       role m' = role m /\ content m' = content m /\
       is_missing (timestamp m') = false /\
       (truthy (timestamp m) = true -> timestamp m' = timestamp m) /\
       (truthy (timestamp m) = false -> exists now, timestamp m' = JNumber now))
    (filter (fun m => valid_message m = true) stored)
    loaded.

Definition sample_load_clock : LoadClock :=
  {| backfill_time := fun _ _ => 1700000000000;
     quarantine_time := 1700000000001 |}.

(** ** Further statements *)

(** [window] ends the list [whole]: [whole] is [window] with older messages
    in front. *)
Definition is_tail_of (window whole : list Message) : Prop :=
  exists older, whole = older ++ window.

(** A message as the loader leaves it: role and content truthy, and a
    timestamp that is there. *)
Definition well_kept (msg : Message) : Prop :=
  valid_message msg = true /\ is_missing (timestamp msg) = false.

(** A disk whose conversation file cannot be parsed. *)
Definition disk_with_broken_memory (error : string) : Disk :=
  {| memory_file := Some (Broken error); upload_status_file := None;
     ai_status_file := None; corrupted_files := []; write_failure := None |}.

(** A disk on which every write throws. *)
Definition read_only_disk (error : string) : Disk :=
  {| memory_file := None; upload_status_file := None; ai_status_file := None;
     corrupted_files := []; write_failure := Some error |}.




(** Role and content truthy, and a truthy timestamp: what neither the
    filters nor the backfill change. *)
Definition settled (msg : Message) : Prop :=
  valid_message msg = true /\ truthy (timestamp msg) = true.

(** The calls of a kind among the effects of a run. *)
Definition posts_to_catbox (e : Effect) : bool :=
  match e with
  | AxiosPostCatbox _ _ => true
  | _ => false
  end.

Definition sends_message (e : Effect) : bool :=
  match e with
  | BotSendMessage _ _ => true
  | _ => false
  end.

Definition count_effects (kind : Effect -> bool) (effects : list Effect)
    : nat :=
  length (List.filter kind effects).

(** ** The user cache (bot.js 172-190) and the main message handler
    (bot.js 763-795) *)

(** The line feed that [\n] stands for in a template. *)
Definition newline : string := String (ascii_of_nat 10) EmptyString.

(** A JavaScript [Set] of user identifiers, in insertion order and without
    repetition. *)
Definition set_has (x : Z) (set : list Z) : bool := bool_decide (x ∈ set).

Definition set_add (x : Z) (set : list Z) : list Z :=
  if set_has x set then set else set ++ [x].

(** [new Set(array)] *)
Definition new_Set (array : list Z) : list Z :=
  foldl (fun set x => set_add x set) [] array.

(** The process with its user cache and the file of the cache. A parsed
    user_cache.json is an array of identifiers; a text on which
    [new Set(JSON.parse(data))] throws counts as [Broken]. *)
Record Bot : Type := mkBot {
  core : State;
  userCache : list Z;
  user_cache_file : option (FileData (list Z))
}.

Definition set_core (b : Bot) (s : State) : Bot :=
  {| core := s; userCache := userCache b;
     user_cache_file := user_cache_file b |}.

(** [let userCache = new Set()] beside the initialisers of the state. *)
Definition fresh_bot (d : Disk) (cache_file : option (FileData (list Z)))
    : Bot :=
  {| core := fresh_process d; userCache := [];
     user_cache_file := cache_file |}.

Definition loadUserCache (b : Bot) : Bot * list Effect :=
  match user_cache_file b with
  | None => (b, [])
  | Some (Broken error) =>
      (b, [LogError ("Error memuat cache pengguna: " +:+ error)])
  | Some (Parsed array) =>
      ({| core := core b; userCache := new_Set array;
          user_cache_file := user_cache_file b |},
       [LogInfo "Cache pengguna berhasil dimuat"])
  end.

Definition saveUserCache (b : Bot) : Bot * list Effect :=
  match write_failure (disk (core b)) with
  | None =>
      ({| core := core b; userCache := userCache b;
          user_cache_file := Some (Parsed (userCache b)) |}, [])
  | Some error =>
      (b, [LogError ("Error menyimpan cache pengguna: " +:+ error)])
  end.

(** [notifyAdmin] (bot.js 408-414); [sent] is the outcome of the awaited
    [bot.sendMessage]. *)
Definition notifyAdmin (adminId : Z) (sent : Completion unit)
    (message : string) : list Effect :=
  BotSendMessage adminId
    (Plain ("🔔 ADMIN NOTIFIKASI:" +:+ newline +:+ message))
  :: match sent with
     | Returned _ => []
     | Thrown error =>
         [LogError ("Gagal mengirim notifikasi admin: " +:+ error)]
     end.

(** What the handlers of this part do: an effect as before, or a call of
    [bot.sendMessage] whose text is the value given. *)
Inductive Event : Type :=
| Did (e : Effect)
| BotSendText (chatId : Z) (text : JsValue).

(** An incoming message: [text] is absent on a message without text, and
    the five flags say whether [msg.photo], [msg.video], [msg.document],
    [msg.audio] and [msg.voice] are there. *)
Record IncomingMessage : Type := mkIncomingMessage {
  msg_chat_id : Z;
  msg_from_id : Z;
  msg_first_name : JsValue;
  msg_text : option string;
  msg_photo : bool;
  msg_video : bool;
  msg_document : bool;
  msg_audio : bool;
  msg_voice : bool
}.

(** What the outside world answers during one run of the handler. *)
Record MessageWorld : Type := mkMessageWorld {
  admin_notice : Completion unit;
  typing_indicator : Completion unit;
  completion : AiOutcome;
  turn_clock : TurnClock;
  answer_delivery : Completion unit
}.

Definition substring_is_not_a_function : string :=
  "aiResponse.substring is not a function".

Definition cannot_read_substring : string :=
  "Cannot read properties of undefined (reading 'substring')".

(** The first test of the handler: no text or an empty one, a command, or
    an attachment. *)
Definition is_ignored (msg : IncomingMessage) : bool :=
  match msg_text msg with
  | None => true
  | Some messageText =>
      String.eqb messageText EmptyString
      || String.prefix "/" messageText
      || msg_photo msg || msg_video msg || msg_document msg
      || msg_audio msg || msg_voice msg
  end.

(** The [try] block of the handler on the state left by the detection of a
    new user. *)
Definition message_try (cfg : BotConfig) (w : MessageWorld) (b : Bot)
    (chatId : Z) (messageText : string) (userName : JsValue)
    : Bot * list Event * Completion unit :=
  match typing_indicator w with
  | Thrown error =>
      (b, [Did (BotSendChatAction chatId "typing")], Thrown error)
  | Returned _ =>
      let '(aiResponse, s', asked) :=
        getAIResponse cfg (turn_clock w) (completion w) (core b) chatId
          messageText in
      let done :=
        [Did (BotSendChatAction chatId "typing")] ++ map Did asked
        ++ [BotSendText chatId aiResponse] in
      match answer_delivery w with
      | Thrown error => (set_core b s', done, Thrown error)
      | Returned _ =>
          match aiResponse with
          | JString answer =>
              (set_core b s',
               done
               ++ [Did (LogInfo ("Respons untuk [" +:+ to_string userName
                                 +:+ "]: " +:+ substring 0 50 answer
                                 +:+ "..."))],
               Returned tt)
          | JUndefined | JNull =>
              (set_core b s', done, Thrown cannot_read_substring)
          | JBool _ | JNumber _ =>
              (set_core b s', done, Thrown substring_is_not_a_function)
          end
      end
  end.

(** [bot.on('message', ...)] *)
Definition on_message (cfg : BotConfig) (adminId : Z) (w : MessageWorld)
    (b : Bot) (msg : IncomingMessage) : Bot * list Event :=
  let chatId := msg_chat_id msg in
  let userId := msg_from_id msg in
  let userName := js_or (msg_first_name msg) (JString "Pengguna") in
  match msg_text msg with
  | None => (b, [])
  | Some messageText =>
      if is_ignored msg then (b, [])
      else if negb (truthy (aiEnabled (core b))) then
        (b, [Did (LogInfo ("AI dinonaktifkan, mengabaikan pesan dari ["
                           +:+ to_string userName +:+ " (" +:+ pretty userId
                           +:+ ")]: " +:+ messageText))])
      else
        let received :=
          [Did (LogInfo ("Pesan dari [" +:+ to_string userName +:+ " ("
                         +:+ pretty userId +:+ ")]: " +:+ messageText))] in
        let '(b1, greeted) :=
          if set_has userId (userCache b) then (b, [])
          else
            let '(b', saved) :=
              saveUserCache
                {| core := core b; userCache := set_add userId (userCache b);
                   user_cache_file := user_cache_file b |} in
            (b',
             saved
             ++ notifyAdmin adminId (admin_notice w)
                  ("👤 USER BARU:" +:+ newline +:+ to_string userName
                   +:+ " (" +:+ pretty userId +:+ ")" +:+ newline
                   +:+ "Pesan: " +:+ double_quote +:+ messageText
                   +:+ double_quote)) in
        let '(b2, done, ending) :=
          message_try cfg w b1 chatId messageText userName in
        (b2,
         received ++ map Did greeted ++ done
         ++ match ending with
            | Returned _ => []
            | Thrown error => [Did (HandleError error "main_message")]
            end)
  end.

(** The messages that a run sends to the operator through [notifyAdmin]. *)
Definition is_notice_to (adminId : Z) (ev : Event) : bool :=
  match ev with
  | Did (BotSendMessage chat _) => bool_decide (chat = adminId)
  | _ => false
  end.

Definition notices_to (adminId : Z) (events : list Event) : nat :=
  length (List.filter (is_notice_to adminId) events).

(** The run ends in the catch block of the handler, which calls
    [handleError]; what that sends (a report to the operator, possibly a
    text to the chat) is not among the events of the run. *)
Definition ends_in_handleError (events : list Event) : bool :=
  existsb
    (fun ev =>
       match ev with
       | Did e => calls_handleError e
       | BotSendText _ _ => false
       end)
    events.

(** The answers that a run sends to a chat. *)
Definition is_answer_to (chatId : Z) (ev : Event) : bool :=
  match ev with
  | BotSendText chat _ => bool_decide (chat = chatId)
  | _ => false
  end.

Definition sample_message (from : Z) (text : string) : IncomingMessage :=
  {| msg_chat_id := 7; msg_from_id := from; msg_first_name := JString "Budi";
     msg_text := Some text; msg_photo := false; msg_video := false;
     msg_document := false; msg_audio := false; msg_voice := false |}.

Definition sample_message_world : MessageWorld :=
  {| admin_notice := Returned tt; typing_indicator := Returned tt;
     completion := AiBody (JString "hai"); turn_clock := sample_clock;
     answer_delivery := Returned tt |}.

(** ** Panel accounts (bot.js 272-384) *)

Definition password_chars : string :=
  "ABCDEFGHIJKLMNOPQRSTUVWXYZabcdefghijklmnopqrstuvwxyz0123456789".

(** [chars.charAt(n)]: the empty string out of range. *)
Definition charAt (chars : string) (n : nat) : string :=
  match String.get n chars with
  | Some c => String c EmptyString
  | None => EmptyString
  end.

(** The loop of [generateRandomPassword]; [draw i] is the value of
    [Math.floor(Math.random() * chars.length)] in round [i], and
    [remaining] is [length - i]. *)
Fixpoint password_loop (draw : nat -> nat) (i remaining : nat)
    (password : string) : string :=
  match remaining with
  | O => password
  | S remaining' =>
      password_loop draw (S i) remaining'
        (password +:+ charAt password_chars (draw i))
  end.

Definition generateRandomPassword (draw : nat -> nat) (length : nat)
    : string :=
  password_loop draw 0 length EmptyString.

(** An entry of the table of packages. *)
Record PackageInfo : Type := mkPackageInfo {
  pkg_size : string;
  pkg_quota : Z;
  pkg_duration : Z
}.

(** The body of the request to the panel. *)
Record PanelRequest : Type := mkPanelRequest {
  req_action : string;
  req_username : string;
  req_password : string;
  req_quota : Z;
  req_duration : Z;
  req_package_type : string
}.

(** An entry of panel_accounts.json. [acc_createdAt] and [acc_expiresAt]
    are the instants (milliseconds since the epoch) whose ISO text the code
    stores. *)
Record AccountData : Type := mkAccountData {
  acc_username : string;
  acc_password : string;
  acc_userId : Z;
  acc_userName : JsValue;
  acc_package : string;
  acc_createdAt : Z;
  acc_expiresAt : Z
}.

(** The file of the accounts: a parsed panel_accounts.json is an array of
    entries; a text that does not parse, or parses to something that has no
    [push], counts as [Broken]. [ledger_write_failure] is the error that
    [writeFileSync] throws, if it does. *)
Record Ledger : Type := mkLedger {
  accounts_file : option (FileData (list AccountData));
  ledger_write_failure : option string
}.

(** The part of [config.panel] that the code reads. *)
Record PanelConfig : Type := mkPanelConfig {
  panel_apiKey : JsValue;
  panel_apiUrl : JsValue;
  panel_url : JsValue;
  panel_port : JsValue
}.

(** What the panel functions do: an effect as before, the request to the
    panel, or the log line of the simulation (which prints the request). *)
Inductive PanelEvent : Type :=
| PanelDid (e : Effect)
| PanelPost (apiUrl : JsValue) (request : PanelRequest)
| LogSimulation (request : PanelRequest).

(** The value that [callPanelAPI] returns, seen through the two properties
    read from it: [null] or [undefined], on which the read throws, or a
    value with [success] and [error] ([JUndefined] when absent). *)
Inductive PanelResponse : Type :=
| NoPanelBody
| PanelBody (success : JsValue) (error : JsValue).

(** What [await axios.post(...)] gives. *)
Inductive PanelOutcome : Type :=
| PanelRejected (message : string)
| PanelResolved (data : PanelResponse).

Definition callPanelAPI (panel : PanelConfig) (outcome : PanelOutcome)
    (data : PanelRequest) : PanelResponse * list PanelEvent :=
  if truthy (panel_apiKey panel) && truthy (panel_apiUrl panel) then
    match outcome with
    | PanelResolved body => (body, [PanelPost (panel_apiUrl panel) data])
    | PanelRejected message =>
        (PanelBody (JBool false) (JString message),
         [PanelPost (panel_apiUrl panel) data;
          PanelDid (LogError ("Panel API error: " +:+ message))])
    end
  else
    (PanelBody (JBool true) JUndefined, [LogSimulation data]).

Definition savePanelAccountData (ledger : Ledger) (accountData : AccountData)
    : Ledger * list PanelEvent :=
  let failed (error : string) :=
    (ledger, [PanelDid (LogError ("Save panel account error: " +:+ error))]) in
  let write (accounts : list AccountData) :=
    match ledger_write_failure ledger with
    | Some error => failed error
    | None =>
        ({| accounts_file := Some (Parsed (accounts ++ [accountData]));
            ledger_write_failure := ledger_write_failure ledger |},
         [PanelDid (LogInfo ("Panel account data saved: "
                             +:+ acc_username accountData))])
    end in
  match accounts_file ledger with
  | None => write []
  | Some (Parsed accounts) => write accounts
  | Some (Broken error) => failed error
  end.

(** [text.slice(-n)] *)
Definition slice_last (n : nat) (text : string) : string :=
  substring (String.length text - n)%nat n text.

(** [new Date(t).toISOString()] throws outside this range. *)
Definition valid_time (t : Z) : bool :=
  (-8640000000000000 <=? t) && (t <=? 8640000000000000).

Inductive PanelResult : Type :=
| PanelCreated (username password : string) (panelUrl panelPort : JsValue)
| PanelFailed (error : JsValue).

(** The readings of the clock in [createPanelAccount], in order, and the
    draws of the password. *)
Record PanelWorld : Type := mkPanelWorld {
  name_time : Z;
  created_time : Z;
  expiry_base_time : Z;
  password_draw : nat -> nat;
  panel_outcome : PanelOutcome
}.

Definition createPanelAccount (panel : PanelConfig) (w : PanelWorld)
    (ledger : Ledger) (packageInfo : PackageInfo) (userId : Z)
    (userName : JsValue) : PanelResult * Ledger * list PanelEvent :=
  let timestamp := slice_last 6 (pretty (name_time w)) in
  let username := "user_" +:+ pretty userId +:+ "_" +:+ timestamp in
  let password := generateRandomPassword (password_draw w) 12 in
  let '(panelApiResponse, called) :=
    callPanelAPI panel (panel_outcome w)
      {| req_action := "create_user"; req_username := username;
         req_password := password; req_quota := pkg_quota packageInfo;
         req_duration := pkg_duration packageInfo;
         req_package_type := pkg_size packageInfo |} in
  let caught (message : string) :=
    (PanelFailed (JString message), ledger,
     called
     ++ [PanelDid (LogError ("Create panel account error: " +:+ message))]) in
  match panelApiResponse with
  | NoPanelBody => caught (cannot_read_property "success")
  | PanelBody success error =>
      if truthy success then
        let expiresAt :=
          expiry_base_time w
          + pkg_duration packageInfo * 24 * 60 * 60 * 1000 in
        if valid_time (created_time w) && valid_time expiresAt then
          let '(ledger', saved) :=
            savePanelAccountData ledger
              {| acc_username := username; acc_password := password;
                 acc_userId := userId; acc_userName := userName;
                 acc_package := pkg_size packageInfo;
                 acc_createdAt := created_time w;
                 acc_expiresAt := expiresAt |} in
          (PanelCreated username password (panel_url panel) (panel_port panel),
           ledger', called ++ saved)
        else caught "Invalid time value"
      else
        (PanelFailed (js_or error (JString "Gagal membuat akun di panel")),
         ledger, called)
  end.

Definition is_panel_post (ev : PanelEvent) : bool :=
  match ev with
  | PanelPost _ _ => true
  | _ => false
  end.

(** The entries that a ledger file holds. *)
Definition ledger_entries (ledger : Ledger) : list AccountData :=
  match accounts_file ledger with
  | Some (Parsed accounts) => accounts
  | _ => []
  end.

Definition sample_package : PackageInfo :=
  {| pkg_size := "1GB"; pkg_quota := 1024; pkg_duration := 30 |}.

Definition sample_panel_world : PanelWorld :=
  {| name_time := 1700000123456; created_time := 1700000123457;
     expiry_base_time := 1700000123458;
     password_draw := fun i => ((7 * i + 3) mod 62)%nat;
     panel_outcome := PanelResolved (PanelBody (JBool true) JUndefined) |}.

Definition simulated_panel : PanelConfig :=
  {| panel_apiKey := JUndefined; panel_apiUrl := JUndefined;
     panel_url := JString "https://panel.example"; panel_port := JNumber 443 |}.

Definition empty_ledger : Ledger :=
  {| accounts_file := None; ledger_write_failure := None |}.

(** Every character of [text] is one of [alphabet]. *)
Definition only_chars_of (alphabet text : string) : Prop :=
  Forall (fun c => In c (list_ascii_of_string alphabet))
         (list_ascii_of_string text).

(** A sequence of calls of [savePanelAccountData]. *)
Definition save_accounts (ledger : Ledger) (accounts : list AccountData)
    : Ledger :=
  foldl (fun l account => (savePanelAccountData l account).1) ledger accounts.

(** ** Switching the personality (bot.js 1475-1495) *)

(** The state change of the [set_personality_<key>] branch of the callback
    handler, for the key that follows the prefix: when the lookup of the
    key gives a truthy value, the history of the chat becomes one system
    message, whose content is the [systemMessage] of that value, and the
    store is saved; otherwise nothing happens. The confirmation sent
    afterwards is not part of this model. *)
Definition set_personality (cfg : BotConfig) (now : Z) (s : State)
    (chatId : Z) (personalityKey : string) : State * list Effect :=
  match chosen_systemMessage cfg personalityKey with
  | Some message =>
      saveConversationHistory
        (set_conversationHistory s
           (<[chatId :=
                [ {| role := JString "system";
                     content := message;
                     timestamp := JNumber now |} ]]>
              (conversationHistory s)))
  | None => (s, [])
  end.

(** ** Start and stop (bot.js 1725-1732, 1738-1750 and 1863) *)

(** [gracefulShutdown] up to [process.exit(0)]: the three saves, then the
    notice to the operator, whose outcome is [sent]. *)
Definition gracefulShutdown (adminId : Z) (sent : Completion unit) (b : Bot)
    : Bot * list Effect :=
  let '(s1, saved1) := saveConversationHistory (core b) in
  let '(b2, saved2) := saveUserCache (set_core b s1) in
  let '(s3, saved3) := saveUploadStatus (core b2) in
  (set_core b2 s3,
   [LogInfo "🛑 Menghentikan bot..."] ++ saved1 ++ saved2 ++ saved3
   ++ notifyAdmin adminId sent "🔴 Bot dimatikan!").

(** The loaders that a starting process runs before it handles an event,
    in the order of the source: the conversation store, the user cache and
    the upload status in the start-up block, and the AI status at the end
    of the module. An exception of the first ends the process. The
    folders that the start-up block creates first are not part of this
    model. *)
Definition boot (clock : LoadClock) (d : Disk)
    (cache_file : option (FileData (list Z)))
    : Completion (Bot * list Effect) :=
  let b0 := fresh_bot d cache_file in
  match loadConversationHistory clock (core b0) with
  | Thrown error => Thrown error
  | Returned (s1, loaded1) =>
      let '(b2, loaded2) := loadUserCache (set_core b0 s1) in
      let '(s3, loaded3) := loadUploadStatus (core b2) in
      let '(s4, loaded4) := loadAIStatus s3 in
      Returned (set_core b2 s4, loaded1 ++ loaded2 ++ loaded3 ++ loaded4)
  end.

(** ** The photo handler (bot.js 482-533) *)

(** An entry of [msg.photo]. *)
Record PhotoSize : Type := mkPhotoSize {
  photo_file_id : string;
  photo_file_size : option Z
}.

Record PhotoMessage : Type := mkPhotoMessage {
  photo_chat_id : Z;
  photo_from_id : Z;
  photo_first_name : JsValue;
  photo_sizes : list PhotoSize
}.

Definition cannot_read_file_id : string :=
  "Cannot read properties of undefined (reading 'file_id')".

Definition photo_uploaded_text (url : string) : string :=
  "📸 *Foto berhasil diupload ke Catbox!*" +:+ newline +:+ newline
  +:+ "🔗 Link: " +:+ url +:+ newline +:+ newline
  +:+ "📋 Klik link untuk menyalin atau bagikan ke orang lain.".

(** The [try] block of the handler. The world answers as for a video. *)
Definition photo_try (w : VideoWorld) (msg : PhotoMessage)
    (userName : JsValue) : list Effect * Completion unit :=
  let chatId := photo_chat_id msg in
  match typing w with
  | Thrown error => ([BotSendChatAction chatId "typing"], Thrown error)
  | Returned _ =>
      match last (photo_sizes msg) with
      | None =>
          ([BotSendChatAction chatId "typing"], Thrown cannot_read_file_id)
      | Some photo =>
          let '(downloadResult, downloading) :=
            downloadFileFromTelegram (telegram_file w) (photo_file_id photo) in
          match downloadResult with
          | DownloadFailed error =>
              ([BotSendChatAction chatId "typing"] ++ downloading
               ++ [BotSendMessage chatId
                     (Plain ("❌ Gagal mengunduh foto: " +:+ error))],
               Returned tt)
          | DownloadOk buffer _ =>
              let '(uploadResult, uploading) :=
                uploadToCatbox (catbox w)
                  (StampedName "photo_" (upload_time w) ".jpg") None in
              match uploadResult with
              | UploadOk url =>
                  let sending :=
                    [BotSendChatAction chatId "typing"] ++ downloading
                    ++ uploading
                    ++ [BotSendMessage chatId
                          (Plain (photo_uploaded_text url))] in
                  match delivery w with
                  | Returned _ =>
                      (sending
                       ++ [LogInfo ("[" +:+ to_string userName +:+ " ("
                                    +:+ pretty (photo_from_id msg)
                                    +:+ ")] upload foto ke Catbox: "
                                    +:+ url)],
                       Returned tt)
                  | Thrown error => (sending, Thrown error)
                  end
              | UploadFailed error =>
                  ([BotSendChatAction chatId "typing"] ++ downloading
                   ++ uploading
                   ++ [BotSendMessage chatId
                         (Plain ("❌ Gagal mengupload foto: "
                                 +:+ to_string error))],
                   delivery w)
              end
          end
      end
  end.

(** [bot.on('photo', ...)] *)
Definition on_photo (w : VideoWorld) (s : State) (msg : PhotoMessage)
    : State * list Effect :=
  let userName := js_or (photo_first_name msg) (JString "Pengguna") in
  if negb (truthy (uploadEnabled s)) then
    (s, [LogInfo ("[" +:+ to_string userName +:+ " ("
                  +:+ pretty (photo_from_id msg)
                  +:+ ")] mengirim foto, tapi upload dinonaktifkan")])
  else
    let '(done, ending) := photo_try w msg userName in
    match ending with
    | Returned _ => (s, done)
    | Thrown error => (s, done ++ [HandleError error "photo_upload"])
    end.

(** ** The error handler (bot.js 416-471) *)

(** The response of the platform carried by an error. *)
Record TelegramResponse : Type := mkTelegramResponse {
  statusCode : Z;
  description : JsValue
}.

(** An error: its message, its stack if it has one, and the response of
    the platform if it carries one. *)
Record JsError : Type := mkJsError {
  error_message : string;
  error_stack : option string;
  error_response : option TelegramResponse
}.

(** The second argument of [handleError]; an absent property is [None] or
    [JUndefined]. *)
Record ErrorContext : Type := mkErrorContext {
  ctx_chatId : option Z;
  ctx_userId : option Z;
  ctx_userName : JsValue;
  ctx_command : JsValue;
  ctx_query : JsValue
}.

(** Truthiness of an optional number. *)
Definition given (n : option Z) : bool :=
  match n with
  | Some z => negb (Z.eqb z 0)
  | None => false
  end.

(** [text.includes(pattern)] *)
Fixpoint includes (pattern text : string) : bool :=
  String.prefix pattern text
  || match text with
     | EmptyString => false
     | String _ rest => includes pattern rest
     end.

Definition not_allowed_text : string :=
  "❌ Maaf, saya tidak diizinkan untuk mengirim pesan di sini. Pastikan saya memiliki izin yang diperlukan.".

Definition blocked_text : string :=
  "❌ Anda memblokir bot. Silakan buka blokir bot untuk melanjutkan.".

Definition chat_not_found_text : string :=
  "❌ Obrolan tidak ditemukan. Mungkin bot dikeluarkan dari grup atau Anda belum memulai bot.".

Definition parse_entities_text : string :=
  "❌ Terjadi kesalahan dalam format pesan. Mohon coba lagi dengan teks biasa.".

(** [errorMessageForUser] after the tests on the response of the platform;
    [general] is [BOT_CONFIG.errorMessages.general]. *)
Definition errorMessageForUser (general : JsValue) (error : JsError)
    : JsValue :=
  match error_response error with
  | None => general
  | Some response =>
      let telegramErrorCode := statusCode response in
      if Z.eqb telegramErrorCode 0 then general
      else if Z.eqb telegramErrorCode 403 then JString not_allowed_text
      else if Z.eqb telegramErrorCode 400
              && includes "bot was blocked by the user" (error_message error)
      then JString blocked_text
      else if Z.eqb telegramErrorCode 400
              && includes "chat not found" (error_message error)
      then JString chat_not_found_text
      else if Z.eqb telegramErrorCode 400
              && includes "Bad Request: message to edit not found"
                   (error_message error)
      then JNull
      else if Z.eqb telegramErrorCode 400
              && includes "can't parse entities" (error_message error)
      then JString parse_entities_text
      else JString ("❌ Terjadi kesalahan Telegram API ("
                    +:+ pretty telegramErrorCode
                    +:+ "). Silakan coba lagi nanti.")
  end.

(** [adminNotificationMessage] *)
Definition adminNotificationMessage (error : JsError) (context : ErrorContext)
    : string :=
  "❌ *ERROR BOT TERDETEKSI!*" +:+ newline +:+ newline
  +:+ "*Pesan:* " +:+ error_message error +:+ newline
  +:+ "*Stack:*" +:+ newline +:+ "```" +:+ newline
  +:+ match error_stack error with
      | Some stack =>
          if String.eqb stack EmptyString then "Tidak ada stack trace"
          else substring 0 1000 stack
      | None => "Tidak ada stack trace"
      end
  +:+ newline +:+ "```"
  +:+ (if given (ctx_chatId context)
       then newline +:+ "*Chat ID:* "
            +:+ pretty (default 0 (ctx_chatId context))
       else EmptyString)
  +:+ (if given (ctx_userId context)
       then newline +:+ "*User ID:* "
            +:+ pretty (default 0 (ctx_userId context))
       else EmptyString)
  +:+ (if truthy (ctx_userName context)
       then newline +:+ "*User Name:* " +:+ to_string (ctx_userName context)
       else EmptyString)
  +:+ (if truthy (ctx_command context)
       then newline +:+ "*Command:* " +:+ to_string (ctx_command context)
       else EmptyString)
  +:+ (if truthy (ctx_query context)
       then newline +:+ "*Query:* " +:+ to_string (ctx_query context)
       else EmptyString)
  +:+ match error_response error with
      | Some response =>
          if Z.eqb (statusCode response) 0 then EmptyString
          else
            newline +:+ "*Kode Error Telegram:* "
            +:+ pretty (statusCode response)
            +:+ newline +:+ "*Deskripsi Telegram:* "
            +:+ to_string (js_or (description response)
                                 (JString "Tidak ada deskripsi"))
      | None => EmptyString
      end.

(** [handleError]; [admin_sent] and [user_sent] are the outcomes of the two
    awaited [bot.sendMessage]. *)
Definition handleError (general : JsValue) (adminId : Z)
    (admin_sent user_sent : Completion unit) (error : JsError)
    (context : ErrorContext) : list Event :=
  let forUser := errorMessageForUser general error in
  [Did (LogError ("Error terdeteksi: " +:+ error_message error))]
  ++ map Did (notifyAdmin adminId admin_sent
                (adminNotificationMessage error context))
  ++ (if truthy forUser && given (ctx_chatId context) then
        let chatId := default 0 (ctx_chatId context) in
        BotSendText chatId forUser
        :: match user_sent with
           | Returned _ => []
           | Thrown failure =>
               [Did (LogError ("Gagal mengirim pesan error ke user "
                               +:+ pretty chatId +:+ ": " +:+ failure))]
           end
      else []).

(** An edit whose target is gone: the platform answers 400 and the message
    names the missing target, and neither of the two texts tested before
    it. *)
Definition is_stale_edit (error : JsError) : Prop :=
  (exists response,
     error_response error = Some response /\ statusCode response = 400) /\
  includes "Bad Request: message to edit not found" (error_message error)
  = true /\
  includes "bot was blocked by the user" (error_message error) = false /\
  includes "chat not found" (error_message error) = false.

Definition is_text_sent (ev : Event) : bool :=
  match ev with
  | BotSendText _ _ => true
  | _ => false
  end.

(** The error of an edit whose target is gone. *)
Definition stale_edit_error : JsError :=
  {| error_message :=
       "ETELEGRAM: 400 Bad Request: message to edit not found";
     error_stack := None;
     error_response :=
       Some {| statusCode := 400;
               description := JString "Bad Request: message to edit not found" |} |}.

Definition sample_context : ErrorContext :=
  {| ctx_chatId := Some 7; ctx_userId := Some 42;
     ctx_userName := JString "Budi"; ctx_command := JString "callback_query";
     ctx_query := JString "toggle_ai" |}.

(** * Properties *)

(** ** The context window *)

Section ContextWindow.

Implicit Types (history older selected : list Message) (B : Z).

Lemma has_text_messageTokens msg :
  has_text msg -> messageTokens msg = Tokens (cost msg).
Proof.
  intros [s Hs]. unfold cost, messageTokens. rewrite Hs. reflexivity.
Qed.

Lemma cost_nonneg msg : 0 <= cost msg.
Proof.
  unfold cost, messageTokens. destruct (content msg); lia.
Qed.

Lemma total_cost_nonneg msgs : 0 <= total_cost msgs.
Proof.
  induction msgs as [|m ms IH]; simpl; [lia|]. pose proof (cost_nonneg m). lia.
Qed.

Lemma total_cost_cons msg msgs :
  total_cost (msg :: msgs) = cost msg + total_cost msgs.
Proof. reflexivity. Qed.

(** Invariant of the loop: the accumulator is the part of the history from
    index [n] on, and [currentTokens] is its cost. *)
Lemma context_loop_invariant history B :
  Forall has_text history ->
  forall (n : nat) currentTokens,
    (n <= length history)%nat ->
    currentTokens = total_cost (drop n history) ->
    exists k : nat,
      (k <= n)%nat /\
      context_loop history B n currentTokens (drop n history)
        = Returned (drop k history) /\
      (currentTokens <= B \/ (k < n)%nat -> total_cost (drop k history) <= B) /\
      (forall m, (0 < k)%nat -> history !! (k - 1)%nat = Some m ->
                 total_cost (drop k history) + cost m > B).
Proof.
  intros Htext. induction n as [|i IH]; intros cur Hlen Hcur.
  - exists 0%nat. simpl. repeat split; auto; lia.
  - destruct (lookup_lt_is_Some_2 history i ltac:(lia)) as [msg Hmsg].
    assert (Hm : has_text msg).
    { eapply Forall_lookup_1; eauto. }
    cbn [context_loop]. rewrite Hmsg, (has_text_messageTokens _ Hm).
    destruct (Z.leb_spec (cur + cost msg) B) as [Hfit|Hover].
    + rewrite <- (drop_S _ _ _ Hmsg).
      destruct (IH (cur + cost msg)) as (k & Hk & Hrun & Hsum & Hmax).
      * lia.
      * rewrite (drop_S _ _ _ Hmsg), total_cost_cons. lia.
      * exists k. split; [lia|]. split; [exact Hrun|].
        split; [intros _; apply Hsum; left; exact Hfit | exact Hmax].
    + exists (S i). repeat split; auto.
      * intros [Hle|Hlt]; lia.
      * intros m _. replace (S i - 1)%nat with i by lia.
        rewrite Hmsg. intros [= <-]. lia.
Qed.

Lemma context_loop_window history B :
  history <> [] ->
  Forall has_text history ->
  exists selected,
    context_loop history B (length history) 0 [] = Returned selected /\
    greedy_window history B selected.
Proof.
  intros Hne Htext.
  destruct (context_loop_invariant history B Htext (length history) 0)
    as (k & Hk & Hrun & Hsum & Hmax).
  - lia.
  - rewrite drop_all. reflexivity.
  - rewrite drop_all in Hrun.
    exists (drop k history). split; [exact Hrun|].
    exists (take k history). repeat split.
    + unfold is_suffix_of. symmetry. apply take_drop.
    + intros HB. apply Hsum. left. exact HB.
    + intros Hneg.
      destruct (decide (k < length history)%nat) as [Hlt|Hge].
      * pose proof (total_cost_nonneg (drop k history)).
        assert (total_cost (drop k history) <= B) by (apply Hsum; right; exact Hlt).
        lia.
      * apply drop_ge. lia.
    + intros m Hlast. apply Hmax.
      * destruct k; [discriminate Hlast | lia].
      * rewrite last_lookup in Hlast. rewrite lookup_take_lt in Hlast.
        -- rewrite length_take in Hlast.
           replace (Nat.pred (k `min` length history)) with (k - 1)%nat in Hlast by lia.
           exact Hlast.
        -- rewrite length_take. destruct k; [discriminate Hlast | lia].
Qed.

(** The example of the specification: costs 50, 50, 50 and 900 under the
    default budget 900 give the last message alone. *)
Example context_window_of_costs_50_50_50_900 :
  let small := text_message "user" (filler 40) 1 in
  let large := text_message "assistant" (filler 890) 2 in
  map cost [small; small; small; large] = [50; 50; 50; 900] /\
  getRelevantConversationContext
    (process_with {[ 7 := [small; small; small; large] ]}) 7 default_maxTokens
  = Returned [large].
Proof. split; vm_compute; reflexivity. Qed.

(** C1, as stated, fails for a negative budget: the window of a one-message
    history under the budget [-1] is empty, and its cost [0] is above the
    budget. *)
Lemma context_window_negative_budget_overrun :
  let history := [text_message "user" "hi" 1] in
  ~ exists selected,
      getRelevantConversationContext (process_with {[ 7 := history ]}) 7 (-1)
        = Returned selected /\
      budgeted_window history (-1) selected.
Proof.
  intros history (selected & Hrun & older & _ & Hsum & _).
  vm_compute in Hrun. injection Hrun as <-.
  vm_compute in Hsum. apply Hsum. reflexivity.
Qed.

(** C1 (amended): for every non-empty history of text messages and every
    integer budget [B], [getRelevantConversationContext] returns a
    contiguous suffix of the history, in the order of the history, such
    that adding the next-older message would push the summed cost
    ([length content + 10] per message) above [B]; the summed cost is at
    most [B] whenever [0 <= B], and the suffix is empty when [B < 0]. *)
Theorem context_window_greedy_suffix (s : State) chatId history B :
  conversationHistory s !! chatId = Some history ->
  history <> [] ->
  Forall has_text history ->
  exists selected,
    getRelevantConversationContext s chatId B = Returned selected /\
    greedy_window history B selected.
Proof.
  intros Hchat Hne Htext. unfold getRelevantConversationContext.
  rewrite Hchat.
  destruct history as [|m0 rest] eqn:Hh; [congruence|].
  cbn [length Nat.eqb]. rewrite <- Hh in *.
  replace (S (length rest)) with (length history) by (rewrite Hh; reflexivity).
  apply context_loop_window; assumption.
Qed.

Lemma context_window_greedy_suffix_witness :
  let history := [text_message "user" "hello" 1;
                  text_message "assistant" "hi" 2;
                  text_message "user" "ok?" 3] in
  exists selected,
    getRelevantConversationContext (process_with {[ 7 := history ]}) 7 25
      = Returned selected /\
    greedy_window history 25 selected.
Proof.
  intros history.
  apply (context_window_greedy_suffix
           (process_with {[ 7 := history ]}) 7 history 25).
  - reflexivity.
  - discriminate.
  - repeat constructor; eexists; reflexivity.
Defined.

(** C2, as stated, fails: a single message of cost 15 under the budget 10
    is not kept, the window is empty. *)
Lemma oversized_newest_is_not_kept :
  let newest := text_message "user" "hello" 1 in
  cost newest > 10 /\
  ~ exists selected,
      getRelevantConversationContext (process_with {[ 7 := [newest] ]}) 7 10
        = Returned selected /\
      keeps_newest [newest] selected.
Proof.
  intros newest. split; [reflexivity|].
  intros (selected & Hrun & m & _ & Hlast).
  vm_compute in Hrun. injection Hrun as <-. discriminate Hlast.
Qed.

(** C2 (amended): for every history whose newest message alone has a cost
    ([length content + 10]) strictly greater than the budget [B],
    [getRelevantConversationContext] returns the empty window: the newest
    message is not included. *)
Theorem oversized_newest_yields_empty_window
    (s : State) chatId history newest B :
  conversationHistory s !! chatId = Some history ->
  last history = Some newest ->
  has_text newest ->
  cost newest > B ->
  getRelevantConversationContext s chatId B = Returned [].
Proof.
  intros Hchat Hlast Htext Hover. unfold getRelevantConversationContext.
  rewrite Hchat.
  destruct (Nat.eqb_spec (length history) 0) as [|Hlen]; [reflexivity|].
  destruct (length history) as [|i] eqn:Hn; [congruence|].
  cbn [context_loop].
  rewrite last_lookup, Hn in Hlast. cbn [Nat.pred] in Hlast.
  rewrite Hlast, (has_text_messageTokens _ Htext).
  destruct (Z.leb_spec (0 + cost newest) B); [lia | reflexivity].
Qed.

Lemma oversized_newest_yields_empty_window_witness :
  let older := text_message "user" "a" 1 in
  let newest := text_message "user" "hello" 2 in
  getRelevantConversationContext
    (process_with {[ 7 := [older; newest] ]}) 7 14
    = Returned [].
Proof.
  intros older newest.
  apply (oversized_newest_yields_empty_window
           (process_with {[ 7 := [older; newest] ]}) 7
           [older; newest] newest 14).
  - reflexivity.
  - reflexivity.
  - eexists; reflexivity.
  - reflexivity.
Defined.

End ContextWindow.

(** ** Feature toggles *)

Section Toggles.

Implicit Types (s : State) (d : Disk).

Lemma loadAIStatus_fresh_after_save s :
  write_failure (disk s) = None ->
  aiEnabled (fst (loadAIStatus (fresh_process (disk (fst (saveAIStatus s))))))
  = aiEnabled s.
Proof.
  intros Hw. unfold saveAIStatus. rewrite Hw. reflexivity.
Qed.

Lemma loadUploadStatus_fresh_after_save s :
  write_failure (disk s) = None ->
  uploadEnabled
    (fst (loadUploadStatus (fresh_process (disk (fst (saveUploadStatus s))))))
  = uploadEnabled s.
Proof.
  intros Hw. unfold saveUploadStatus. rewrite Hw. reflexivity.
Qed.

(** C9: for each of the two flags and whatever its value, after the flag
    is toggled and written to its store, a fresh process that loads the
    store holds the boolean that the toggling process holds, the negation
    of the value before. *)
Theorem toggle_then_reload_same_boolean s :
  write_failure (disk s) = None ->
  (let toggled := fst (toggle_ai s) in
   let reloaded := fst (loadAIStatus (fresh_process (disk toggled))) in
   aiEnabled toggled = JBool (negb (truthy (aiEnabled s))) /\
   aiEnabled reloaded = aiEnabled toggled) /\
  (let toggled := fst (toggle_upload s) in
   let reloaded := fst (loadUploadStatus (fresh_process (disk toggled))) in
   uploadEnabled toggled = JBool (negb (truthy (uploadEnabled s))) /\
   uploadEnabled reloaded = uploadEnabled toggled).
Proof.
  intros Hw. split; cbv zeta.
  - unfold toggle_ai. rewrite loadAIStatus_fresh_after_save by exact Hw.
    unfold saveAIStatus. cbn [disk set_aiEnabled]. rewrite Hw.
    split; reflexivity.
  - unfold toggle_upload.
    rewrite loadUploadStatus_fresh_after_save by exact Hw.
    unfold saveUploadStatus. cbn [disk set_uploadEnabled]. rewrite Hw.
    split; reflexivity.
Qed.

Lemma toggle_then_reload_same_boolean_witness :
  let s := fresh_process empty_disk in
  aiEnabled (fst (loadAIStatus (fresh_process (disk (fst (toggle_ai s))))))
  = JBool false /\
  uploadEnabled
    (fst (loadUploadStatus (fresh_process (disk (fst (toggle_upload s))))))
  = JBool false.
Proof.
  intros s.
  destruct (toggle_then_reload_same_boolean s eq_refl)
    as [[Hai Hai'] [Hup Hup']].
  cbv zeta in *. split.
  - rewrite Hai', Hai. reflexivity.
  - rewrite Hup', Hup. reflexivity.
Defined.

(** C10, as stated, fails: a status file holding the JSON text of an object
    without the property parses, nothing is logged as an error, and the
    flag becomes [undefined]. *)
Lemma record_without_property_unsets_flag :
  let file := Some (Parsed (FlagDoc JUndefined)) in
  let d := {| memory_file := None; upload_status_file := file;
              ai_status_file := file; corrupted_files := [];
              write_failure := None |} in
  ~ keeps_default_unless_well_formed file
      (aiEnabled (fst (loadAIStatus (fresh_process d))))
      (snd (loadAIStatus (fresh_process d))) /\
  ~ keeps_default_unless_well_formed file
      (uploadEnabled (fst (loadUploadStatus (fresh_process d))))
      (snd (loadUploadStatus (fresh_process d))).
Proof.
  split; intros [Hflag _]; discriminate Hflag.
Qed.

(** C10 (amended): for each flag, loading at boot keeps the default [true]
    when no backing record exists (nothing is logged), and when the record
    cannot be read or parsed, or parses to [null], the error is logged and
    the default [true] is kept; a record that parses otherwise sets the
    flag to the value of its property, boolean or not ([undefined] when the
    property is absent), and no error is logged. *)
Theorem load_flag_at_boot d :
  (let '(s, effects) := loadAIStatus (fresh_process d) in
   match ai_status_file d with
   | None => aiEnabled s = JBool true /\ effects = []
   | Some (Broken _) | Some (Parsed NullDoc) =>
       aiEnabled s = JBool true /\ logs_error effects = true
   | Some (Parsed (FlagDoc flag)) =>
       aiEnabled s = flag /\ logs_error effects = false
   end) /\
  (let '(s, effects) := loadUploadStatus (fresh_process d) in
   match upload_status_file d with
   | None => uploadEnabled s = JBool true /\ effects = []
   | Some (Broken _) | Some (Parsed NullDoc) =>
       uploadEnabled s = JBool true /\ logs_error effects = true
   | Some (Parsed (FlagDoc flag)) =>
       uploadEnabled s = flag /\ logs_error effects = false
   end).
Proof.
  split.
  - unfold loadAIStatus. cbn [fresh_process disk].
    destruct (ai_status_file d) as [[error|[|flag]]|]; split; reflexivity.
  - unfold loadUploadStatus. cbn [fresh_process disk].
    destruct (upload_status_file d) as [[error|[|flag]]|]; split; reflexivity.
Qed.

End Toggles.

(** ** The AI proxy *)

Section AIProxy.

Variable cfg : BotConfig.
Variable clock : TurnClock.

Implicit Types (s : State) (chatId : Z) (message : string).

Lemma pop_push msgs msg : pop (push msgs msg) = msgs.
Proof. unfold pop, push. apply removelast_last. Qed.

Lemma initial_history_length : (length (initial_history cfg clock) <= 1)%nat.
Proof.
  unfold initial_history.
  destruct (defaultPersonality cfg) as [key|]; [|simpl; lia].
  destruct (String.eqb key EmptyString); [simpl; lia|].
  destruct (chosen_systemMessage cfg key); simpl; lia.
Qed.

Lemma getAIResponse_failure s chatId message outcome :
  truthy (aiEnabled s) = true ->
  call_throws outcome = true ->
  conversationHistory (getAIResponse cfg clock outcome s chatId message).1.2
    !! chatId
  = Some (initialised cfg clock s chatId).
Proof.
  intros Hon Hfail. unfold getAIResponse. rewrite Hon. cbn [negb].
  destruct outcome as [detail| |result]; [| |discriminate Hfail];
    cbn [fst snd conversationHistory set_conversationHistory];
    rewrite lookup_insert_eq, pop_push; reflexivity.
Qed.

Lemma getAIResponse_success s chatId message aiResponse :
  truthy (aiEnabled s) = true ->
  conversationHistory
    (getAIResponse cfg clock (AiBody aiResponse) s chatId message).1.2
    !! chatId
  = Some (initialised cfg clock s chatId
          ++ [user_message message clock;
              assistant_message aiResponse clock]).
Proof.
  intros Hon. unfold getAIResponse. rewrite Hon. cbn [negb].
  cbn [fst snd conversationHistory set_conversationHistory].
  rewrite lookup_insert_eq. unfold push. rewrite <- app_assoc. reflexivity.
Qed.

(** The part after the [await], on a state that holds [msgs] for the chat:
    a call that throws pops the last message and returns the failure
    text. *)
Lemma getAIResponse_after_await_throws s chatId outcome msgs :
  conversationHistory s !! chatId = Some msgs ->
  call_throws outcome = true ->
  let ended := getAIResponse_after_await cfg clock outcome s chatId in
  ended.1.1 = Returned (apiFailure cfg) /\
  conversationHistory ended.1.2 = <[chatId := pop msgs]> (conversationHistory s) /\
  aiEnabled ended.1.2 = aiEnabled s.
Proof.
  intros Hmsgs Hfail. unfold getAIResponse_after_await.
  destruct outcome as [detail| |result]; [| |discriminate Hfail];
    rewrite Hmsgs; cbn; repeat split; reflexivity.
Qed.

(** A call answered by a body pushes the assistant message and returns
    the result. *)
Lemma getAIResponse_after_await_body s chatId aiResponse msgs :
  conversationHistory s !! chatId = Some msgs ->
  let ended :=
    getAIResponse_after_await cfg clock (AiBody aiResponse) s chatId in
  ended.1.1 = Returned aiResponse /\
  conversationHistory ended.1.2
  = <[chatId := push msgs (assistant_message aiResponse clock)]>
      (conversationHistory s) /\
  aiEnabled ended.1.2 = aiEnabled s.
Proof.
  intros Hmsgs. unfold getAIResponse_after_await.
  rewrite Hmsgs; cbn; repeat split; reflexivity.
Qed.

(** What the request finds when no other handler has changed the chat. *)
Lemma chat_untouched_lookup s meanwhile chatId message :
  chat_untouched_in_flight cfg clock meanwhile s chatId message ->
  conversationHistory
    (meanwhile (getAIResponse_before_await cfg clock s chatId message).1)
    !! chatId
  = Some (push (initialised cfg clock s chatId) (user_message message clock)).
Proof.
  unfold chat_untouched_in_flight. intros ->.
  unfold getAIResponse_before_await.
  cbn [fst conversationHistory set_conversationHistory].
  apply lookup_insert_eq.
Qed.

(** A turn that nothing interleaves with is [getAIResponse]. *)
Lemma getAIResponse_in_flight_alone s chatId message outcome :
  getAIResponse_in_flight cfg clock outcome (fun asked => asked) s chatId
    message
  = let turn := getAIResponse cfg clock outcome s chatId message in
    (Returned turn.1.1, turn.1.2, turn.2).
Proof.
  unfold getAIResponse_in_flight, getAIResponse.
  destruct (negb (truthy (aiEnabled s))); [reflexivity|].
  unfold getAIResponse_after_await, getAIResponse_before_await.
  cbn [fst snd conversationHistory set_conversationHistory].
  rewrite lookup_insert_eq.
  destruct outcome as [detail| |result]; cbn [fst snd app];
    unfold set_conversationHistory;
    cbn [conversationHistory uploadEnabled aiEnabled disk];
    rewrite insert_insert_eq; reflexivity.
Qed.

(** The chat's entry after a turn in flight during which the chat was
    left alone. *)
Lemma getAIResponse_in_flight_entry s meanwhile chatId message outcome :
  truthy (aiEnabled s) = true ->
  chat_untouched_in_flight cfg clock meanwhile s chatId message ->
  let turn :=
    getAIResponse_in_flight cfg clock outcome meanwhile s chatId message in
  let start := initialised cfg clock s chatId in
  match outcome with
  | AiBody aiResponse =>
      turn.1.1 = Returned aiResponse /\
      conversationHistory turn.1.2 !! chatId
      = Some (start ++ [user_message message clock;
                        assistant_message aiResponse clock])
  | AiRejected _ | AiNoBody =>
      turn.1.1 = Returned (apiFailure cfg) /\
      conversationHistory turn.1.2 !! chatId = Some start
  end /\
  aiEnabled turn.1.2
  = aiEnabled
      (meanwhile (getAIResponse_before_await cfg clock s chatId message).1).
Proof.
  intros Hon Hleft turn start. subst turn.
  unfold getAIResponse_in_flight. rewrite Hon. cbn [negb fst snd].
  pose proof (chat_untouched_lookup _ _ _ _ Hleft) as Hfound.
  destruct outcome as [detail| |aiResponse].
  - destruct (getAIResponse_after_await_throws _ chatId (AiRejected detail)
                _ Hfound eq_refl) as (Hreply & Hhist & Hflag).
    split; [|exact Hflag]. split; [exact Hreply|]. rewrite Hhist.
    rewrite lookup_insert_eq, pop_push. reflexivity.
  - destruct (getAIResponse_after_await_throws _ chatId AiNoBody
                _ Hfound eq_refl) as (Hreply & Hhist & Hflag).
    split; [|exact Hflag]. split; [exact Hreply|]. rewrite Hhist.
    rewrite lookup_insert_eq, pop_push. reflexivity.
  - destruct (getAIResponse_after_await_body _ chatId aiResponse
                _ Hfound) as (Hreply & Hhist & Hflag).
    split; [|exact Hflag]. split; [exact Hreply|]. rewrite Hhist.
    rewrite lookup_insert_eq. unfold push. rewrite <- app_assoc.
    reflexivity.
Qed.

(** C3 (amended): with AI enabled, and no other handler changing the
    history of the chat while the request is in flight, a turn works on the
    history stored for the chat or, for a chat without an entry, on the
    newly created one (empty, or the system message of the default
    personality). If the completion call fails by a rejected request or by
    a body that is [null] or [undefined], the failure text is returned and
    the chat is left with exactly that history; if it succeeds with a body
    that carries a result, the result is returned and the chat is left with
    that history followed by the user message and the assistant message. So
    in these two cases, for a chat that has an entry, the length after the
    call is the length before on failure and the length before plus 2 on
    success; for a chat without one, the length of the newly created
    history (0 or 1) takes the place of the length before. *)
Theorem turn_rollback_and_append s meanwhile chatId message outcome :
  truthy (aiEnabled s) = true ->
  chat_untouched_in_flight cfg clock meanwhile s chatId message ->
  let turn :=
    getAIResponse_in_flight cfg clock outcome meanwhile s chatId message in
  let after := turn.1.2 in
  let start := initialised cfg clock s chatId in
  (call_throws outcome = true ->
   turn.1.1 = Returned (apiFailure cfg) /\
   conversationHistory after !! chatId = Some start) /\
  (forall aiResponse,
     outcome = AiBody aiResponse -> is_missing aiResponse = false ->
     turn.1.1 = Returned aiResponse /\
     conversationHistory after !! chatId
     = Some (start ++ [user_message message clock;
                       assistant_message aiResponse clock])) /\
  (call_throws outcome = true \/ call_succeeds outcome = true ->
   (if call_succeeds outcome
    then history_length after chatId = (length start + 2)%nat
    else history_length after chatId = length start) /\
   (is_Some (conversationHistory s !! chatId) ->
    length start = history_length s chatId /\
    turn_lengths s after chatId outcome)) /\
  (conversationHistory s !! chatId = None ->
   start = initial_history cfg clock /\ (length start <= 1)%nat).
Proof.
  intros Hon Hleft turn after start.
  pose proof (getAIResponse_in_flight_entry s meanwhile chatId message
                outcome Hon Hleft) as [Hentry _].
  fold turn in Hentry. fold start in Hentry. fold after in Hentry.
  split; [|split; [|split]].
  - intros Hfail.
    destruct outcome as [detail| |result];
      [exact Hentry | exact Hentry | discriminate Hfail].
  - intros aiResponse -> _. exact Hentry.
  - intros Hsettled.
    assert (Hlen :
      if call_succeeds outcome
      then history_length after chatId = (length start + 2)%nat
      else history_length after chatId = length start).
    { unfold history_length.
      destruct outcome as [detail| |result]; cbn [call_succeeds];
        destruct Hentry as [_ Hentry]; rewrite Hentry; cbn [default];
        [reflexivity | reflexivity |].
      destruct Hsettled as [Hfail|Hok]; [discriminate Hfail|].
      cbn [call_succeeds] in Hok. rewrite Hok.
      unfold id. rewrite length_app. reflexivity. }
    split; [exact Hlen|].
    intros [msgs Hmsgs].
    assert (Hstart : length start = history_length s chatId).
    { subst start. unfold initialised, history_length. rewrite Hmsgs.
      reflexivity. }
    split; [exact Hstart|]. unfold turn_lengths. rewrite <- Hstart.
    exact Hlen.
  - intros Hnone. subst start. unfold initialised. rewrite Hnone.
    split; [reflexivity | apply initial_history_length].
Qed.

End AIProxy.

(** C3, as stated, fails: for a chat that has no entry yet, under a
    configuration with a default personality, a failed call leaves the
    system message behind (length 1, not 0) and a successful call leaves
    three messages (not 2). *)
Lemma first_turn_keeps_system_message :
  let s := fresh_process empty_disk in
  truthy (aiEnabled s) = true /\
  ~ turn_lengths s
      (getAIResponse sample_config sample_clock (AiRejected "timeout")
         s 7 "halo").1.2
      7 (AiRejected "timeout") /\
  ~ turn_lengths s
      (getAIResponse sample_config sample_clock (AiBody (JString "hai"))
         s 7 "halo").1.2
      7 (AiBody (JString "hai")).
Proof.
  intros s. split; [reflexivity|].
  split; intros H; vm_compute in H; discriminate H.
Qed.

(** While a request is in flight another turn of the same chat may
    begin: the [pop()] of the failed turn then removes the message of the
    other turn, and its own stays. *)
Example overlapping_turn_loses_the_other_message :
  let s := process_with {[ 7 := [] ]} in
  let other asked :=
    (getAIResponse_before_await sample_config sample_clock asked 7
       "kedua").1 in
  conversationHistory
    (getAIResponse_in_flight sample_config sample_clock
       (AiRejected "timeout") other s 7 "pertama").1.2 !! 7
  = Some [user_message "pertama" sample_clock].
Proof. reflexivity. Qed.

Lemma turn_rollback_and_append_witness :
  let s := process_with {[ 7 := [text_message "user" "tes" 1] ]} in
  let meanwhile asked :=
    set_conversationHistory asked (<[8 := []]> (conversationHistory asked)) in
  turn_lengths s
    (getAIResponse_in_flight sample_config sample_clock
       (AiRejected "timeout") meanwhile s 7 "halo").1.2
    7 (AiRejected "timeout").
Proof.
  intros s meanwhile.
  refine (proj2 (proj2 (proj1 (proj2 (proj2
    (turn_rollback_and_append sample_config sample_clock s meanwhile 7
       "halo" (AiRejected "timeout") eq_refl _)))
    (or_introl eq_refl)) _)).
  - reflexivity.
  - exists [text_message "user" "tes" 1]. reflexivity.
Defined.

Section ClearAndDisable.

Variable cfg : BotConfig.
Variable clock : TurnClock.

Implicit Types (s : State) (chatId : Z) (message : string).

Lemma saveConversationHistory_memory s :
  conversationHistory (saveConversationHistory s).1 = conversationHistory s /\
  aiEnabled (saveConversationHistory s).1 = aiEnabled s /\
  uploadEnabled (saveConversationHistory s).1 = uploadEnabled s.
Proof.
  unfold saveConversationHistory.
  destruct (write_failure (disk s)); repeat split; reflexivity.
Qed.

Lemma clear_memory sent s chatId :
  conversationHistory (clear sent s chatId).1
  = <[chatId := []]> (conversationHistory s) /\
  aiEnabled (clear sent s chatId).1 = aiEnabled s.
Proof.
  unfold clear.
  pose proof (saveConversationHistory_memory
    (set_conversationHistory s (<[chatId := []]> (conversationHistory s))))
    as (Hh & Ha & _).
  destruct (saveConversationHistory _) as [s' saved]. cbn [fst] in *.
  split; assumption.
Qed.

Lemma reset_conversation_memory sent s chatId :
  conversationHistory (reset_conversation sent s chatId).1
  = <[chatId := []]> (conversationHistory s) /\
  aiEnabled (reset_conversation sent s chatId).1 = aiEnabled s.
Proof.
  unfold reset_conversation.
  pose proof (saveConversationHistory_memory
    (set_conversationHistory s (<[chatId := []]> (conversationHistory s))))
    as (Hh & Ha & _).
  destruct (saveConversationHistory _) as [s' saved]. cbn [fst] in *.
  split; assumption.
Qed.

Lemma turn_on_empty_history s chatId message aiResponse :
  truthy (aiEnabled s) = true ->
  conversationHistory s !! chatId = Some [] ->
  conversationHistory
    (getAIResponse cfg clock (AiBody aiResponse) s chatId message).1.2
    !! chatId
  = Some [user_message message clock; assistant_message aiResponse clock].
Proof.
  intros Hon Hempty. rewrite getAIResponse_success by exact Hon.
  unfold initialised. rewrite Hempty. reflexivity.
Qed.

(** C4: with AI enabled, a turn on a chat that has an entry in the history
    map never adds the system message: after a successful call the entry
    is the stored array followed by the user and the assistant message. In
    particular, after [/clear] or the [reset_conversation] button has set
    the entry to the empty array, the first successful turn leaves exactly
    [user, assistant], whatever default personality the configuration
    names. *)
Theorem no_system_message_after_clear sent s chatId message aiResponse :
  truthy (aiEnabled s) = true ->
  (forall msgs,
     conversationHistory s !! chatId = Some msgs ->
     conversationHistory
       (getAIResponse cfg clock (AiBody aiResponse) s chatId message).1.2
       !! chatId
     = Some (msgs ++ [user_message message clock;
                      assistant_message aiResponse clock])) /\
  (let cleared := (clear sent s chatId).1 in
   conversationHistory cleared !! chatId = Some [] /\
   conversationHistory
     (getAIResponse cfg clock (AiBody aiResponse) cleared chatId message).1.2
     !! chatId
   = Some [user_message message clock; assistant_message aiResponse clock])
  /\
  (let cleared := (reset_conversation sent s chatId).1 in
   conversationHistory cleared !! chatId = Some [] /\
   conversationHistory
     (getAIResponse cfg clock (AiBody aiResponse) cleared chatId message).1.2
     !! chatId
   = Some [user_message message clock; assistant_message aiResponse clock]).
Proof.
  intros Hon. split; [|split].
  - intros msgs Hmsgs. rewrite getAIResponse_success by exact Hon.
    unfold initialised. rewrite Hmsgs. reflexivity.
  - destruct (clear_memory sent s chatId) as [Hh Ha]. cbv zeta.
    assert (Hempty : conversationHistory (clear sent s chatId).1 !! chatId
                     = Some []).
    { rewrite Hh. apply lookup_insert_eq. }
    split; [exact Hempty|].
    apply turn_on_empty_history; [rewrite Ha; exact Hon | exact Hempty].
  - destruct (reset_conversation_memory sent s chatId) as [Hh Ha]. cbv zeta.
    assert (Hempty :
      conversationHistory (reset_conversation sent s chatId).1 !! chatId
      = Some []).
    { rewrite Hh. apply lookup_insert_eq. }
    split; [exact Hempty|].
    apply turn_on_empty_history; [rewrite Ha; exact Hon | exact Hempty].
Qed.

(** C8: when the AI toggle is off, [getAIResponse] returns the configured
    disabled notice, leaves the whole state as it was (so the history of
    every chat is the same before and after) and does nothing else: no
    request goes out. *)
Theorem disabled_ai_is_inert outcome s chatId message :
  truthy (aiEnabled s) = false ->
  let '(reply, after, effects) :=
    getAIResponse cfg clock outcome s chatId message in
  reply = aiDisabled cfg /\
  after = s /\
  (forall chat, conversationHistory after !! chat
                = conversationHistory s !! chat) /\
  effects = [] /\
  existsb is_network_call effects = false.
Proof.
  intros Hoff. unfold getAIResponse. rewrite Hoff. cbn [negb].
  repeat split; reflexivity.
Qed.

End ClearAndDisable.

Lemma no_system_message_after_clear_witness :
  let s := process_with
             {[ 7 := [ {| role := JString "system";
                          content := JString "Kamu asisten ramah.";
                          timestamp := JNumber 1 |};
                       text_message "user" "tes" 2 ] ]} in
  let cleared := (clear (Returned tt) s 7).1 in
  conversationHistory
    (getAIResponse sample_config sample_clock (AiBody (JString "hai"))
       cleared 7 "halo").1.2 !! 7
  = Some [user_message "halo" sample_clock;
          assistant_message (JString "hai") sample_clock].
Proof.
  intros s cleared.
  apply (no_system_message_after_clear sample_config sample_clock
           (Returned tt) s 7 "halo" (JString "hai") eq_refl).
Defined.

Lemma disabled_ai_is_inert_witness :
  let s := set_aiEnabled (process_with {[ 7 := [text_message "user" "tes" 1] ]})
             (JBool false) in
  getAIResponse sample_config sample_clock (AiBody (JString "hai")) s 7 "halo"
  = (aiDisabled sample_config, s, []).
Proof.
  intros s.
  pose proof (disabled_ai_is_inert sample_config sample_clock
                (AiBody (JString "hai")) s 7 "halo" eq_refl) as H.
  destruct (getAIResponse _ _ _ _ _ _) as [[reply after] effects].
  destruct H as (-> & -> & _ & -> & _). reflexivity.
Defined.

(** ** The media relay *)

Section MediaRelay.

Implicit Types (body : string) (fileName : FileName) (s : State).

Lemma truthy_string body : truthy (JString body) = negb (String.eqb body EmptyString).
Proof. reflexivity. Qed.

Lemma catbox_link_not_empty body : is_catbox_link body = true -> body <> EmptyString.
Proof. intros Hlink ->. discriminate Hlink. Qed.

(** C5, as stated, fails on an empty body: the result is a failure, but its
    error is the fixed text of the code, not the (empty) body. *)
Lemma empty_body_error_is_replaced :
  (uploadToCatbox (CatboxResponse (JString EmptyString)) (GivenName "a.jpg") None).1
  = UploadFailed (JString "Upload gagal") /\
  ~ relay_criterion EmptyString
      (uploadToCatbox (CatboxResponse (JString EmptyString)) (GivenName "a.jpg")
         None).1.
Proof.
  split; [reflexivity|]. intros [_ Herr].
  specialize (Herr eq_refl). discriminate Herr.
Qed.

(** C5 (amended): for every response body that reaches the code as a
    string ([response.data] is the string [body]; a body that is the JSON
    text of an object does not, since axios hands it over parsed), the
    result of the upload is a success if and only if the string starts with
    the link prefix of the host, and then carries the trimmed string as the
    link; any other non-empty string gives a failure whose error is the
    string as received; an empty string gives a failure whose error is the
    fixed text [Upload gagal]. *)
Theorem upload_success_criterion body fileName userhash :
  let result :=
    (uploadToCatbox (CatboxResponse (JString body)) fileName userhash).1 in
  ((exists url, result = UploadOk url) <-> is_catbox_link body = true) /\
  (is_catbox_link body = true -> result = UploadOk (trim body)) /\
  (is_catbox_link body = false -> body <> EmptyString ->
   result = UploadFailed (JString body)) /\
  (body = EmptyString -> result = UploadFailed (JString "Upload gagal")).
Proof.
  intros result.
  assert (Hlink : is_catbox_link body = true -> result = UploadOk (trim body)).
  { intros Hl. subst result. unfold uploadToCatbox.
    rewrite truthy_string.
    destruct (String.eqb_spec body EmptyString) as [->|_]; [discriminate Hl|].
    cbn [negb]. unfold is_catbox_link in Hl. rewrite Hl. reflexivity. }
  assert (Hfail : is_catbox_link body = false ->
                  exists error, result = UploadFailed error).
  { intros Hl. subst result. unfold uploadToCatbox.
    unfold is_catbox_link in Hl. rewrite Hl.
    destruct (truthy (JString body)); eexists; reflexivity. }
  split; [split|split; [exact Hlink|split]].
  - intros [url Hok].
    destruct (is_catbox_link body) eqn:Hl; [reflexivity|].
    destruct (Hfail eq_refl) as [error Herr]. congruence.
  - intros Hl. eexists. apply Hlink, Hl.
  - intros Hl Hne. subst result. unfold uploadToCatbox.
    rewrite truthy_string.
    destruct (String.eqb_spec body EmptyString) as [->|_]; [congruence|].
    cbn [negb]. unfold is_catbox_link in Hl. rewrite Hl.
    unfold js_or. rewrite truthy_string.
    destruct (String.eqb_spec body EmptyString) as [->|_]; [congruence|].
    reflexivity.
  - intros ->. reflexivity.
Qed.

Lemma upload_success_criterion_witness :
  (uploadToCatbox
     (CatboxResponse (JString "https://files.catbox.moe/ab12cd.mp4 "))
     (GivenName "a.mp4") None).1
  = UploadOk "https://files.catbox.moe/ab12cd.mp4" /\
  (uploadToCatbox (CatboxResponse (JString error_text))
     (GivenName "a.mp4") None).1
  = UploadFailed (JString error_text).
Proof.
  split.
  - apply (upload_success_criterion "https://files.catbox.moe/ab12cd.mp4 "
             (GivenName "a.mp4") None).
    reflexivity.
  - apply (upload_success_criterion error_text
             (GivenName "a.mp4") None).
    + reflexivity.
    + discriminate.
Defined.

(** An error body that is the JSON text of an object reaches the code
    parsed: [startsWith] is not a function of it, and the failure carries
    the text of that TypeError, not the body. *)
Example parsed_error_body_is_not_preserved :
  uploadToCatbox CatboxResponseObject (GivenName "a.mp4") None
  = (UploadFailed (JString startsWith_is_not_a_function),
     [AxiosPostCatbox (GivenName "a.mp4") None;
      LogError ("Catbox upload error: " +:+ startsWith_is_not_a_function)]).
Proof. reflexivity. Qed.

End MediaRelay.

(** ** The video handler *)

Section VideoHandler.

Implicit Types (w : VideoWorld) (s : State) (msg : VideoMessage).

Lemma too_large_spec msg :
  too_large (file_size msg) = true <->
  exists n, file_size msg = Some n /\ 200 * 1024 * 1024 < n.
Proof.
  unfold too_large, max_video_size. destruct (file_size msg) as [n|].
  - rewrite Z.ltb_lt. split.
    + intros Hn. exists n. split; [reflexivity | exact Hn].
    + intros (n' & [= <-] & Hn). exact Hn.
  - split; [discriminate | intros (n & Hn & _); discriminate Hn].
Qed.




End VideoHandler.

(** ** Saving and loading the conversation store *)

Section StoreRoundTrip.

Variable clock : LoadClock.

Implicit Types (s : State) (chatId : Z) (msgs stored loaded : list Message).

Lemma filter_valid_idemp msgs :
  filter (fun m => valid_message m = true)
    (filter (fun m => valid_message m = true) msgs)
  = filter (fun m => valid_message m = true) msgs.
Proof.
  induction msgs as [|m ms IH]; [reflexivity|].
  rewrite filter_cons. destruct (decide (valid_message m = true)) as [Hv|Hv].
  - rewrite filter_cons. rewrite decide_True by exact Hv. f_equal. exact IH.
  - exact IH.
Qed.

Lemma backfill_keeps now m :
  role (backfill now m) = role m /\
  content (backfill now m) = content m /\
  is_missing (timestamp (backfill now m)) = false /\
  (truthy (timestamp m) = true -> timestamp (backfill now m) = timestamp m) /\
  (truthy (timestamp m) = false ->
   exists now', timestamp (backfill now m) = JNumber now').
Proof.
  unfold backfill, js_or. cbn [role content timestamp].
  repeat split.
  - destruct (timestamp m) as [| |[]|n|t]; try reflexivity.
    + cbn [truthy]. destruct (negb (Z.eqb n 0)); reflexivity.
    + cbn [truthy]. destruct (negb (String.eqb t EmptyString)); reflexivity.
  - intros ->. reflexivity.
  - intros ->. exists now. reflexivity.
Qed.

Lemma imap_backfill_Forall2 (time : nat -> Z) msgs :
  Forall2
    (fun m m' =>
       role m' = role m /\ content m' = content m /\
       is_missing (timestamp m') = false /\
       (truthy (timestamp m) = true -> timestamp m' = timestamp m) /\
       (truthy (timestamp m) = false -> exists now, timestamp m' = JNumber now))
    msgs (imap (fun i m => backfill (time i) m) msgs).
Proof.
  revert time. induction msgs as [|m ms IH]; intros time.
  - constructor.
  - rewrite imap_cons. constructor.
    + apply backfill_keeps.
    + apply (IH (fun i => time (S i))).
Qed.

Lemma save_then_load_lookup s chatId :
  write_failure (disk s) = None ->
  exists reloaded effects,
    save_then_load clock s = Returned (reloaded, effects) /\
    conversationHistory reloaded !! chatId
    = (fun stored =>
         load_chat clock chatId
           (filter (fun m => valid_message m = true) stored))
      <$> conversationHistory s !! chatId.
Proof.
  intros Hw. unfold save_then_load, saveConversationHistory.
  rewrite Hw. cbn [fst disk set_disk fresh_process loadConversationHistory
                   memory_file].
  eexists _, _. split; [reflexivity|].
  cbn [conversationHistory set_conversationHistory]. unfold load_chats.
  rewrite lookup_union, map_lookup_imap, lookup_fmap.
  cbn [conversationHistory fresh_process]. rewrite lookup_empty.
  destruct (conversationHistory s !! chatId) as [stored|]; reflexivity.
Qed.

(** What the loop of the loader stores for a chat. *)
Lemma load_chats_lookup parsedData memory chatId :
  load_chats clock parsedData memory !! chatId
  = match parsedData !! chatId with
    | Some msgs => Some (load_chat clock chatId msgs)
    | None => memory !! chatId
    end.
Proof.
  unfold load_chats. rewrite lookup_union, map_lookup_imap.
  destruct (parsedData !! chatId) as [msgs|]; cbn.
  - destruct (memory !! chatId); reflexivity.
  - destruct (memory !! chatId); reflexivity.
Qed.

Lemma load_chat_round_trip chatId msgs :
  round_trip_of_truthy msgs (load_chat clock chatId msgs).
Proof.
  unfold round_trip_of_truthy, load_chat. apply imap_backfill_Forall2.
Qed.

(** C7 (amended): for every in-memory conversation history, saving the
    store and loading it back in a fresh process gives, for each chat, the
    entries whose role and content are both truthy, in order and with the
    same role and content. An entry whose role or content is missing or
    falsy (such as the empty string) is dropped on save (the file written
    holds, per chat, the other entries only) and on load (whatever the
    file holds for a chat, only its entries with a truthy role and content
    are loaded); each entry that is loaded has a timestamp, a truthy
    timestamp is not altered, and a timestamp that is missing or falsy
    (such as 0) is replaced by the time of the load. A chat without an
    entry has none after the round trip. *)
Theorem save_load_round_trip s :
  write_failure (disk s) = None ->
  (exists saved,
     memory_file (disk (saveConversationHistory s).1) = Some (Parsed saved) /\
     forall chatId,
       saved !! chatId
       = filter (fun m => valid_message m = true)
         <$> conversationHistory s !! chatId) /\
  (forall restarted parsedData,
     memory_file (disk restarted) = Some (Parsed parsedData) ->
     exists loaded_state effects,
       loadConversationHistory clock restarted
       = Returned (loaded_state, effects) /\
       forall chatId msgs,
         parsedData !! chatId = Some msgs ->
         exists loaded,
           conversationHistory loaded_state !! chatId = Some loaded /\
           length loaded
           = length (filter (fun m => valid_message m = true) msgs) /\
           round_trip_of_truthy msgs loaded) /\
  exists reloaded effects,
    save_then_load clock s = Returned (reloaded, effects) /\
    forall chatId,
      match conversationHistory s !! chatId with
      | Some stored =>
          exists loaded,
            conversationHistory reloaded !! chatId = Some loaded /\
            round_trip_of_truthy stored loaded
      | None => conversationHistory reloaded !! chatId = None
      end.
Proof.
  intros Hw. split; [|split].
  - unfold saveConversationHistory. rewrite Hw. cbn [fst disk set_disk
      memory_file].
    eexists. split; [reflexivity|]. intros chatId. apply lookup_fmap.
  - intros restarted parsedData Hfile. unfold loadConversationHistory.
    rewrite Hfile. eexists _, _. split; [reflexivity|].
    intros chatId msgs Hmsgs.
    cbn [conversationHistory set_conversationHistory].
    rewrite load_chats_lookup, Hmsgs.
    exists (load_chat clock chatId msgs). split; [reflexivity|]. split.
    + unfold load_chat. apply length_imap.
    + apply load_chat_round_trip.
  - destruct (save_then_load_lookup s 0 Hw)
      as (reloaded & effects & Hrun & _).
    exists reloaded, effects. split; [exact Hrun|]. intros chatId.
    destruct (save_then_load_lookup s chatId Hw)
      as (reloaded' & effects' & Hrun' & Hlookup).
    rewrite Hrun in Hrun'. injection Hrun' as <- <-.
    rewrite Hlookup.
    destruct (conversationHistory s !! chatId) as [stored|]; [|reflexivity].
    eexists. split; [reflexivity|].
    unfold round_trip_of_truthy, load_chat. rewrite filter_valid_idemp.
    apply imap_backfill_Forall2.
Qed.

End StoreRoundTrip.

(** C7, as stated, fails on values that are present but falsy: an entry
    whose content is the empty string has a role and a content and is
    dropped all the same, and a timestamp 0 is present and is replaced on
    load. *)
Lemma falsy_fields_do_not_round_trip :
  (let stored := [text_message "assistant" EmptyString 5] in
   exists reloaded effects loaded,
     save_then_load sample_load_clock (process_with {[ 7 := stored ]})
       = Returned (reloaded, effects) /\
     conversationHistory reloaded !! 7 = Some loaded /\
     ~ round_trip_of_present stored loaded) /\
  (let stored := [text_message "user" "hi" 0] in
   exists reloaded effects loaded,
     save_then_load sample_load_clock (process_with {[ 7 := stored ]})
       = Returned (reloaded, effects) /\
     conversationHistory reloaded !! 7 = Some loaded /\
     ~ round_trip_of_present stored loaded).
Proof.
  split; cbv zeta.
  - eexists _, _, _. split; [vm_compute; reflexivity|].
    split; [vm_compute; reflexivity|].
    intros H. vm_compute in H. inversion H.
  - eexists _, _, _. split; [vm_compute; reflexivity|].
    split; [vm_compute; reflexivity|].
    intros H. unfold round_trip_of_present in H.
    apply Forall2_cons_1 in H. destruct H as [(_ & _ & _ & Hts) _].
    specialize (Hts eq_refl). discriminate Hts.
Qed.

Lemma save_load_round_trip_witness :
  let stored := [text_message "system" "Kamu asisten ramah." 10;
                 {| role := JString "user"; content := JString "halo";
                    timestamp := JUndefined |};
                 {| role := JString "assistant"; content := JUndefined;
                    timestamp := JNumber 12 |}] in
  let s := process_with {[ 7 := stored ]} in
  (exists saved,
     memory_file (disk (saveConversationHistory s).1) = Some (Parsed saved) /\
     saved !! 7
     = Some [text_message "system" "Kamu asisten ramah." 10;
             {| role := JString "user"; content := JString "halo";
                timestamp := JUndefined |}]) /\
  exists reloaded effects loaded,
    save_then_load sample_load_clock s = Returned (reloaded, effects) /\
    conversationHistory reloaded !! 7 = Some loaded /\
    round_trip_of_truthy stored loaded.
Proof.
  intros stored s.
  destruct (save_load_round_trip sample_load_clock s eq_refl)
    as ((saved & Hfile & Hsaved) & _ & reloaded & effects & Hrun & Hchats).
  split.
  - exists saved. split; [exact Hfile|]. rewrite (Hsaved 7). reflexivity.
  - specialize (Hchats 7).
    change (conversationHistory s !! 7) with (Some stored) in Hchats.
    destruct Hchats as (loaded & Hloaded & Hround).
    exists reloaded, effects, loaded. split; [exact Hrun|].
    split; [exact Hloaded | exact Hround].
Defined.

(** * Further properties of the code *)

(** ** The context window, continued *)

Section ContextWindowMore.

Implicit Types (s : State) (history : list Message) (B : Z).

Lemma total_cost_app msgs1 msgs2 :
  total_cost (msgs1 ++ msgs2) = total_cost msgs1 + total_cost msgs2.
Proof.
  induction msgs1 as [|m ms IH]; [simpl; lia|].
  change ((m :: ms) ++ msgs2) with (m :: (ms ++ msgs2)).
  rewrite !total_cost_cons, IH. lia.
Qed.

Lemma total_cost_drop_le history (j k : nat) :
  (k <= j)%nat -> total_cost (drop j history) <= total_cost (drop k history).
Proof.
  intros Hkj. replace j with (k + (j - k))%nat by lia.
  rewrite <- drop_drop.
  rewrite <- (take_drop (j - k) (drop k history)) at 2.
  rewrite total_cost_app.
  pose proof (total_cost_nonneg (take (j - k) (drop k history))). lia.
Qed.

(** The window is the history from some index on. *)
Lemma context_window_as_drop s chatId history B :
  conversationHistory s !! chatId = Some history ->
  history <> [] ->
  Forall has_text history ->
  exists k : nat,
    (k <= length history)%nat /\
    getRelevantConversationContext s chatId B = Returned (drop k history) /\
    (0 <= B \/ (k < length history)%nat ->
     total_cost (drop k history) <= B) /\
    (forall m, (0 < k)%nat -> history !! (k - 1)%nat = Some m ->
               total_cost (drop k history) + cost m > B).
Proof.
  intros Hchat Hne Htext. unfold getRelevantConversationContext.
  rewrite Hchat.
  destruct (Nat.eqb_spec (length history) 0) as [Hlen|_].
  { destruct history; [congruence | discriminate Hlen]. }
  destruct (context_loop_invariant history B Htext (length history) 0)
    as (k & Hk & Hrun & Hsum & Hmax).
  - lia.
  - rewrite drop_all. reflexivity.
  - rewrite drop_all in Hrun. exists k. auto.
Qed.

Lemma drop_lookup_cost history (k : nat) m :
  (0 < k)%nat -> history !! (k - 1)%nat = Some m ->
  total_cost (drop (k - 1) history) = cost m + total_cost (drop k history).
Proof.
  intros Hk Hm. rewrite (drop_S _ _ _ Hm).
  replace (S (k - 1)) with k by lia. reflexivity.
Qed.

(** X1: a larger budget never loses a message: for a non-empty history of
    text messages and budgets [B <= B'], the window chosen under [B] is a
    tail of the window chosen under [B']. *)
Theorem context_window_monotone_in_budget s chatId history B B' :
  conversationHistory s !! chatId = Some history ->
  history <> [] ->
  Forall has_text history ->
  B <= B' ->
  exists small large,
    getRelevantConversationContext s chatId B = Returned small /\
    getRelevantConversationContext s chatId B' = Returned large /\
    is_tail_of small large.
Proof.
  intros Hchat Hne Htext HB.
  destruct (context_window_as_drop s chatId history B Hchat Hne Htext)
    as (k & Hk & Hrun & Hsum & _).
  destruct (context_window_as_drop s chatId history B' Hchat Hne Htext)
    as (k' & Hk' & Hrun' & _ & Hmax').
  exists (drop k history), (drop k' history).
  split; [exact Hrun|]. split; [exact Hrun'|].
  assert (Hle : (k' <= k)%nat).
  { destruct (decide (k' <= k)%nat) as [|Hgt]; [assumption|]. exfalso.
    destruct (lookup_lt_is_Some_2 history (k' - 1)) as [m Hm]; [lia|].
    pose proof (Hmax' m ltac:(lia) Hm) as Hover.
    pose proof (drop_lookup_cost history k' m ltac:(lia) Hm) as Hcost.
    pose proof (total_cost_drop_le history (k' - 1) k ltac:(lia)) as Hmono.
    assert (total_cost (drop k history) <= B) by (apply Hsum; right; lia).
    lia. }
  exists (take (k - k') (drop k' history)).
  replace k with (k' + (k - k'))%nat at 2 by lia.
  rewrite <- drop_drop. symmetry. apply take_drop.
Qed.

Lemma context_window_monotone_in_budget_witness :
  let history := [text_message "user" "hello" 1;
                  text_message "assistant" "hi" 2;
                  text_message "user" "ok?" 3] in
  exists small large,
    getRelevantConversationContext (process_with {[ 7 := history ]}) 7 13
      = Returned small /\
    getRelevantConversationContext (process_with {[ 7 := history ]}) 7 25
      = Returned large /\
    is_tail_of small large.
Proof.
  intros history.
  apply (context_window_monotone_in_budget
           (process_with {[ 7 := history ]}) 7 history 13 25).
  - reflexivity.
  - discriminate.
  - repeat constructor; eexists; reflexivity.
  - lia.
Defined.

(** X2: for a non-empty history of text messages, the whole history is
    returned exactly when its summed cost is within the budget. *)
Theorem context_window_whole_history_iff s chatId history B :
  conversationHistory s !! chatId = Some history ->
  history <> [] ->
  Forall has_text history ->
  (getRelevantConversationContext s chatId B = Returned history
   <-> total_cost history <= B).
Proof.
  intros Hchat Hne Htext.
  destruct (context_window_as_drop s chatId history B Hchat Hne Htext)
    as (k & Hk & Hrun & Hsum & Hmax).
  assert (Hlen : (0 < length history)%nat).
  { destruct history; [congruence | simpl; lia]. }
  rewrite Hrun. split.
  - intros [= Hdrop].
    assert (k = 0%nat) as ->.
    { apply (f_equal length) in Hdrop. rewrite length_drop in Hdrop. lia. }
    rewrite drop_0 in Hsum. apply Hsum. right. exact Hlen.
  - intros Htotal. destruct k as [|k]; [rewrite drop_0; reflexivity|].
    exfalso.
    destruct (lookup_lt_is_Some_2 history (S k - 1)) as [m Hm]; [lia|].
    pose proof (Hmax m ltac:(lia) Hm) as Hover.
    pose proof (drop_lookup_cost history (S k) m ltac:(lia) Hm) as Hcost.
    pose proof (total_cost_drop_le history (S k - 1) 0 ltac:(lia)) as Hmono.
    rewrite drop_0 in Hmono. lia.
Qed.

Lemma context_window_whole_history_iff_witness :
  let history := [text_message "user" "hello" 1;
                  text_message "assistant" "hi" 2] in
  getRelevantConversationContext (process_with {[ 7 := history ]}) 7 27
  = Returned history.
Proof.
  intros history.
  apply (context_window_whole_history_iff
           (process_with {[ 7 := history ]}) 7 history 27).
  - reflexivity.
  - discriminate.
  - repeat constructor; eexists; reflexivity.
  - vm_compute. discriminate.
Defined.

End ContextWindowMore.

(** ** The AI proxy, continued *)

Section AIProxyMore.

Variable cfg : BotConfig.

Implicit Types (s : State) (chatId : Z) (message : string)
  (clock : TurnClock) (outcome : AiOutcome).

Lemma getAIResponse_state_enabled clock outcome s chatId message :
  truthy (aiEnabled s) = true ->
  exists msgs,
    (getAIResponse cfg clock outcome s chatId message).1.2
    = set_conversationHistory s (<[chatId := msgs]> (conversationHistory s)).
Proof.
  intros Hon. unfold getAIResponse. rewrite Hon. cbn [negb].
  destruct outcome; eexists; reflexivity.
Qed.

Lemma getAIResponse_frame clock outcome s chatId message :
  let after := (getAIResponse cfg clock outcome s chatId message).1.2 in
  (forall other, other <> chatId ->
     conversationHistory after !! other = conversationHistory s !! other) /\
  aiEnabled after = aiEnabled s /\
  uploadEnabled after = uploadEnabled s /\
  disk after = disk s.
Proof.
  intros after. subst after.
  destruct (truthy (aiEnabled s)) eqn:Hon.
  - destruct (getAIResponse_state_enabled clock outcome s chatId message Hon)
      as [msgs ->].
    cbn [conversationHistory aiEnabled uploadEnabled disk
         set_conversationHistory].
    repeat split. intros other Hother.
    apply lookup_insert_ne. congruence.
  - unfold getAIResponse. rewrite Hon. cbn [negb fst snd].
    repeat split.
Qed.

(** X3: a turn touches nothing but the history of its own chat: whatever
    the toggle and the outcome of the call, the histories of all other
    chats, both flags and the files are the same before and after. *)
Theorem turn_touches_only_its_chat clock outcome s chatId message :
  let after := (getAIResponse cfg clock outcome s chatId message).1.2 in
  (forall other, other <> chatId ->
     conversationHistory after !! other = conversationHistory s !! other) /\
  aiEnabled after = aiEnabled s /\
  uploadEnabled after = uploadEnabled s /\
  disk after = disk s.
Proof. apply getAIResponse_frame. Qed.

(** X4: a failed turn leaves no trace in what a later turn stores. Both
    turns begin with AI enabled and no other handler changes the history of
    the chat while either request is in flight; the first call throws (the
    request is rejected, or the body is [null] or [undefined]) and the
    second is answered. The chat then holds the history the first turn
    started from, followed by the second user message and its answer
    only. *)
Theorem failed_turn_then_successful_turn
    clock1 clock2 outcome s meanwhile1 meanwhile2 chatId message1 message2
    aiResponse :
  truthy (aiEnabled s) = true ->
  call_throws outcome = true ->
  chat_untouched_in_flight cfg clock1 meanwhile1 s chatId message1 ->
  let s1 :=
    (getAIResponse_in_flight cfg clock1 outcome meanwhile1 s chatId
       message1).1.2 in
  truthy (aiEnabled s1) = true ->
  chat_untouched_in_flight cfg clock2 meanwhile2 s1 chatId message2 ->
  let s2 :=
    (getAIResponse_in_flight cfg clock2 (AiBody aiResponse) meanwhile2 s1
       chatId message2).1.2 in
  conversationHistory s1 !! chatId = Some (initialised cfg clock1 s chatId) /\
  conversationHistory s2 !! chatId
  = Some (initialised cfg clock1 s chatId
          ++ [user_message message2 clock2;
              assistant_message aiResponse clock2]).
Proof.
  intros Hon Hfail Hleft1 s1 Hon1 Hleft2 s2.
  assert (Hs1 : conversationHistory s1 !! chatId
                = Some (initialised cfg clock1 s chatId)).
  { pose proof (getAIResponse_in_flight_entry cfg clock1 s meanwhile1 chatId
                  message1 outcome Hon Hleft1) as [Hentry _].
    destruct outcome as [detail| |result];
      [apply Hentry | apply Hentry | discriminate Hfail]. }
  split; [exact Hs1|].
  pose proof (getAIResponse_in_flight_entry cfg clock2 s1 meanwhile2 chatId
                message2 (AiBody aiResponse) Hon1 Hleft2) as [[_ Hentry] _].
  subst s2. rewrite Hentry.
  unfold initialised at 1. rewrite Hs1. reflexivity.
Qed.

(** X5: a response body without the property [result] is not taken for a
    failure: the value returned is [undefined], not the failure text, and
    the chat is left with the user message and an assistant message whose
    content is [undefined]. In any state in which the newest message of a
    chat has an [undefined] content, so in the state right after such a
    turn, computing the context window of that chat throws, whatever the
    budget. *)
Theorem context_window_throws_after_empty_result clock s chatId message :
  truthy (aiEnabled s) = true ->
  let turn := getAIResponse cfg clock (AiBody JUndefined) s chatId message in
  let after := turn.1.2 in
  turn.1.1 = JUndefined /\
  conversationHistory after !! chatId
  = Some (initialised cfg clock s chatId
          ++ [user_message message clock;
              assistant_message JUndefined clock]) /\
  (forall later newest B,
     last (default [] (conversationHistory later !! chatId)) = Some newest ->
     content newest = JUndefined ->
     getRelevantConversationContext later chatId B
     = Thrown cannot_read_length) /\
  (forall B,
     getRelevantConversationContext after chatId B
     = Thrown cannot_read_length).
Proof.
  intros Hon turn after.
  assert (Hafter : conversationHistory after !! chatId
    = Some (initialised cfg clock s chatId
            ++ [user_message message clock;
                assistant_message JUndefined clock])).
  { apply getAIResponse_success. exact Hon. }
  assert (Hnewest : forall later newest B,
     last (default [] (conversationHistory later !! chatId)) = Some newest ->
     content newest = JUndefined ->
     getRelevantConversationContext later chatId B
     = Thrown cannot_read_length).
  { intros later newest B Hlast Hcontent.
    unfold getRelevantConversationContext.
    destruct (conversationHistory later !! chatId) as [history|];
      [|discriminate Hlast].
    cbn [default from_option id] in Hlast.
    destruct (last_Some history newest) as [[older ->] _].
    { exact Hlast. }
    rewrite length_app. cbn [length].
    replace (length older + 1)%nat with (S (length older)) by lia.
    cbn [Nat.eqb context_loop].
    rewrite lookup_app_r by lia.
    replace (length older - length older)%nat with 0%nat by lia.
    cbn [lookup list_lookup]. unfold messageTokens. rewrite Hcontent.
    reflexivity. }
  split; [|split; [exact Hafter|split; [exact Hnewest|]]].
  - subst turn. unfold getAIResponse. rewrite Hon. reflexivity.
  - intros B.
    apply (Hnewest after (assistant_message JUndefined clock) B);
      [|reflexivity].
    rewrite Hafter. cbn [default from_option id].
    replace [user_message message clock; assistant_message JUndefined clock]
      with ([user_message message clock]
            ++ [assistant_message JUndefined clock]) by reflexivity.
    rewrite app_assoc. apply last_snoc.
Qed.

End AIProxyMore.

Lemma failed_turn_then_successful_turn_witness :
  let s := fresh_process empty_disk in
  let elsewhere asked :=
    set_conversationHistory asked (<[8 := []]> (conversationHistory asked)) in
  let s1 := (getAIResponse_in_flight sample_config sample_clock
               (AiRejected "timeout") elsewhere s 7 "halo").1.2 in
  let s2 := (getAIResponse_in_flight sample_config sample_clock
               (AiBody (JString "hai")) elsewhere s1 7 "halo lagi").1.2 in
  conversationHistory s2 !! 7
  = Some (initialised sample_config sample_clock s 7
          ++ [user_message "halo lagi" sample_clock;
              assistant_message (JString "hai") sample_clock]).
Proof.
  intros s elsewhere s1 s2.
  refine (proj2 (failed_turn_then_successful_turn sample_config sample_clock
           sample_clock (AiRejected "timeout") s elsewhere elsewhere 7
           "halo" "halo lagi" (JString "hai") _ _ _ _ _)).
  - reflexivity.
  - reflexivity.
  - reflexivity.
  - reflexivity.
  - reflexivity.
Defined.

Lemma context_window_throws_after_empty_result_witness :
  let after :=
    (getAIResponse sample_config sample_clock (AiBody JUndefined)
       (fresh_process empty_disk) 7 "halo").1.2 in
  getRelevantConversationContext after 7 default_maxTokens
  = Thrown cannot_read_length.
Proof.
  intros after.
  apply (proj2 (proj2 (proj2
    (context_window_throws_after_empty_result sample_config sample_clock
       (fresh_process empty_disk) 7 "halo" eq_refl)))).
Defined.

(** ** The conversation store, continued *)

Section StoreMore.

Implicit Types (s : State) (chatId : Z) (msgs : list Message)
  (clock : LoadClock).

Lemma Forall_filter_valid msgs :
  Forall (fun m => valid_message m = true)
         (filter (fun m => valid_message m = true) msgs).
Proof.
  apply Forall_forall. intros m Hm.
  apply list_elem_of_filter in Hm. tauto.
Qed.

Lemma filter_valid_id msgs :
  Forall (fun m => valid_message m = true) msgs ->
  filter (fun m => valid_message m = true) msgs = msgs.
Proof.
  induction 1 as [|m ms Hm _ IH]; [reflexivity|].
  rewrite filter_cons, decide_True by exact Hm. f_equal. exact IH.
Qed.

(** X6: a successful save writes, for every chat of the memory, exactly the
    messages whose role and content are both truthy, so that every message
    of the file is valid; the memory itself keeps its invalid entries. *)
Theorem saved_file_holds_only_valid_messages s :
  write_failure (disk s) = None ->
  let '(after, effects) := saveConversationHistory s in
  conversationHistory after = conversationHistory s /\
  effects = [] /\
  exists parsedData,
    memory_file (disk after) = Some (Parsed parsedData) /\
    (forall chatId,
       parsedData !! chatId
       = filter (fun m => valid_message m = true)
         <$> conversationHistory s !! chatId) /\
    (forall chatId msgs,
       parsedData !! chatId = Some msgs ->
       Forall (fun m => valid_message m = true) msgs).
Proof.
  intros Hw. unfold saveConversationHistory. rewrite Hw.
  split; [reflexivity|]. split; [reflexivity|].
  eexists. split; [reflexivity|]. split.
  - intros chatId. apply lookup_fmap.
  - intros chatId msgs. rewrite lookup_fmap.
    destruct (conversationHistory s !! chatId) as [stored|];
      [|discriminate].
    intros [= <-]. apply Forall_filter_valid.
Qed.

Lemma saved_file_holds_only_valid_messages_witness :
  let stored := [text_message "user" "halo" 1;
                 {| role := JString "assistant"; content := JUndefined;
                    timestamp := JNumber 2 |}] in
  let after := (saveConversationHistory (process_with {[ 7 := stored ]})).1 in
  conversationHistory after !! 7 = Some stored /\
  memory_file (disk after)
  = Some (Parsed {[ 7 := [text_message "user" "halo" 1] ]}).
Proof.
  intros stored after.
  pose proof (saved_file_holds_only_valid_messages
                (process_with {[ 7 := stored ]}) eq_refl) as H.
  subst after.
  destruct (saveConversationHistory (process_with {[ 7 := stored ]}))
    as [after effects] eqn:Hsave.
  destruct H as (Hmem & _ & _). cbn [fst]. split.
  - rewrite Hmem. reflexivity.
  - injection Hsave as <- _. reflexivity.
Defined.

Lemma load_chat_well_kept clock chatId msgs :
  Forall well_kept (load_chat clock chatId msgs) /\
  length (load_chat clock chatId msgs)
  = length (filter (fun m => valid_message m = true) msgs).
Proof.
  unfold load_chat. split; [|apply length_imap].
  pose proof (imap_backfill_Forall2 (backfill_time clock chatId)
    (filter (fun m => valid_message m = true) msgs)) as Hall.
  pose proof (Forall_filter_valid msgs) as Hvalid.
  revert Hvalid Hall.
  generalize (imap (fun i m => backfill (backfill_time clock chatId i) m)
                (filter (fun m => valid_message m = true) msgs)).
  generalize (filter (fun m => valid_message m = true) msgs).
  intros kept loaded Hvalid Hall.
  induction Hall as [|m m' ms ms' (Hr & Hc & Ht & _) _ IH]; [constructor|].
  inversion Hvalid as [|? ? Hm Hms]; subst. constructor.
  - split; [|exact Ht]. unfold valid_message in *. rewrite Hr, Hc. exact Hm.
  - apply IH. exact Hms.
Qed.

(** X7: loading a conversation file that parses to an object of arrays of
    messages replaces the history of every chat of the file by the messages
    of the file whose role and content are truthy, in the order of the file
    and with the same role and content; each has a timestamp afterwards,
    its own when that was truthy and a clock reading otherwise. Every other
    chat of the memory, the flags and the files stay as they are, and one
    info line is logged. *)
Theorem load_replaces_the_chats_of_the_file clock s parsedData :
  memory_file (disk s) = Some (Parsed parsedData) ->
  exists after,
    loadConversationHistory clock s
    = Returned (after, [LogInfo "Memori percakapan berhasil dimuat"]) /\
    (forall chatId msgs,
       parsedData !! chatId = Some msgs ->
       exists loaded,
         conversationHistory after !! chatId = Some loaded /\
         round_trip_of_truthy msgs loaded /\
         Forall well_kept loaded /\
         length loaded
         = length (filter (fun m => valid_message m = true) msgs)) /\
    (forall chatId,
       parsedData !! chatId = None ->
       conversationHistory after !! chatId
       = conversationHistory s !! chatId) /\
    aiEnabled after = aiEnabled s /\
    uploadEnabled after = uploadEnabled s /\
    disk after = disk s.
Proof.
  intros Hfile. unfold loadConversationHistory. rewrite Hfile.
  eexists. split; [reflexivity|].
  cbn [conversationHistory aiEnabled uploadEnabled disk
       set_conversationHistory].
  split; [|split; [|repeat split]].
  - intros chatId msgs Hmsgs. rewrite load_chats_lookup, Hmsgs.
    exists (load_chat clock chatId msgs).
    split; [reflexivity|]. split; [apply load_chat_round_trip|].
    apply load_chat_well_kept.
  - intros chatId Hnone. rewrite load_chats_lookup, Hnone. reflexivity.
Qed.

Lemma load_replaces_the_chats_of_the_file_witness :
  let parsedData : History :=
    {[ 7 := [ {| role := JString "user"; content := JString "halo";
                 timestamp := JUndefined |};
              {| role := JString "assistant"; content := JString EmptyString;
                 timestamp := JNumber 3 |};
              text_message "assistant" "hai" 4 ] ]} in
  let d := {| memory_file := Some (Parsed parsedData);
              upload_status_file := None; ai_status_file := None;
              corrupted_files := []; write_failure := None |} in
  let s :=
    set_disk
      (process_with {[ 7 := [text_message "user" "lama" 1];
                       8 := [text_message "user" "tes" 1] ]}) d in
  exists after loaded,
    loadConversationHistory sample_load_clock s
    = Returned (after, [LogInfo "Memori percakapan berhasil dimuat"]) /\
    conversationHistory after !! 7 = Some loaded /\
    round_trip_of_truthy
      [ {| role := JString "user"; content := JString "halo";
           timestamp := JUndefined |};
        {| role := JString "assistant"; content := JString EmptyString;
           timestamp := JNumber 3 |};
        text_message "assistant" "hai" 4 ] loaded /\
    length loaded = 2%nat /\
    conversationHistory after !! 8 = Some [text_message "user" "tes" 1].
Proof.
  intros parsedData d s.
  destruct (load_replaces_the_chats_of_the_file sample_load_clock s
              parsedData eq_refl)
    as (after & Hrun & Hfile & Hother & _).
  destruct (Hfile 7 _ eq_refl) as (loaded & Hloaded & Hround & _ & Hlength).
  exists after, loaded. split; [exact Hrun|].
  split; [exact Hloaded|]. split; [exact Hround|].
  split; [exact Hlength|].
  rewrite (Hother 8); reflexivity.
Defined.

(** X8: a conversation file that cannot be read or parsed is moved aside:
    the error is logged, the file is recorded under the time of the rename
    and is no longer there, the memory and the flags are untouched, and
    loading again does nothing. If the rename itself throws, the loader
    throws. *)
Theorem broken_memory_file_is_moved_aside clock s error :
  memory_file (disk s) = Some (Broken error) ->
  match write_failure (disk s) with
  | Some rename_error =>
      loadConversationHistory clock s = Thrown rename_error
  | None =>
      exists after,
        loadConversationHistory clock s
        = Returned (after, [LogError ("Error memuat memori: " +:+ error)]) /\
        conversationHistory after = conversationHistory s /\
        aiEnabled after = aiEnabled s /\
        uploadEnabled after = uploadEnabled s /\
        memory_file (disk after) = None /\
        corrupted_files (disk after)
        = (quarantine_time clock, Broken error) :: corrupted_files (disk s) /\
        forall clock',
          loadConversationHistory clock' after = Returned (after, [])
  end.
Proof.
  intros Hfile.
  destruct (write_failure (disk s)) as [rename_error|] eqn:Hw.
  - unfold loadConversationHistory. rewrite Hfile, Hw. reflexivity.
  - eexists. split.
    + unfold loadConversationHistory. rewrite Hfile, Hw. reflexivity.
    + repeat split.
Qed.

Lemma broken_memory_file_is_moved_aside_witness :
  let s := fresh_process (disk_with_broken_memory "Unexpected end of JSON input") in
  exists after,
    loadConversationHistory sample_load_clock s
    = Returned (after,
                [LogError ("Error memuat memori: "
                           +:+ "Unexpected end of JSON input")]) /\
    memory_file (disk after) = None /\
    loadConversationHistory sample_load_clock after = Returned (after, []).
Proof.
  intros s.
  pose proof (broken_memory_file_is_moved_aside sample_load_clock s
                "Unexpected end of JSON input" eq_refl) as H.
  cbn [write_failure disk s fresh_process disk_with_broken_memory] in H.
  destruct H as (after & Hrun & _ & _ & _ & Hgone & _ & Hagain).
  exists after. split; [exact Hrun|]. split; [exact Hgone|]. apply Hagain.
Defined.

End StoreMore.

(** ** Restarts *)

Section Restarts.

Implicit Types (s : State) (chatId : Z) (msgs : list Message)
  (clock : LoadClock).

Lemma backfill_settled now msg :
  settled msg -> backfill now msg = msg.
Proof.
  intros [_ Ht]. destruct msg as [r c t]. unfold backfill, js_or.
  cbn [role content timestamp] in *. rewrite Ht. reflexivity.
Qed.

Lemma imap_backfill_settled (time : nat -> Z) msgs :
  Forall settled msgs ->
  imap (fun i m => backfill (time i) m) msgs = msgs.
Proof.
  intros Hall. revert time.
  induction Hall as [|m ms Hm _ IH]; intros time; [reflexivity|].
  rewrite imap_cons, (backfill_settled _ _ Hm). f_equal.
  apply (IH (fun i => time (S i))).
Qed.

Lemma load_chat_settled clock chatId msgs :
  Forall settled msgs -> load_chat clock chatId msgs = msgs.
Proof.
  intros Hall. unfold load_chat.
  rewrite filter_valid_id.
  - apply imap_backfill_settled. exact Hall.
  - eapply Forall_impl; [exact Hall|]. intros m [Hv _]. exact Hv.
Qed.

Lemma backfill_makes_settled now msg :
  now <> 0 -> valid_message msg = true -> settled (backfill now msg).
Proof.
  intros Hnow Hv. split; [exact Hv|].
  unfold backfill, js_or. cbn [timestamp].
  destruct (truthy (timestamp msg)) eqn:Ht; [exact Ht|].
  cbn [truthy]. destruct (Z.eqb_spec now 0); [congruence | reflexivity].
Qed.

Lemma imap_backfill_makes_settled (time : nat -> Z) msgs :
  (forall i, time i <> 0) ->
  Forall (fun m => valid_message m = true) msgs ->
  Forall settled (imap (fun i m => backfill (time i) m) msgs).
Proof.
  intros Htime Hall. revert time Htime.
  induction Hall as [|m ms Hm _ IH]; intros time Htime; [constructor|].
  rewrite imap_cons. constructor.
  - apply backfill_makes_settled; [apply Htime | exact Hm].
  - apply (IH (fun i => time (S i))). intros i. apply Htime.
Qed.

Lemma save_then_load_disk clock s reloaded effects :
  save_then_load clock s = Returned (reloaded, effects) ->
  write_failure (disk s) = None ->
  write_failure (disk reloaded) = None.
Proof.
  unfold save_then_load, saveConversationHistory. intros Hrun Hw.
  rewrite Hw in Hrun.
  cbn [fst disk set_disk fresh_process loadConversationHistory memory_file]
    in Hrun.
  injection Hrun as <- _. reflexivity.
Qed.

(** X9: after one save and restart, a second save and restart changes
    nothing: provided the clock of the first load never reads 0, the
    histories after the second round trip are those after the first,
    whatever the second clock reads. *)
Theorem second_round_trip_changes_nothing clock clock' s reloaded effects :
  write_failure (disk s) = None ->
  (forall chatId i, backfill_time clock chatId i <> 0) ->
  save_then_load clock s = Returned (reloaded, effects) ->
  exists again effects',
    save_then_load clock' reloaded = Returned (again, effects') /\
    conversationHistory again = conversationHistory reloaded.
Proof.
  intros Hw Hclock Hrun.
  pose proof (save_then_load_disk clock s reloaded effects Hrun Hw) as Hw'.
  destruct (save_then_load_lookup clock' reloaded 0 Hw')
    as (again & effects' & Hrun' & _).
  exists again, effects'. split; [exact Hrun'|].
  apply map_eq. intros chatId.
  destruct (save_then_load_lookup clock' reloaded chatId Hw')
    as (again2 & effects2 & Hrun2 & Hsecond).
  rewrite Hrun' in Hrun2. injection Hrun2 as <- <-. rewrite Hsecond.
  destruct (save_then_load_lookup clock s chatId Hw)
    as (reloaded1 & effects1 & Hrun1 & Hfirst).
  rewrite Hrun in Hrun1. injection Hrun1 as <- <-.
  rewrite Hfirst.
  destruct (conversationHistory s !! chatId) as [stored|]; [|reflexivity].
  cbn [fmap option_fmap option_map]. f_equal.
  assert (Hsettled : Forall settled
    (load_chat clock chatId (filter (fun m => valid_message m = true) stored))).
  { unfold load_chat. rewrite filter_valid_idemp.
    apply imap_backfill_makes_settled; [apply Hclock|].
    apply Forall_filter_valid. }
  rewrite filter_valid_id.
  - apply load_chat_settled. exact Hsettled.
  - eapply Forall_impl; [exact Hsettled|]. intros m [Hv _]. exact Hv.
Qed.

Lemma second_round_trip_changes_nothing_witness :
  let stored := [ {| role := JString "user"; content := JString "halo";
                     timestamp := JUndefined |};
                  {| role := JString "assistant"; content := JString EmptyString;
                     timestamp := JNumber 12 |} ] in
  let other_clock :=
    {| backfill_time := fun _ _ => 5; quarantine_time := 6 |} in
  exists reloaded effects again effects',
    save_then_load sample_load_clock (process_with {[ 7 := stored ]})
      = Returned (reloaded, effects) /\
    save_then_load other_clock reloaded = Returned (again, effects') /\
    conversationHistory again = conversationHistory reloaded.
Proof.
  intros stored other_clock.
  destruct (save_then_load_lookup sample_load_clock
              (process_with {[ 7 := stored ]}) 7 eq_refl)
    as (reloaded & effects & Hrun & _).
  destruct (second_round_trip_changes_nothing sample_load_clock other_clock
              (process_with {[ 7 := stored ]}) reloaded effects eq_refl)
    as (again & effects' & Hrun' & Hsame).
  - intros chatId i. discriminate.
  - exact Hrun.
  - exists reloaded, effects, again, effects'. auto.
Defined.

(** X10: [/clear] survives a restart when the store can be written: a
    fresh process that loads the files left by the command holds the empty
    history for the chat. When the write throws, the memory is cleared all
    the same, the error is logged and the files are as before. *)
Theorem clear_survives_restart clock sent s chatId :
  let '(cleared, effects) := clear sent s chatId in
  conversationHistory cleared !! chatId = Some [] /\
  match write_failure (disk s) with
  | None =>
      exists reloaded effects',
        loadConversationHistory clock (fresh_process (disk cleared))
        = Returned (reloaded, effects') /\
        conversationHistory reloaded !! chatId = Some []
  | Some error =>
      disk cleared = disk s /\
      LogError ("Error menyimpan memori: " +:+ error) ∈ effects
  end.
Proof.
  unfold clear.
  set (emptied := set_conversationHistory s
                    (<[chatId := []]> (conversationHistory s))).
  destruct (write_failure (disk s)) as [error|] eqn:Hw.
  - unfold saveConversationHistory. cbn [disk emptied set_conversationHistory].
    rewrite Hw. split; [apply lookup_insert_eq|].
    split; [reflexivity | apply list_elem_of_here].
  - destruct (save_then_load_lookup clock emptied chatId Hw)
      as (reloaded & effects' & Hrun & Hlookup).
    unfold save_then_load in Hrun.
    pose proof (saveConversationHistory_memory emptied) as (Hmem & _).
    destruct (saveConversationHistory emptied) as [cleared saved].
    cbn [fst] in *. split.
    + rewrite Hmem. apply lookup_insert_eq.
    + exists reloaded, effects'. split; [exact Hrun|].
      rewrite Hlookup. cbn [emptied conversationHistory set_conversationHistory].
      rewrite lookup_insert_eq. reflexivity.
Qed.

End Restarts.

Section TurnAndRestart.

Variable cfg : BotConfig.

Implicit Types (s : State) (chatId : Z) (message : string).



End TurnAndRestart.


(** ** Feature toggles, continued *)

Section TogglesMore.

Implicit Types (s : State).

(** X12: toggling always leaves a boolean, also when the flag held
    something else (such as [undefined] after loading a record without the
    property), and toggling twice gives back the truth value the flag had. *)
Theorem toggle_twice_restores_truth_value s :
  aiEnabled (toggle_ai s).1 = JBool (negb (truthy (aiEnabled s))) /\
  aiEnabled (toggle_ai (toggle_ai s).1).1 = JBool (truthy (aiEnabled s)) /\
  uploadEnabled (toggle_upload s).1
  = JBool (negb (truthy (uploadEnabled s))) /\
  uploadEnabled (toggle_upload (toggle_upload s).1).1
  = JBool (truthy (uploadEnabled s)).
Proof.
  assert (Hai : forall s', aiEnabled (toggle_ai s').1
                           = JBool (negb (truthy (aiEnabled s')))).
  { intros s'. unfold toggle_ai, saveAIStatus. cbn [disk set_aiEnabled].
    destruct (write_failure (disk s')); reflexivity. }
  assert (Hup : forall s', uploadEnabled (toggle_upload s').1
                           = JBool (negb (truthy (uploadEnabled s')))).
  { intros s'. unfold toggle_upload, saveUploadStatus.
    cbn [disk set_uploadEnabled].
    destruct (write_failure (disk s')); reflexivity. }
  repeat split.
  - apply Hai.
  - rewrite Hai, Hai. cbn [truthy]. rewrite negb_involutive. reflexivity.
  - apply Hup.
  - rewrite Hup, Hup. cbn [truthy]. rewrite negb_involutive. reflexivity.
Qed.



End TogglesMore.

(** ** The upload to the host, continued *)

Section UploadMore.

Implicit Types (s p r : string) (fileName : FileName).

Lemma list_of_rev_app s1 s2 :
  list_ascii_of_string (String.rev_app s1 s2)
  = List.rev (list_ascii_of_string s1) ++ list_ascii_of_string s2.
Proof.
  revert s2. induction s1 as [|a s1 IH]; intros s2; [reflexivity|].
  cbn [String.rev_app list_ascii_of_string List.rev].
  rewrite IH, <- app_assoc. reflexivity.
Qed.

Lemma list_of_rev s :
  list_ascii_of_string (String.rev s) = List.rev (list_ascii_of_string s).
Proof.
  unfold String.rev. rewrite list_of_rev_app. apply app_nil_r.
Qed.

Lemma trimStart_stops_at (front back : list ascii) (c : ascii) :
  is_white_space c = false ->
  exists kept,
    list_ascii_of_string
      (trimStart (string_of_list_ascii (front ++ c :: back)))
    = kept ++ c :: back.
Proof.
  intros Hc. induction front as [|a front IH].
  - exists []. cbn [app string_of_list_ascii trimStart]. rewrite Hc.
    cbn [list_ascii_of_string app].
    rewrite list_ascii_of_string_of_list_ascii. reflexivity.
  - cbn [app string_of_list_ascii trimStart].
    destruct (is_white_space a); [exact IH|].
    exists (a :: front). cbn [list_ascii_of_string].
    rewrite list_ascii_of_string_of_list_ascii. reflexivity.
Qed.

Lemma trimEnd_keeps_front s (front back : list ascii) (c : ascii) :
  is_white_space c = false ->
  list_ascii_of_string s = front ++ c :: back ->
  exists kept,
    list_ascii_of_string (trimEnd s) = front ++ c :: kept.
Proof.
  intros Hc Hs. unfold trimEnd.
  assert (Hrev : String.rev s
                 = string_of_list_ascii (List.rev back ++ c :: List.rev front)).
  { rewrite <- (string_of_list_ascii_of_string (String.rev s)).
    rewrite (list_of_rev s), Hs, rev_app_distr. cbn [List.rev].
    rewrite <- app_assoc. reflexivity. }
  rewrite Hrev.
  destruct (trimStart_stops_at (List.rev back) (List.rev front) c Hc)
    as [kept Hkept].
  rewrite list_of_rev, Hkept, rev_app_distr. cbn [List.rev].
  rewrite rev_involutive, <- app_assoc. cbn [app].
  exists (List.rev kept). reflexivity.
Qed.

Lemma prefix_of_list p s :
  String.prefix p s = true <->
  exists rest, list_ascii_of_string s = list_ascii_of_string p ++ rest.
Proof.
  revert s. induction p as [|a p IH]; intros s.
  - split; [intros _; eexists; reflexivity|]. destruct s; reflexivity.
  - destruct s as [|b s]; cbn [String.prefix list_ascii_of_string].
    + split; [discriminate | intros [rest Hrest]; discriminate Hrest].
    + destruct (Ascii.ascii_dec a b) as [<-|Hab].
      * rewrite IH. split; intros [rest Hrest]; exists rest.
        -- cbn [app]. rewrite Hrest. reflexivity.
        -- cbn [app] in Hrest. injection Hrest as Hrest. exact Hrest.
      * split; [discriminate|]. intros [rest Hrest].
        cbn [app] in Hrest. injection Hrest as Hab' _. congruence.
Qed.

Lemma trim_keeps_catbox_link body :
  is_catbox_link body = true -> is_catbox_link (trim body) = true.
Proof.
  unfold is_catbox_link. intros Hlink.
  assert (Hstart : trimStart body = body).
  { destruct body as [|a body]; [discriminate Hlink|].
    cbn [String.prefix catbox_link_prefix] in Hlink.
    destruct (Ascii.ascii_dec "h" a) as [<-|]; [reflexivity|discriminate]. }
  unfold trim. rewrite Hstart.
  apply prefix_of_list in Hlink. destruct Hlink as [rest Hrest].
  apply prefix_of_list.
  assert (Hprefix : list_ascii_of_string catbox_link_prefix
                    = list_ascii_of_string "https://files.catbox.moe"
                      ++ ["/"%char]) by reflexivity.
  destruct (trimEnd_keeps_front body
              (list_ascii_of_string "https://files.catbox.moe") rest "/")
    as [kept Hkept]; [reflexivity | |].
  - rewrite Hrest, Hprefix, <- app_assoc. reflexivity.
  - exists kept. rewrite Hkept, Hprefix, <- app_assoc. reflexivity.
Qed.

(** X14: over all outcomes of the request, the upload succeeds exactly when
    the response body is a string that starts with the link prefix of the
    host: a rejected request and a body that is not a string never give a
    link. The link that a success returns still starts with the prefix. *)
Theorem upload_succeeds_only_on_a_link outcome fileName userhash :
  let result := (uploadToCatbox outcome fileName userhash).1 in
  ((exists url, result = UploadOk url) <->
   (exists body,
      outcome = CatboxResponse (JString body) /\
      is_catbox_link body = true)) /\
  (forall url, result = UploadOk url -> is_catbox_link url = true).
Proof.
  intros result.
  assert (Hok : forall url, result = UploadOk url ->
    exists body, outcome = CatboxResponse (JString body) /\
                 is_catbox_link body = true /\ url = trim body).
  { intros url. subst result. unfold uploadToCatbox.
    destruct outcome as [message|data|]; [discriminate| |discriminate].
    destruct data as [| |b|n|body]; cbn [truthy].
    - discriminate.
    - discriminate.
    - destruct b; discriminate.
    - destruct (negb (Z.eqb n 0)); discriminate.
    - destruct (negb (String.eqb body EmptyString)); [|discriminate].
      destruct (String.prefix catbox_link_prefix body) eqn:Hlink;
        [|discriminate].
      intros [= <-]. exists body. auto. }
  split; [split|].
  - intros [url Hurl]. destruct (Hok url Hurl) as (body & -> & Hlink & _).
    exists body. auto.
  - intros (body & -> & Hlink). exists (trim body).
    subst result. unfold uploadToCatbox, is_catbox_link in *.
    cbn [truthy].
    destruct (String.eqb_spec body EmptyString) as [->|_];
      [discriminate Hlink|].
    cbn [negb]. rewrite Hlink. reflexivity.
  - intros url Hurl. destruct (Hok url Hurl) as (body & _ & Hlink & ->).
    apply trim_keeps_catbox_link. exact Hlink.
Qed.

End UploadMore.

(** ** The video handler, continued *)

Section VideoMore.

Implicit Types (w : VideoWorld) (s : State) (msg : VideoMessage).

Ltac run_video w :=
  unfold on_video, video_try, downloadFileFromTelegram, uploadToCatbox;
  destruct (telegram_file w) as [failure|buffer baseName];
  destruct (catbox w) as [rejection|[| |[]|n|body]|]; cbn [truthy negb];
  try destruct (negb (Z.eqb n 0));
  try destruct (negb (String.eqb body EmptyString));
  try destruct (String.prefix catbox_link_prefix body);
  destruct (delivery w) as [[]|undelivered].

(** X15: the sender of a video gets one answer. The handler never changes
    the state. With the upload toggle on and the typing indicator
    delivered, a run that does not end in the error handler sends exactly
    one message, whatever the size, the download and the host do; a run
    ends in the error handler only when a send throws, so not when the
    answer is delivered. With the toggle off the handler makes no call to
    the network at all. *)
Theorem video_gets_exactly_one_reply w s msg :
  let '(after, effects) := on_video w s msg in
  after = s /\
  (truthy (uploadEnabled s) = true -> typing w = Returned tt ->
   existsb calls_handleError effects = false ->
   count_effects sends_message effects = 1%nat) /\
  (truthy (uploadEnabled s) = true -> typing w = Returned tt ->
   delivery w = Returned tt ->
   existsb calls_handleError effects = false) /\
  (truthy (uploadEnabled s) = false ->
   existsb is_network_call effects = false /\
   existsb calls_handleError effects = false).
Proof.
  destruct (truthy (uploadEnabled s)) eqn:Hon.
  - destruct (typing w) as [[]|error] eqn:Htyping;
      destruct (too_large (file_size msg)) eqn:Hbig.
    + unfold on_video, video_try. rewrite Hon, Htyping, Hbig.
      repeat split; intros; solve [reflexivity | discriminate].
    + run_video w; rewrite Hon, Htyping, Hbig;
        (repeat split; intros; solve [reflexivity | discriminate]).
    + unfold on_video, video_try. rewrite Hon, Htyping.
      repeat split; intros; solve [reflexivity | discriminate].
    + unfold on_video, video_try. rewrite Hon, Htyping.
      repeat split; intros; solve [reflexivity | discriminate].
  - unfold on_video. rewrite Hon.
    repeat split; intros; solve [reflexivity | discriminate].
Qed.

Lemma video_gets_exactly_one_reply_witness :
  let s := fresh_process empty_disk in
  let effects := (on_video sample_world s (sample_video 1000)).2 in
  existsb calls_handleError effects = false /\
  count_effects sends_message effects = 1%nat.
Proof.
  intros s effects.
  pose proof (video_gets_exactly_one_reply sample_world s (sample_video 1000))
    as H.
  subst effects.
  destruct (on_video sample_world s (sample_video 1000)) as [after effects].
  destruct H as (_ & Hone & Hquiet & _). cbn [snd].
  pose proof (Hquiet eq_refl eq_refl eq_refl) as Hno.
  split; [exact Hno|]. exact (Hone eq_refl eq_refl Hno).
Defined.

(** X16: nothing is uploaded that was not downloaded: in every run the
    handler posts to the host at most once and only after one download
    attempt, and when the download fails, or the typing indicator throws,
    it does not post at all. *)
Theorem video_upload_needs_download w s msg :
  let effects := (on_video w s msg).2 in
  (count_effects posts_to_catbox effects
   <= count_effects is_download effects)%nat /\
  (count_effects is_download effects <= 1)%nat /\
  ((exists failure, telegram_file w = FileUnavailable failure) ->
   count_effects posts_to_catbox effects = 0%nat) /\
  ((exists error, typing w = Thrown error) ->
   count_effects is_download effects = 0%nat).
Proof.
  cbv zeta.
  destruct (truthy (uploadEnabled s)) eqn:Hon.
  - destruct (typing w) as [[]|error] eqn:Htyping;
      destruct (too_large (file_size msg)) eqn:Hbig.
    + unfold on_video, video_try. rewrite Hon, Htyping, Hbig.
      cbn. repeat split; solve [lia | intros [? [=]]].
    + run_video w; rewrite Hon, Htyping, Hbig; cbn;
        (repeat split; solve [lia | intros [? [=]]]).
    + unfold on_video, video_try. rewrite Hon, Htyping.
      cbn. repeat split; solve [lia | intros [? [=]]].
    + unfold on_video, video_try. rewrite Hon, Htyping.
      cbn. repeat split; solve [lia | intros [? [=]]].
  - unfold on_video. rewrite Hon. cbn.
    repeat split; solve [lia | intros [? [=]]].
Qed.

(** X17: the limit is exclusive and an absent size passes: with the toggle
    on and the typing indicator delivered, a video whose [file_size] is
    missing or at most 200 MB (209715200 bytes included) is downloaded,
    and one of more than that is not. *)
Theorem video_size_limit_boundary w s msg :
  truthy (uploadEnabled s) = true ->
  typing w = Returned tt ->
  let effects := (on_video w s msg).2 in
  match file_size msg with
  | None => count_effects is_download effects = 1%nat
  | Some n =>
      if n <=? 209715200
      then count_effects is_download effects = 1%nat
      else count_effects is_download effects = 0%nat
  end.
Proof.
  intros Hon Htyping. cbv zeta.
  assert (Hsmall : too_large (file_size msg) = false ->
                   count_effects is_download (on_video w s msg).2 = 1%nat).
  { intros Hbig. run_video w; rewrite Hon, Htyping, Hbig; reflexivity. }
  assert (Hlarge : too_large (file_size msg) = true ->
                   count_effects is_download (on_video w s msg).2 = 0%nat).
  { intros Hbig. unfold on_video, video_try.
    rewrite Hon, Htyping, Hbig. reflexivity. }
  destruct (file_size msg) as [n|] eqn:Hsize.
  - destruct (Z.leb_spec n 209715200) as [Hle|Hgt].
    + apply Hsmall. unfold too_large, max_video_size.
      apply Z.ltb_ge. lia.
    + apply Hlarge. unfold too_large, max_video_size.
      apply Z.ltb_lt. lia.
  - apply Hsmall. reflexivity.
Qed.

Lemma video_size_limit_boundary_witness :
  let s := fresh_process empty_disk in
  count_effects is_download
    (on_video sample_world s (sample_video 209715200)).2 = 1%nat /\
  count_effects is_download
    (on_video sample_world s (sample_video 209715201)).2 = 0%nat.
Proof.
  intros s. split.
  - apply (video_size_limit_boundary sample_world s
             (sample_video 209715200) eq_refl eq_refl).
  - apply (video_size_limit_boundary sample_world s
             (sample_video 209715201) eq_refl eq_refl).
Defined.

End VideoMore.

(** ** The user cache and the main message handler *)

Section UserCache.

Implicit Types (b : Bot) (set array : list Z) (x : Z).

Lemma set_has_spec x set : set_has x set = true <-> x ∈ set.
Proof. unfold set_has. apply bool_decide_eq_true. Qed.

Lemma set_add_NoDup x set : NoDup set -> NoDup (set_add x set).
Proof.
  intros Hset. unfold set_add.
  destruct (set_has x set) eqn:Hx; [exact Hset|].
  apply NoDup_app. split; [exact Hset|]. split.
  - intros y Hy Hy'. apply list_elem_of_singleton in Hy'. subst y.
    apply set_has_spec in Hy. congruence.
  - apply NoDup_singleton.
Qed.

Lemma set_add_elem x y set : y ∈ set_add x set <-> y = x \/ y ∈ set.
Proof.
  unfold set_add. destruct (set_has x set) eqn:Hx.
  - apply set_has_spec in Hx. split; [auto|]. intros [->|Hy]; assumption.
  - rewrite elem_of_app, list_elem_of_singleton. tauto.
Qed.

Lemma foldl_set_add_spec array set :
  NoDup set ->
  NoDup (foldl (fun acc x => set_add x acc) set array) /\
  (forall y, y ∈ foldl (fun acc x => set_add x acc) set array
             <-> y ∈ set \/ y ∈ array).
Proof.
  revert set. induction array as [|x array IH]; intros set Hset.
  - cbn [foldl]. split; [exact Hset|]. intros y.
    rewrite elem_of_nil. tauto.
  - cbn [foldl].
    destruct (IH (set_add x set) (set_add_NoDup x set Hset)) as [Hnd Hel].
    split; [exact Hnd|]. intros y.
    rewrite Hel, set_add_elem, elem_of_cons. tauto.
Qed.

Lemma foldl_set_add_fresh array set :
  NoDup (set ++ array) ->
  foldl (fun acc x => set_add x acc) set array = set ++ array.
Proof.
  revert set. induction array as [|x array IH]; intros set Hnd.
  - cbn [foldl]. rewrite app_nil_r. reflexivity.
  - cbn [foldl].
    assert (Hfresh : set_has x set = false).
    { destruct (set_has x set) eqn:Hx; [|reflexivity]. exfalso.
      apply set_has_spec in Hx. apply NoDup_app in Hnd.
      destruct Hnd as (_ & Hdisj & _). apply (Hdisj x Hx). left. }
    unfold set_add at 2. rewrite Hfresh.
    rewrite IH; rewrite <- app_assoc; [reflexivity | exact Hnd].
Qed.

(** X18: the user cache survives a restart: when the file can be written
    and the cache holds no identifier twice (as a [Set] does), a fresh
    process that loads the file written by [saveUserCache] holds the same
    identifiers in the same order. *)
Theorem user_cache_round_trip b :
  write_failure (disk (core b)) = None ->
  NoDup (userCache b) ->
  let saved := (saveUserCache b).1 in
  userCache
    (loadUserCache (fresh_bot (disk (core saved)) (user_cache_file saved))).1
  = userCache b.
Proof.
  intros Hw Hnd. unfold saveUserCache. rewrite Hw.
  cbn [fst core user_cache_file fresh_bot loadUserCache userCache].
  unfold new_Set. rewrite foldl_set_add_fresh; [reflexivity|exact Hnd].
Qed.

Lemma user_cache_round_trip_witness :
  let b := {| core := fresh_process empty_disk; userCache := [42; 7; 1000];
              user_cache_file := None |} in
  let saved := (saveUserCache b).1 in
  userCache
    (loadUserCache (fresh_bot (disk (core saved)) (user_cache_file saved))).1
  = [42; 7; 1000].
Proof.
  intros b.
  apply (user_cache_round_trip b eq_refl).
  apply (bool_decide_unpack _). vm_compute. exact I.
Defined.

(** X19: loading the user cache never holds an identifier twice, whatever
    the array of the file repeats, and holds exactly the identifiers of
    the array; a file that cannot be read or parsed leaves the cache as it
    is and is logged, and without a file nothing happens. *)
Theorem load_user_cache_is_a_set b :
  let '(after, effects) := loadUserCache b in
  core after = core b /\
  user_cache_file after = user_cache_file b /\
  match user_cache_file b with
  | Some (Parsed array) =>
      NoDup (userCache after) /\
      (forall x, x ∈ userCache after <-> x ∈ array)
  | Some (Broken error) =>
      userCache after = userCache b /\
      effects = [LogError ("Error memuat cache pengguna: " +:+ error)]
  | None => userCache after = userCache b /\ effects = []
  end.
Proof.
  unfold loadUserCache.
  destruct (user_cache_file b) as [[error|array]|] eqn:Hfile;
    cbn [core user_cache_file userCache]; repeat split; try assumption.
  - apply (foldl_set_add_spec array []). constructor.
  - intros Hx. apply (foldl_set_add_spec array []) in Hx; [|constructor].
    destruct Hx as [Hx|Hx]; [|exact Hx]. apply elem_of_nil in Hx. tauto.
  - intros Hx. apply (foldl_set_add_spec array []); [constructor|].
    right. exact Hx.
Qed.

End UserCache.

Section MessageHandler.

Variable cfg : BotConfig.
Variable adminId : Z.

Implicit Types (w : MessageWorld) (b : Bot) (msg : IncomingMessage).

Lemma notices_to_app events1 events2 :
  notices_to adminId (events1 ++ events2)
  = (notices_to adminId events1 + notices_to adminId events2)%nat.
Proof. unfold notices_to. rewrite List.filter_app. apply length_app. Qed.

Lemma notices_to_notifyAdmin sent message :
  notices_to adminId (map Did (notifyAdmin adminId sent message)) = 1%nat.
Proof.
  unfold notices_to, notifyAdmin.
  destruct sent; cbn [map List.filter is_notice_to];
    rewrite bool_decide_eq_true_2 by reflexivity; reflexivity.
Qed.

Lemma notices_to_turn clock outcome s chatId message :
  notices_to adminId
    (map Did (getAIResponse cfg clock outcome s chatId message).2) = 0%nat.
Proof.
  unfold getAIResponse. destruct (negb (truthy (aiEnabled s)));
    [reflexivity|]. destruct outcome; reflexivity.
Qed.

Lemma notices_to_saveUserCache b :
  notices_to adminId (map Did (saveUserCache b).2) = 0%nat.
Proof.
  unfold saveUserCache. destruct (write_failure (disk (core b))); reflexivity.
Qed.

Lemma saveUserCache_keeps b :
  core (saveUserCache b).1 = core b /\
  userCache (saveUserCache b).1 = userCache b.
Proof.
  unfold saveUserCache. destruct (write_failure (disk (core b)));
    split; reflexivity.
Qed.

Lemma message_try_spec w b chatId messageText userName :
  let '(after, done, ending) :=
    message_try cfg w b chatId messageText userName in
  userCache after = userCache b /\
  user_cache_file after = user_cache_file b /\
  notices_to adminId done = 0%nat /\
  core after
  = match typing_indicator w with
    | Returned _ =>
        (getAIResponse cfg (turn_clock w) (completion w) (core b) chatId
           messageText).1.2
    | Thrown _ => core b
    end /\
  List.filter (is_answer_to chatId) done
  = match typing_indicator w with
    | Returned _ =>
        [BotSendText chatId
           (getAIResponse cfg (turn_clock w) (completion w) (core b) chatId
              messageText).1.1]
    | Thrown _ => []
    end.
Proof.
  unfold message_try.
  destruct (typing_indicator w) as [[]|error].
  - pose proof (notices_to_turn (turn_clock w) (completion w) (core b)
                  chatId messageText) as Hquiet.
    assert (Hanswers : List.filter (is_answer_to chatId)
      (map Did (getAIResponse cfg (turn_clock w) (completion w) (core b)
                  chatId messageText).2) = []).
    { unfold getAIResponse. destruct (negb (truthy (aiEnabled (core b))));
        [reflexivity|]. destruct (completion w); reflexivity. }
    destruct (getAIResponse cfg (turn_clock w) (completion w) (core b)
                chatId messageText) as [[aiResponse s'] asked].
    cbn [fst snd] in *.
    assert (Hdone : notices_to adminId
      ([Did (BotSendChatAction chatId "typing")] ++ map Did asked
       ++ [BotSendText chatId aiResponse]) = 0%nat).
    { rewrite !notices_to_app, Hquiet. reflexivity. }
    assert (Hsent : List.filter (is_answer_to chatId)
      ([Did (BotSendChatAction chatId "typing")] ++ map Did asked
       ++ [BotSendText chatId aiResponse])
      = [BotSendText chatId aiResponse]).
    { rewrite !List.filter_app, Hanswers.
      cbn [List.filter is_answer_to app].
      rewrite bool_decide_eq_true_2 by reflexivity. reflexivity. }
    destruct (answer_delivery w) as [[]|undelivered];
      [destruct aiResponse as [| |flag|n|answer]|];
      cbn [userCache user_cache_file core set_core];
      repeat split; try assumption.
    rewrite notices_to_app, Hdone. reflexivity.
    rewrite List.filter_app, Hsent. reflexivity.
  - repeat split.
Qed.

Lemma on_message_spec w b msg messageText :
  msg_text msg = Some messageText ->
  is_ignored msg = false ->
  truthy (aiEnabled (core b)) = true ->
  let '(after, events) := on_message cfg adminId w b msg in
  userCache after = set_add (msg_from_id msg) (userCache b) /\
  notices_to adminId events
  = (if set_has (msg_from_id msg) (userCache b) then 0 else 1)%nat /\
  core after
  = match typing_indicator w with
    | Returned _ =>
        (getAIResponse cfg (turn_clock w) (completion w) (core b)
           (msg_chat_id msg) messageText).1.2
    | Thrown _ => core b
    end /\
  List.filter (is_answer_to (msg_chat_id msg)) events
  = match typing_indicator w with
    | Returned _ =>
        [BotSendText (msg_chat_id msg)
           (getAIResponse cfg (turn_clock w) (completion w) (core b)
              (msg_chat_id msg) messageText).1.1]
    | Thrown _ => []
    end.
Proof.
  intros Htext Hkept Hon. unfold on_message. rewrite Htext, Hkept, Hon.
  cbn [negb].
  set (userName := js_or (msg_first_name msg) (JString "Pengguna")).
  destruct (set_has (msg_from_id msg) (userCache b)) eqn:Hknown.
  - pose proof (message_try_spec w b (msg_chat_id msg) messageText userName)
      as Htry.
    destruct (message_try cfg w b (msg_chat_id msg) messageText userName)
      as [[after done] ending].
    destruct Htry as (Hcache & _ & Hquiet & Hcore & Hsent).
    split; [|split; [|split]].
    + rewrite Hcache. unfold set_add. rewrite Hknown. reflexivity.
    + rewrite !notices_to_app, Hquiet.
      destruct ending; reflexivity.
    + exact Hcore.
    + rewrite !List.filter_app, Hsent. cbn [map List.filter is_answer_to app].
      destruct ending; cbn [List.filter is_answer_to];
        rewrite app_nil_r; reflexivity.
  - set (added := {| core := core b;
                     userCache := set_add (msg_from_id msg) (userCache b);
                     user_cache_file := user_cache_file b |}).
    pose proof (saveUserCache_keeps added) as [Hsaved_core Hsaved_cache].
    pose proof (notices_to_saveUserCache added) as Hsaved_quiet.
    assert (Hsaved_answers : forall chat,
      List.filter (is_answer_to chat) (map Did (saveUserCache added).2) = []).
    { intros chat. unfold saveUserCache.
      destruct (write_failure (disk (core added))); reflexivity. }
    destruct (saveUserCache added) as [b1 saved]. cbn [fst snd] in *.
    pose proof (message_try_spec w b1 (msg_chat_id msg) messageText userName)
      as Htry.
    destruct (message_try cfg w b1 (msg_chat_id msg) messageText userName)
      as [[after done] ending].
    destruct Htry as (Hcache & _ & Hquiet & Hcore & Hsent).
    rewrite Hsaved_core in Hcore, Hsent. cbn [core added] in Hcore, Hsent.
    split; [|split; [|split]].
    + rewrite Hcache, Hsaved_cache. reflexivity.
    + rewrite !notices_to_app, map_app, notices_to_app, Hsaved_quiet,
        notices_to_notifyAdmin, Hquiet.
      destruct ending; reflexivity.
    + exact Hcore.
    + rewrite !List.filter_app, map_app, List.filter_app, Hsaved_answers,
        Hsent.
      assert (Hnotice : forall sent message,
        List.filter (is_answer_to (msg_chat_id msg))
          (map Did (notifyAdmin adminId sent message)) = []).
      { intros sent message. unfold notifyAdmin. destruct sent; reflexivity. }
      rewrite Hnotice. cbn [List.filter is_answer_to app].
      destruct ending; cbn [List.filter is_answer_to];
        rewrite app_nil_r; reflexivity.
Qed.

(** A run in which the typing indicator and the answer are delivered and
    the answer is a string does not reach the catch block. *)
Lemma on_message_quiet w b msg messageText :
  msg_text msg = Some messageText ->
  is_ignored msg = false ->
  truthy (aiEnabled (core b)) = true ->
  typing_indicator w = Returned tt ->
  answer_delivery w = Returned tt ->
  (exists answer,
     (getAIResponse cfg (turn_clock w) (completion w) (core b)
        (msg_chat_id msg) messageText).1.1 = JString answer) ->
  ends_in_handleError (on_message cfg adminId w b msg).2 = false.
Proof.
  intros Htext Hkept Hon Htyping Hdelivery [answer Hanswer].
  assert (Hasked : ends_in_handleError
    (map Did (getAIResponse cfg (turn_clock w) (completion w) (core b)
                (msg_chat_id msg) messageText).2) = false).
  { unfold getAIResponse. rewrite Hon. cbn [negb].
    destruct (completion w); reflexivity. }
  destruct (getAIResponse cfg (turn_clock w) (completion w) (core b)
              (msg_chat_id msg) messageText)
    as [[aiResponse s'] asked] eqn:Hturn.
  cbn [fst snd] in Hanswer, Hasked. subst aiResponse.
  unfold ends_in_handleError in *.
  unfold on_message. rewrite Htext, Hkept, Hon. cbn [negb].
  destruct (set_has (msg_from_id msg) (userCache b)).
  - unfold message_try. rewrite Htyping, Hdelivery, Hturn.
    cbn [snd map app existsb calls_handleError orb].
    rewrite !existsb_app, Hasked. reflexivity.
  - unfold saveUserCache, notifyAdmin. cbn [core disk].
    destruct (write_failure (disk (core b)));
      destruct (admin_notice w);
      unfold message_try; cbn [core]; rewrite Htyping, Hdelivery, Hturn;
      cbn [snd map app existsb calls_handleError orb];
      rewrite !existsb_app, Hasked; reflexivity.
Qed.

(** X20: a message gets no answer and leaves no trace when it has no text
    or an empty one, is a command (starts with [/]) or carries an
    attachment, and also when the AI toggle is off: the memory, the flags,
    the files and the user cache are as before and nothing is sent, so a
    new user is neither recorded nor announced; in the first case nothing
    is logged either. *)
Theorem message_left_alone w b msg :
  is_ignored msg = true \/ truthy (aiEnabled (core b)) = false ->
  let '(after, events) := on_message cfg adminId w b msg in
  after = b /\
  (forall ev, ev ∈ events -> exists line, ev = Did (LogInfo line)) /\
  (is_ignored msg = true -> events = []).
Proof.
  intros Hwhy. unfold on_message.
  destruct (msg_text msg) as [messageText|] eqn:Htext.
  - destruct (is_ignored msg) eqn:Hignored.
    + split; [reflexivity|]. split; [|reflexivity].
      intros ev Hev. apply elem_of_nil in Hev. destruct Hev.
    + destruct Hwhy as [Hwhy|Hoff]; [discriminate Hwhy|].
      rewrite Hoff. cbn [negb]. split; [reflexivity|]. split.
      * intros ev Hev. apply list_elem_of_singleton in Hev. subst ev.
        eexists. reflexivity.
      * discriminate.
  - split; [reflexivity|]. split; [|reflexivity].
    intros ev Hev. apply elem_of_nil in Hev. destruct Hev.
Qed.

(** X21: the operator hears of a user once. With the AI toggle on, the
    first message of a user who is not in the cache adds the user at the
    end of the cache, and a later message of the same user leaves the cache
    as it is, whatever the outside world answers in both runs. Of the runs
    that do not end in the error handler (which sends the operator a report
    of its own), the first sends the operator exactly one notice and the
    later one sends none; a run in which the typing indicator and the
    answer are delivered and the answer is a string does not end in the
    error handler. *)
Theorem new_user_is_announced_once w w' b msg msg' text text' :
  truthy (aiEnabled (core b)) = true ->
  msg_text msg = Some text -> is_ignored msg = false ->
  msg_text msg' = Some text' -> is_ignored msg' = false ->
  msg_from_id msg' = msg_from_id msg ->
  set_has (msg_from_id msg) (userCache b) = false ->
  let '(b1, events1) := on_message cfg adminId w b msg in
  let '(b2, events2) := on_message cfg adminId w' b1 msg' in
  userCache b1 = userCache b ++ [msg_from_id msg] /\
  (ends_in_handleError events1 = false ->
   notices_to adminId events1 = 1%nat) /\
  userCache b2 = userCache b1 /\
  (ends_in_handleError events2 = false ->
   notices_to adminId events2 = 0%nat) /\
  (typing_indicator w = Returned tt -> answer_delivery w = Returned tt ->
   (exists answer,
      (getAIResponse cfg (turn_clock w) (completion w) (core b)
         (msg_chat_id msg) text).1.1 = JString answer) ->
   ends_in_handleError events1 = false).
Proof.
  intros Hon Htext Hkept Htext' Hkept' Hsame Hnew.
  pose proof (on_message_spec w b msg text Htext Hkept Hon) as H1.
  pose proof (on_message_quiet w b msg text Htext Hkept Hon) as Hquiet1.
  destruct (on_message cfg adminId w b msg) as [b1 events1].
  destruct H1 as (Hcache1 & Hnotice1 & Hcore1 & _).
  rewrite Hnew in Hnotice1. unfold set_add in Hcache1.
  rewrite Hnew in Hcache1.
  assert (Hon1 : truthy (aiEnabled (core b1)) = true).
  { rewrite Hcore1. destruct (typing_indicator w); [|exact Hon].
    destruct (getAIResponse_frame cfg (turn_clock w) (completion w)
                (core b) (msg_chat_id msg) text) as (_ & -> & _).
    exact Hon. }
  assert (Hknown : set_has (msg_from_id msg') (userCache b1) = true).
  { apply set_has_spec. rewrite Hcache1, Hsame. apply elem_of_app. right.
    apply list_elem_of_here. }
  pose proof (on_message_spec w' b1 msg' text' Htext' Hkept' Hon1) as H2.
  destruct (on_message cfg adminId w' b1 msg') as [b2 events2].
  destruct H2 as (Hcache2 & Hnotice2 & _).
  rewrite Hknown in Hnotice2. unfold set_add in Hcache2.
  rewrite Hknown in Hcache2. cbn [snd] in Hquiet1.
  split; [exact Hcache1|]. split; [intros _; exact Hnotice1|].
  split; [exact Hcache2|]. split; [intros _; exact Hnotice2|].
  exact Hquiet1.
Qed.


End MessageHandler.

Lemma message_left_alone_witness :
  let b := fresh_bot empty_disk None in
  on_message sample_config 1 sample_message_world b (sample_message 42 "/start")
  = (b, []).
Proof.
  intros b.
  pose proof (message_left_alone sample_config 1 sample_message_world b
                (sample_message 42 "/start") (or_introl eq_refl)) as H.
  destruct (on_message _ _ _ _ _) as [after events].
  destruct H as (-> & _ & Hnone). rewrite (Hnone eq_refl). reflexivity.
Defined.

Lemma new_user_is_announced_once_witness :
  let b := fresh_bot empty_disk None in
  let run1 := on_message sample_config 1 sample_message_world b
                (sample_message 42 "halo") in
  let run2 := on_message sample_config 1 sample_message_world run1.1
                (sample_message 42 "apa kabar") in
  ends_in_handleError run1.2 = false /\
  ends_in_handleError run2.2 = false /\
  notices_to 1 run1.2 = 1%nat /\ notices_to 1 run2.2 = 0%nat.
Proof.
  intros b run1 run2.
  pose proof (new_user_is_announced_once sample_config 1
                sample_message_world sample_message_world b
                (sample_message 42 "halo") (sample_message 42 "apa kabar")
                "halo" "apa kabar"
                eq_refl eq_refl eq_refl eq_refl eq_refl eq_refl eq_refl) as H.
  assert (Hquiet1 : ends_in_handleError run1.2 = false) by reflexivity.
  assert (Hquiet2 : ends_in_handleError run2.2 = false) by reflexivity.
  split; [exact Hquiet1|]. split; [exact Hquiet2|].
  subst run1 run2.
  destruct (on_message sample_config 1 sample_message_world b
              (sample_message 42 "halo")) as [b1 events1].
  cbn [fst snd] in *.
  destruct (on_message sample_config 1 sample_message_world b1
              (sample_message 42 "apa kabar")) as [b2 events2].
  cbn [snd] in *. destruct H as (_ & H1 & _ & H2 & _).
  split; [exact (H1 Hquiet1) | exact (H2 Hquiet2)].
Defined.


(** ** Panel accounts *)

Section Passwords.

Implicit Types (draw : nat -> nat) (password chars : string).

Lemma string_length_append s1 s2 :
  String.length (s1 +:+ s2) = (String.length s1 + String.length s2)%nat.
Proof.
  induction s1 as [|a s1 IH]; [reflexivity|].
  change (S (String.length (s1 +:+ s2))
          = S (String.length s1 + String.length s2)).
  rewrite IH. reflexivity.
Qed.

Lemma list_of_append s1 s2 :
  list_ascii_of_string (s1 +:+ s2)
  = list_ascii_of_string s1 ++ list_ascii_of_string s2.
Proof.
  induction s1 as [|a s1 IH]; [reflexivity|].
  change (a :: list_ascii_of_string (s1 +:+ s2)
          = a :: (list_ascii_of_string s1 ++ list_ascii_of_string s2)).
  rewrite IH. reflexivity.
Qed.

Lemma get_in_range chars (n : nat) :
  (n < String.length chars)%nat ->
  exists c, String.get n chars = Some c /\ In c (list_ascii_of_string chars).
Proof.
  revert n. induction chars as [|a chars IH]; intros n Hn;
    [cbn in Hn; lia|].
  destruct n as [|n].
  - exists a. split; [reflexivity | left; reflexivity].
  - cbn in Hn. destruct (IH n ltac:(lia)) as (c & Hget & Hin).
    exists c. split; [exact Hget | right; exact Hin].
Qed.

Lemma charAt_in_range chars (n : nat) :
  (n < String.length chars)%nat ->
  String.length (charAt chars n) = 1%nat /\
  only_chars_of chars (charAt chars n).
Proof.
  intros Hn. unfold charAt.
  destruct (get_in_range chars n Hn) as (c & -> & Hin).
  split; [reflexivity|]. repeat constructor. exact Hin.
Qed.

Lemma password_loop_spec draw (i remaining : nat) password :
  (forall j, (draw j < 62)%nat) ->
  only_chars_of password_chars password ->
  String.length (password_loop draw i remaining password)
  = (String.length password + remaining)%nat /\
  only_chars_of password_chars (password_loop draw i remaining password).
Proof.
  intros Hdraw. revert i password.
  induction remaining as [|remaining IH]; intros i password Hpw.
  - cbn [password_loop]. split; [lia | exact Hpw].
  - cbn [password_loop].
    destruct (charAt_in_range password_chars (draw i)) as [Hone Hin].
    { apply Hdraw. }
    destruct (IH (S i) (password +:+ charAt password_chars (draw i)))
      as [Hlen Hall].
    + unfold only_chars_of in *. rewrite list_of_append.
      apply Forall_app. split; assumption.
    + split; [|exact Hall].
      rewrite Hlen, string_length_append, Hone. lia.
Qed.

Lemma generateRandomPassword_spec draw (length : nat) :
  (forall j, (draw j < 62)%nat) ->
  String.length (generateRandomPassword draw length) = length /\
  only_chars_of password_chars (generateRandomPassword draw length).
Proof.
  intros Hdraw. unfold generateRandomPassword.
  destruct (password_loop_spec draw 0 length EmptyString Hdraw) as [Hlen Hall].
  - constructor.
  - split; [exact Hlen | exact Hall].
Qed.

(** X23: a generated password has exactly the length asked for and only
    letters and digits, given that every draw
    [Math.floor(Math.random() * 62)] is below 62. *)
Theorem password_has_length_and_alphabet draw (length : nat) :
  (forall j, (draw j < 62)%nat) ->
  String.length (generateRandomPassword draw length) = length /\
  only_chars_of password_chars (generateRandomPassword draw length).
Proof. apply generateRandomPassword_spec. Qed.

Lemma password_has_length_and_alphabet_witness :
  String.length (generateRandomPassword (fun i => ((7 * i + 3) mod 62)%nat) 12)
  = 12%nat.
Proof.
  apply (password_has_length_and_alphabet
           (fun i => ((7 * i + 3) mod 62)%nat) 12).
  intros j. apply Nat.mod_upper_bound. discriminate.
Defined.

End Passwords.

Section PanelLedger.

Implicit Types (ledger : Ledger) (account : AccountData)
  (accounts : list AccountData).

Lemma savePanelAccountData_cases ledger account :
  let '(after, events) := savePanelAccountData ledger account in
  match accounts_file ledger, ledger_write_failure ledger with
  | Some (Broken error), _ | _, Some error =>
      after = ledger /\
      events = [PanelDid (LogError ("Save panel account error: " +:+ error))]
  | _, None =>
      after = {| accounts_file :=
                   Some (Parsed (ledger_entries ledger ++ [account]));
                 ledger_write_failure := None |} /\
      events = [PanelDid (LogInfo ("Panel account data saved: "
                                   +:+ acc_username account))]
  end.
Proof.
  unfold savePanelAccountData, ledger_entries.
  destruct (accounts_file ledger) as [[error|accounts]|];
    destruct (ledger_write_failure ledger) as [failure|];
    split; reflexivity.
Qed.

(** X24: the ledger of accounts only grows at its end: after any sequence
    of saves the entries that the file held before are still its first
    entries, in the same order; a file that cannot be parsed is never
    overwritten; and when the file parses (or is absent) and can be
    written, the entries after are exactly the entries before followed by
    the saved accounts. *)
Theorem ledger_is_append_only ledger accounts :
  let after := save_accounts ledger accounts in
  (exists added, ledger_entries after = ledger_entries ledger ++ added) /\
  (forall error,
     accounts_file ledger = Some (Broken error) -> after = ledger) /\
  (ledger_write_failure ledger = None ->
   (forall error, accounts_file ledger <> Some (Broken error)) ->
   ledger_entries after = ledger_entries ledger ++ accounts).
Proof.
  cbv zeta. revert ledger.
  induction accounts as [|account accounts IH]; intros ledger.
  - cbn [save_accounts foldl]. split; [exists []; symmetry; apply app_nil_r|].
    split; [reflexivity|]. intros _ _. symmetry. apply app_nil_r.
  - unfold save_accounts in *. cbn [foldl].
    pose proof (savePanelAccountData_cases ledger account) as Hstep.
    destruct (savePanelAccountData ledger account) as [next events].
    cbn [fst]. destruct (IH next) as (Hgrow & Hbroken & Hexact).
    destruct (accounts_file ledger) as [[error|stored]|] eqn:Hfile.
    + destruct Hstep as [-> _]. split; [exact Hgrow|].
      split; [intros error' _; exact (Hbroken error Hfile)|].
      intros _ Hparsed. exfalso. apply (Hparsed error). reflexivity.
    + destruct (ledger_write_failure ledger) as [failure|] eqn:Hw.
      * destruct Hstep as [-> _]. split; [exact Hgrow|].
        split; [intros error'; discriminate|].
        intros Hwritable. discriminate Hwritable.
      * destruct Hstep as [-> _].
        assert (Hnext : ledger_entries
          {| accounts_file :=
               Some (Parsed (ledger_entries ledger ++ [account]));
             ledger_write_failure := None |}
          = ledger_entries ledger ++ [account]) by reflexivity.
        rewrite Hnext in Hgrow, Hexact.
        split; [|split].
        -- destruct Hgrow as [added ->]. exists ([account] ++ added).
           rewrite <- app_assoc. reflexivity.
        -- intros error'. discriminate.
        -- intros _ _. rewrite Hexact.
           ++ rewrite <- app_assoc. reflexivity.
           ++ reflexivity.
           ++ intros error'. discriminate.
    + destruct (ledger_write_failure ledger) as [failure|] eqn:Hw.
      * destruct Hstep as [-> _]. split; [exact Hgrow|].
        split; [intros error'; discriminate|].
        intros Hwritable. discriminate Hwritable.
      * destruct Hstep as [-> _].
        assert (Hnext : ledger_entries
          {| accounts_file :=
               Some (Parsed (ledger_entries ledger ++ [account]));
             ledger_write_failure := None |}
          = ledger_entries ledger ++ [account]) by reflexivity.
        rewrite Hnext in Hgrow, Hexact.
        split; [|split].
        -- destruct Hgrow as [added ->]. exists ([account] ++ added).
           rewrite <- app_assoc. reflexivity.
        -- intros error'. discriminate.
        -- intros _ _. rewrite Hexact.
           ++ rewrite <- app_assoc. reflexivity.
           ++ reflexivity.
           ++ intros error'. discriminate.
Qed.

End PanelLedger.

Section PanelAccounts.

Variable panel : PanelConfig.

Implicit Types (w : PanelWorld) (ledger : Ledger) (packageInfo : PackageInfo)
  (userId : Z) (userName : JsValue).

(** X25: what the user is told about a new panel account does not depend
    on the ledger: the result of [createPanelAccount] is the same for any
    two ledgers, so a ledger that cannot be read or written does not turn
    a created account into a failure; and a failed creation leaves the
    ledger exactly as it was. *)
Theorem panel_result_ignores_ledger w ledger ledger' packageInfo userId
    userName :
  (createPanelAccount panel w ledger packageInfo userId userName).1.1
  = (createPanelAccount panel w ledger' packageInfo userId userName).1.1 /\
  (forall error,
     (createPanelAccount panel w ledger packageInfo userId userName).1.1
     = PanelFailed error ->
     (createPanelAccount panel w ledger packageInfo userId userName).1.2
     = ledger).
Proof.
  unfold createPanelAccount.
  destruct (callPanelAPI panel (panel_outcome w) _)
    as [[|success error] called].
  - split; [reflexivity|]. intros error _. reflexivity.
  - destruct (truthy success).
    + destruct (valid_time (created_time w)
                && valid_time (expiry_base_time w
                               + pkg_duration packageInfo * 24 * 60 * 60 * 1000)).
      * destruct (savePanelAccountData ledger _) as [after saved].
        destruct (savePanelAccountData ledger' _) as [after' saved'].
        split; [reflexivity|]. intros error' Hfailed. discriminate Hfailed.
      * split; [reflexivity|]. intros error' _. reflexivity.
    + split; [reflexivity|]. intros error' _. reflexivity.
Qed.

(** X26: without an API key or an API address the panel is simulated: no
    request is posted, and when the clock readings are dates that can be
    printed and every draw of the password is below 62, the account is
    reported as created with a password of 12 characters; if the ledger
    parses (or is absent) and can be written, it gains exactly one entry,
    for this user and package, which expires [duration] days after the
    clock reading. *)
Theorem simulated_panel_creates_account w ledger packageInfo userId
    userName :
  truthy (panel_apiKey panel) && truthy (panel_apiUrl panel) = false ->
  valid_time (created_time w) = true ->
  valid_time (expiry_base_time w
              + pkg_duration packageInfo * 24 * 60 * 60 * 1000) = true ->
  (forall j, (password_draw w j < 62)%nat) ->
  let '(result, after, events) :=
    createPanelAccount panel w ledger packageInfo userId userName in
  List.filter is_panel_post events = [] /\
  exists username password,
    result = PanelCreated username password (panel_url panel)
               (panel_port panel) /\
    String.length password = 12%nat /\
    (ledger_write_failure ledger = None ->
     (forall error, accounts_file ledger <> Some (Broken error)) ->
     ledger_entries after
     = ledger_entries ledger
       ++ [ {| acc_username := username; acc_password := password;
               acc_userId := userId; acc_userName := userName;
               acc_package := pkg_size packageInfo;
               acc_createdAt := created_time w;
               acc_expiresAt :=
                 expiry_base_time w
                 + pkg_duration packageInfo * 86400000 |} ]).
Proof.
  intros Hsim Hcreated Hexpiry Hdraw.
  unfold createPanelAccount, callPanelAPI. rewrite Hsim.
  cbn [truthy]. rewrite Hcreated, Hexpiry. cbn [andb].
  match goal with
  | |- context [savePanelAccountData ledger ?a] =>
      pose proof (savePanelAccountData_cases ledger a) as Hsave;
      destruct (savePanelAccountData ledger a) as [after saved]
  end.
  assert (Hquiet : List.filter is_panel_post saved = []).
  { destruct (accounts_file ledger) as [[error|stored]|];
      destruct (ledger_write_failure ledger) as [failure|];
      destruct Hsave as [_ ->]; reflexivity. }
  split.
  - cbn [app List.filter is_panel_post]. exact Hquiet.
  - eexists _, _. split; [reflexivity|]. split.
    + apply generateRandomPassword_spec. exact Hdraw.
    + intros Hw Hparsed.
      rewrite Hw in Hsave.
      replace (pkg_duration packageInfo * 86400000)
        with (pkg_duration packageInfo * 24 * 60 * 60 * 1000) by lia.
      destruct (accounts_file ledger) as [[error|stored]|] eqn:Hfile.
      * exfalso. apply (Hparsed error). reflexivity.
      * destruct Hsave as [-> _]. reflexivity.
      * destruct Hsave as [-> _]. reflexivity.
Qed.

End PanelAccounts.

Lemma simulated_panel_creates_account_witness :
  let '(result, after, events) :=
    createPanelAccount simulated_panel sample_panel_world empty_ledger
      sample_package 42 (JString "Budi") in
  exists username password,
    result = PanelCreated username password (panel_url simulated_panel)
               (panel_port simulated_panel) /\
    String.length password = 12%nat.
Proof.
  pose proof (simulated_panel_creates_account simulated_panel
                sample_panel_world empty_ledger sample_package 42
                (JString "Budi") eq_refl eq_refl eq_refl) as H.
  destruct (createPanelAccount _ _ _ _ _ _) as [[result after] events].
  destruct H as (_ & username & password & Hresult & Hlen & _).
  - intros j. apply Nat.mod_upper_bound. discriminate.
  - exists username, password. split; assumption.
Defined.

(** ** Switching the personality *)

Section PersonalitySwitch.

Variable cfg : BotConfig.

Implicit Types (s : State) (chatId : Z) (personalityKey : string).

(** The chat after a switch to a key whose lookup gives a truthy value. *)
Lemma set_personality_seeds
    now clock s chatId personalityKey message aiResponse content :
  chosen_systemMessage cfg personalityKey = Some content ->
  let seed := {| role := JString "system"; content := content;
                 timestamp := JNumber now |} in
  let switched := (set_personality cfg now s chatId personalityKey).1 in
  conversationHistory switched !! chatId = Some [seed] /\
  (forall other, other <> chatId ->
     conversationHistory switched !! other
     = conversationHistory s !! other) /\
  (truthy (aiEnabled s) = true ->
   conversationHistory
     (getAIResponse cfg clock (AiBody aiResponse) switched chatId
        message).1.2 !! chatId
   = Some [seed; user_message message clock;
           assistant_message aiResponse clock]).
Proof.
  intros Hchosen. unfold set_personality. rewrite Hchosen. cbv zeta.
  match goal with
  | |- context [saveConversationHistory ?s0] =>
      pose proof (saveConversationHistory_memory s0) as (Hmem & Hai & _);
      destruct (saveConversationHistory s0) as [switched saved]
  end.
  cbn [fst conversationHistory aiEnabled set_conversationHistory] in *.
  assert (Hseed : conversationHistory switched !! chatId
    = Some [ {| role := JString "system"; content := content;
                timestamp := JNumber now |} ]).
  { rewrite Hmem. apply lookup_insert_eq. }
  split; [exact Hseed|]. split.
  - intros other Hother. rewrite Hmem. apply lookup_insert_ne. congruence.
  - intros Hon. rewrite getAIResponse_success by (rewrite Hai; exact Hon).
    unfold initialised. rewrite Hseed. reflexivity.
Qed.

(** X27: choosing a personality that the configuration has replaces the
    history of the chat by the system message of that personality alone
    and leaves the other chats as they are; the next answered turn then
    gives system, user, assistant, without a second system message. A key
    that the configuration does not have but that the object inherits
    ([constructor], [toString], [__proto__] and the like) does the same
    with a system message whose content is [undefined]. Any other key
    changes nothing. *)
Theorem personality_switch_resets_the_chat
    now clock s chatId personalityKey message aiResponse :
  let switched := (set_personality cfg now s chatId personalityKey).1 in
  let reset_to content :=
    let seed := {| role := JString "system"; content := content;
                   timestamp := JNumber now |} in
    conversationHistory switched !! chatId = Some [seed] /\
    (forall other, other <> chatId ->
       conversationHistory switched !! other
       = conversationHistory s !! other) /\
    (truthy (aiEnabled s) = true ->
     conversationHistory
       (getAIResponse cfg clock (AiBody aiResponse) switched chatId
          message).1.2 !! chatId
     = Some [seed; user_message message clock;
             assistant_message aiResponse clock]) in
  match personalities cfg !! personalityKey with
  | Some personality => reset_to (systemMessage personality)
  | None =>
      if is_inherited_property personalityKey
      then reset_to JUndefined
      else set_personality cfg now s chatId personalityKey = (s, [])
  end.
Proof.
  cbv zeta.
  destruct (personalities cfg !! personalityKey) as [personality|] eqn:Hown.
  - apply set_personality_seeds. unfold chosen_systemMessage.
    rewrite Hown. reflexivity.
  - destruct (is_inherited_property personalityKey) eqn:Hinherited.
    + apply set_personality_seeds. unfold chosen_systemMessage.
      rewrite Hown, Hinherited. reflexivity.
    + unfold set_personality, chosen_systemMessage.
      rewrite Hown, Hinherited. reflexivity.
Qed.

End PersonalitySwitch.

(** ** Stopping and starting *)

Section StopAndStart.

Variable adminId : Z.

Implicit Types (b : Bot) (clock : LoadClock).

(** X28: a graceful shutdown followed by a start brings back what the
    process held, when the files can be written: the starting process has
    the same upload flag, the same user cache (which holds no identifier
    twice) and, for every chat, the valid messages of the history with
    their truthy timestamps. The AI flag is not written by the shutdown:
    the starting process takes it from the AI status file as it was. *)
Theorem shutdown_then_boot sent clock b :
  write_failure (disk (core b)) = None ->
  NoDup (userCache b) ->
  let stopped := (gracefulShutdown adminId sent b).1 in
  exists started effects,
    boot clock (disk (core stopped)) (user_cache_file stopped)
    = Returned (started, effects) /\
    uploadEnabled (core started) = uploadEnabled (core b) /\
    userCache started = userCache b /\
    aiEnabled (core started)
    = aiEnabled (loadAIStatus (fresh_process (disk (core b)))).1 /\
    forall chatId,
      match conversationHistory (core b) !! chatId with
      | Some stored =>
          exists loaded,
            conversationHistory (core started) !! chatId = Some loaded /\
            round_trip_of_truthy stored loaded
      | None => conversationHistory (core started) !! chatId = None
      end.
Proof.
  intros Hw Hnd.
  assert (Hstopped : (gracefulShutdown adminId sent b).1
    = {| core :=
           set_disk (core b)
             {| memory_file :=
                  Some (Parsed
                    ((fun msgs =>
                        filter (fun msg => valid_message msg = true) msgs)
                     <$> conversationHistory (core b)));
                upload_status_file :=
                  Some (Parsed (FlagDoc (uploadEnabled (core b))));
                ai_status_file := ai_status_file (disk (core b));
                corrupted_files := corrupted_files (disk (core b));
                write_failure := None |};
         userCache := userCache b;
         user_cache_file := Some (Parsed (userCache b)) |}).
  { unfold gracefulShutdown, saveConversationHistory. rewrite Hw.
    unfold saveUserCache, saveUploadStatus. cbn. reflexivity. }
  rewrite Hstopped. clear Hstopped.
  cbn [core disk set_disk user_cache_file].
  unfold boot, loadConversationHistory.
  cbn [fresh_bot core disk fresh_process memory_file set_core].
  unfold loadUserCache. cbn [user_cache_file core].
  unfold loadUploadStatus.
  cbn [core disk set_conversationHistory upload_status_file].
  assert (Hcache : new_Set (userCache b) = userCache b).
  { unfold new_Set. apply foldl_set_add_fresh. exact Hnd. }
  assert (Hchats : forall chatId,
    load_chats clock
      ((fun msgs => filter (fun msg => valid_message msg = true) msgs)
         <$> conversationHistory (core b)) ∅ !! chatId
    = (fun stored =>
         load_chat clock chatId
           (filter (fun m => valid_message m = true) stored))
      <$> conversationHistory (core b) !! chatId).
  { intros chatId. unfold load_chats.
    rewrite lookup_union, map_lookup_imap, lookup_fmap, lookup_empty.
    destruct (conversationHistory (core b) !! chatId); reflexivity. }
  unfold loadAIStatus. cbn [fresh_process disk].
  destruct (ai_status_file (disk (core b))) as [[error|[|flag]]|];
    (eexists _, _; split; [reflexivity|];
     cbn [core set_core uploadEnabled aiEnabled userCache conversationHistory
          set_aiEnabled set_uploadEnabled set_conversationHistory fst];
     split; [reflexivity|]; split; [exact Hcache|]; split; [reflexivity|];
     intros chatId; rewrite Hchats;
     destruct (conversationHistory (core b) !! chatId) as [stored|];
       [|reflexivity];
     eexists; split; [reflexivity|];
     unfold round_trip_of_truthy, load_chat; rewrite filter_valid_idemp;
     apply imap_backfill_Forall2).
Qed.

End StopAndStart.

Lemma personality_switch_resets_the_chat_witness :
  let s := process_with {[ 7 := [text_message "user" "tes" 1] ]} in
  conversationHistory
    (getAIResponse sample_config sample_clock (AiBody (JString "hai"))
       (set_personality sample_config 5 s 7 "ramah").1 7 "halo").1.2 !! 7
  = Some [ {| role := JString "system";
              content := JString "Kamu asisten ramah.";
              timestamp := JNumber 5 |};
           user_message "halo" sample_clock;
           assistant_message (JString "hai") sample_clock ] /\
  conversationHistory
    (getAIResponse sample_config sample_clock (AiBody (JString "hai"))
       (set_personality sample_config 5 s 7 "constructor").1 7 "halo").1.2
    !! 7
  = Some [ {| role := JString "system"; content := JUndefined;
              timestamp := JNumber 5 |};
           user_message "halo" sample_clock;
           assistant_message (JString "hai") sample_clock ].
Proof.
  intros s. split.
  - pose proof (personality_switch_resets_the_chat sample_config 5
                  sample_clock s 7 "ramah" "halo" (JString "hai")) as H.
    change (personalities sample_config !! "ramah")
      with (Some {| systemMessage := JString "Kamu asisten ramah." |}) in H.
    destruct H as (_ & _ & Hturn). apply Hturn. reflexivity.
  - pose proof (personality_switch_resets_the_chat sample_config 5
                  sample_clock s 7 "constructor" "halo" (JString "hai")) as H.
    change (personalities sample_config !! "constructor")
      with (@None Personality) in H.
    change (is_inherited_property "constructor") with true in H.
    destruct H as (_ & _ & Hturn). apply Hturn. reflexivity.
Defined.

Lemma shutdown_then_boot_witness :
  let b := {| core := set_uploadEnabled
                        (process_with {[ 7 := [text_message "user" "tes" 1] ]})
                        (JBool false);
              userCache := [42; 7]; user_cache_file := None |} in
  let stopped := (gracefulShutdown 1 (Returned tt) b).1 in
  exists started effects,
    boot sample_load_clock (disk (core stopped)) (user_cache_file stopped)
    = Returned (started, effects) /\
    uploadEnabled (core started) = JBool false /\
    userCache started = [42; 7].
Proof.
  intros b stopped.
  destruct (shutdown_then_boot 1 (Returned tt) sample_load_clock b eq_refl)
    as (started & effects & Hboot & Hupload & Hcache & _).
  - apply (bool_decide_unpack _). vm_compute. exact I.
  - exists started, effects. split; [exact Hboot|].
    split; [exact Hupload | exact Hcache].
Defined.

(** ** The photo handler *)

Section PhotoHandler.

Implicit Types (w : VideoWorld) (s : State) (msg : PhotoMessage).

(** X29: of the sizes of a photo the handler fetches the last one and no
    other, whatever its size. The handler never changes the state. With the
    upload toggle on and the typing indicator delivered, the one download
    is that of the last entry of [msg.photo]; with the toggle off, or the
    typing indicator undelivered, there is no download. When the list is
    empty the handler downloads nothing and, after the typing indicator,
    does nothing but hand the TypeError to the error handler. *)
Theorem photo_fetches_the_last_size w s msg :
  let '(after, effects) := on_photo w s msg in
  after = s /\
  (truthy (uploadEnabled s) = true -> typing w = Returned tt ->
   List.filter is_download effects
   = match last (photo_sizes msg) with
     | Some photo => [BotGetFile (photo_file_id photo)]
     | None => []
     end) /\
  (truthy (uploadEnabled s) = false \/ (exists error, typing w = Thrown error) ->
   List.filter is_download effects = []) /\
  (truthy (uploadEnabled s) = true -> typing w = Returned tt ->
   photo_sizes msg = [] ->
   effects = [BotSendChatAction (photo_chat_id msg) "typing";
              HandleError cannot_read_file_id "photo_upload"]).
Proof.
  unfold on_photo, photo_try.
  destruct (truthy (uploadEnabled s)) eqn:Hon; cbn [negb].
  - destruct (typing w) as [[]|error] eqn:Htyping.
    + destruct (last (photo_sizes msg)) as [photo|] eqn:Hlast.
      * unfold downloadFileFromTelegram, uploadToCatbox.
        destruct (telegram_file w) as [failure|buffer baseName];
          destruct (catbox w) as [rejection|[| |[]|n|body]|];
          cbn [truthy negb];
          try destruct (negb (Z.eqb n 0));
          try destruct (negb (String.eqb body EmptyString));
          try destruct (String.prefix catbox_link_prefix body);
          destruct (delivery w) as [[]|undelivered];
          (split; [reflexivity|]; split; [reflexivity|]; split;
           [intros [Hoff|[error Herror]]; discriminate
           |intros _ _ Hempty; rewrite Hempty in Hlast; discriminate Hlast]).
      * split; [reflexivity|]. split; [reflexivity|]. split; [|reflexivity].
        intros [Hoff|[error Herror]]; discriminate.
    + split; [reflexivity|]. split; [discriminate|].
      split; [reflexivity|discriminate].
  - split; [reflexivity|]. split; [discriminate|].
    split; [reflexivity|discriminate].
Qed.

End PhotoHandler.

Lemma photo_fetches_the_last_size_witness :
  let msg := {| photo_chat_id := 7; photo_from_id := 42;
                photo_first_name := JString "Budi";
                photo_sizes :=
                  [ {| photo_file_id := "small";
                       photo_file_size := Some 1000 |};
                    {| photo_file_id := "large";
                       photo_file_size := Some 900000000 |} ] |} in
  List.filter is_download
    (on_photo sample_world (fresh_process empty_disk) msg).2
  = [BotGetFile "large"].
Proof.
  intros msg.
  pose proof (photo_fetches_the_last_size sample_world
                (fresh_process empty_disk) msg) as H.
  destruct (on_photo sample_world (fresh_process empty_disk) msg)
    as [after effects].
  destruct H as (_ & Hfetch & _). exact (Hfetch eq_refl eq_refl).
Defined.

(** ** The error handler *)

Section ErrorHandler.

Variable general : JsValue.
Variable adminId : Z.

Implicit Types (error : JsError) (context : ErrorContext).

(** X30: whatever the error, the error handler writes one log line first,
    tells the operator exactly once and the user at most once; the user is
    told nothing when the context has no chat, and nothing when the error
    is that of an edit whose target is gone; an error that carries the
    status 403 gives the user the fixed text about missing permission,
    whatever its message. *)
Theorem error_is_reported admin_sent user_sent error context :
  let events :=
    handleError general adminId admin_sent user_sent error context in
  head events
  = Some (Did (LogError ("Error terdeteksi: " +:+ error_message error))) /\
  notices_to adminId events = 1%nat /\
  (length (List.filter is_text_sent events) <= 1)%nat /\
  (given (ctx_chatId context) = false ->
   List.filter is_text_sent events = []) /\
  (is_stale_edit error -> List.filter is_text_sent events = []) /\
  ((exists response,
      error_response error = Some response /\ statusCode response = 403) ->
   forall chatId, ctx_chatId context = Some chatId -> chatId <> 0 ->
   List.filter is_text_sent events
   = [BotSendText chatId (JString not_allowed_text)]).
Proof.
  cbv zeta. unfold handleError.
  set (forUser := errorMessageForUser general error).
  set (notice := notifyAdmin adminId admin_sent
                   (adminNotificationMessage error context)).
  assert (Hnotice_texts : List.filter is_text_sent (map Did notice) = []).
  { subst notice. unfold notifyAdmin. destruct admin_sent; reflexivity. }
  assert (Htexts : forall tail,
    List.filter is_text_sent
      ([Did (LogError ("Error terdeteksi: " +:+ error_message error))]
       ++ map Did notice ++ tail)
    = List.filter is_text_sent tail).
  { intros tail. rewrite !List.filter_app, Hnotice_texts. reflexivity. }
  split; [reflexivity|]. split; [|split; [|split; [|split]]].
  - rewrite !notices_to_app. subst notice. rewrite notices_to_notifyAdmin.
    destruct (truthy forUser && given (ctx_chatId context));
      [destruct user_sent|]; reflexivity.
  - rewrite Htexts.
    destruct (truthy forUser && given (ctx_chatId context));
      [destruct user_sent|]; cbn; lia.
  - intros Hchat. rewrite Htexts, Hchat, andb_false_r. reflexivity.
  - intros ((response & Hresponse & Hcode) & Hstale & Hblocked & Hmissing).
    rewrite Htexts.
    assert (HforUser : forUser = JNull).
    { subst forUser. unfold errorMessageForUser.
      rewrite Hresponse, Hcode, Hblocked, Hmissing, Hstale. reflexivity. }
    rewrite HforUser. reflexivity.
  - intros (response & Hresponse & Hcode) chatId Hchat Hnonzero.
    rewrite Htexts.
    assert (HforUser : forUser = JString not_allowed_text).
    { subst forUser. unfold errorMessageForUser.
      rewrite Hresponse, Hcode. reflexivity. }
    rewrite HforUser, Hchat. cbn [given default from_option id].
    destruct (Z.eqb_spec chatId 0) as [|_]; [congruence|].
    cbn [truthy negb andb]. destruct user_sent; reflexivity.
Qed.

End ErrorHandler.

Lemma error_is_reported_witness :
  List.filter is_text_sent
    (handleError (JString "Maaf, terjadi kesalahan.") 1 (Returned tt)
       (Returned tt) stale_edit_error sample_context)
  = [].
Proof.
  apply (error_is_reported (JString "Maaf, terjadi kesalahan.") 1
           (Returned tt) (Returned tt) stale_edit_error sample_context).
  repeat split.
  exists {| statusCode := 400;
            description := JString "Bad Request: message to edit not found" |}.
  split; reflexivity.
Defined.
